(** * Dayflow timeline construction: segment merging, card generation, consolidation

    A shallow embedding of the timeline pipeline of the repository
    ([process_videos.py], [activity_card_merger.py],
    [process_dummy_observations.py]) together with the properties its
    specification states about it.

    Conventions of the embedding.

    - Python values that reach the pipeline from JSON are values of [pyval];
      the [str] annotations of the data classes are not enforced by Python, so
      card fields and observation texts are [pyval]s, and the operations
      applied to them raise where Python raises.
    - A [str] is its UTF-8 byte sequence ([string]).
    - Exceptions are explicit: a computation returns [OK v] or [Raise e].
    - What belongs to the Python runtime or to an external service is an
      interface: float arithmetic ([PyFloat]), the library calls
      ([PyRuntime]) and the inference service (a function from the number of
      calls issued so far and the prompt to an outcome).  The subprocesses
      of the first stage (ffprobe, ffmpeg) are variables of the section of
      the frames in the same way.
    - A prompt is the template it is built from plus the values interpolated
      into it; the fixed wording of the templates is not reproduced.
    - The logger, the LLM call records and [print] itself are taken to accept
      whatever they are given; they carry nothing back into the pipeline and
      are left out.  What is evaluated for them is not left out where it can
      raise: the length of the parsed segments, the clock of the window a
      driver prints.
    - The debug files can raise.  Where the code dumps the response of a call
      inside the [try] block of that call, the dump is part of the outcome of
      the call (see [outcome] and [with_dump]); a directory that is created
      and a file that is written outside every [try] block are operations of
      the host ([PyHost]). *)

From Stdlib Require Import ZArith List String Ascii Bool Lia DecimalString.
From Stdlib Require Import Sorted Permutation.
Import ListNotations.

Local Open Scope string_scope.
Local Open Scope list_scope.
Local Open Scope Z_scope.

(** ** Exceptions *)

Inductive exn_class :=
| JSONDecodeError | ValueError | TypeError | AttributeError | KeyError
| IndexError | OverflowError | RequestException | OtherException.

Inductive py_type := TNone | TBool | TInt | TFloat | TStr | TList | TDict.

(** [Raised c origin]: an exception of class [c] raised by the interpreter, the
    standard library or the inference service ([origin] names the operation).
    The other constructors are the [ValueError]s the repository raises itself,
    with the values their messages interpolate. *)
Inductive exn :=
| Raised (cls : exn_class) (origin : string)
| ExpectedType (expected got : py_type)
| CouldNotParseJSON (response_prefix : string)
| InvalidTimestampFormat (timestamp : string).

Definition is_json_decode_error (e : exn) : bool :=
  match e with
  | Raised JSONDecodeError _ => true
  | _ => false
  end.

Inductive exc (A : Type) :=
| OK (a : A)
| Raise (e : exn).

Arguments OK {A} a.
Arguments Raise {A} e.

Definition exc_bind {A B} (m : exc A) (k : A -> exc B) : exc B :=
  match m with
  | OK a => k a
  | Raise e => Raise e
  end.

Declare Scope exc_scope.
Delimit Scope exc_scope with exc.
Notation "x <- m ;; k" := (exc_bind m (fun x => k))
  (at level 61, m at next level, right associativity) : exc_scope.

(** [for x in l: ...] collecting one result per element; the first element
    that raises ends the loop. *)
Fixpoint exc_map {A B} (f : A -> exc B) (l : list A) : exc (list B) :=
  match l with
  | [] => OK []
  | x :: l' =>
      match f x with
      | OK y =>
          match exc_map f l' with
          | OK ys => OK (y :: ys)
          | Raise e => Raise e
          end
      | Raise e => Raise e
      end
  end.

(** ** The float interface *)

Class PyFloat := {
  pyfloat : Type;
  (** [x + y] on two floats *)
  float_add : pyfloat -> pyfloat -> pyfloat;
  (** [x + n] with [n] an [int]: [OverflowError] when [n] has no float *)
  float_add_int : pyfloat -> Z -> exc pyfloat;
  (** [x // k] and [x % k] for a non-zero int constant [k] *)
  float_floordiv : pyfloat -> Z -> pyfloat;
  float_mod : pyfloat -> Z -> pyfloat;
  (** [int(x)]: raises on infinities and NaN *)
  int_of_float : pyfloat -> exc Z;
  (** [bool(x)] *)
  float_truthy : pyfloat -> bool;
  (** identity of representation *)
  float_eq_dec : forall x y : pyfloat, {x = y} + {x <> y}
}.

(** ** Python values *)

Section Values.
Context {F : PyFloat}.

#[warnings="-register-all"]
Inductive pyval :=
| PNone
| PBool (b : bool)
| PInt (z : Z)
| PFloat (f : pyfloat)
| PStr (s : string)
| PList (l : list pyval)
| PDict (d : list (string * pyval)).

Definition type_of (v : pyval) : py_type :=
  match v with
  | PNone => TNone
  | PBool _ => TBool
  | PInt _ => TInt
  | PFloat _ => TFloat
  | PStr _ => TStr
  | PList _ => TList
  | PDict _ => TDict
  end.

(** [isinstance(v, t)]; [bool] is a subclass of [int] *)
Definition isinstance (v : pyval) (t : py_type) : bool :=
  match v, t with
  | PNone, TNone => true
  | PBool _, TBool => true
  | PBool _, TInt => true
  | PInt _, TInt => true
  | PFloat _, TFloat => true
  | PStr _, TStr => true
  | PList _, TList => true
  | PDict _, TDict => true
  | _, _ => false
  end.

(** [bool(v)], the test of an [if] *)
Definition py_truthy (v : pyval) : bool :=
  match v with
  | PNone => false
  | PBool b => b
  | PInt z => negb (z =? 0)
  | PFloat f => float_truthy f
  | PStr s => negb (s =? EmptyString)%string
  | PList l => match l with [] => false | _ => true end
  | PDict d => match d with [] => false | _ => true end
  end.

Fixpoint assoc (k : string) (d : list (string * pyval)) : option pyval :=
  match d with
  | [] => None
  | (k', v) :: d' => if (k' =? k)%string then Some v else assoc k d'
  end.

(** [v[key]] with a string key *)
Definition py_getitem (v : pyval) (key : string) : exc pyval :=
  match v with
  | PDict d =>
      match assoc key d with
      | Some x => OK x
      | None => Raise (Raised KeyError key)
      end
  | _ => Raise (Raised TypeError "subscript")
  end.

(** [v.get(key, default)] *)
Definition py_get (v : pyval) (key : string) (default : pyval) : exc pyval :=
  match v with
  | PDict d =>
      match assoc key d with
      | Some x => OK x
      | None => OK default
      end
  | _ => Raise (Raised AttributeError "get")
  end.

(** [len(v)] *)
Definition py_len (v : pyval) : exc nat :=
  match v with
  | PStr s => OK (String.length s)
  | PList l => OK (List.length l)
  | PDict d => OK (List.length d)
  | _ => Raise (Raised TypeError "len")
  end.

Fixpoint chars (s : string) : list pyval :=
  match s with
  | EmptyString => []
  | String c s' => PStr (String c EmptyString) :: chars s'
  end.

(** The elements a [for] loop visits: the items of a list, the keys of a
    dict, the characters of a str (here one per byte). *)
Definition py_iter (v : pyval) : exc (list pyval) :=
  match v with
  | PList l => OK l
  | PDict d => OK (map (fun kv => PStr (fst kv)) d)
  | PStr s => OK (chars s)
  | _ => Raise (Raised TypeError "iter")
  end.

Definition int_of_bool (b : bool) : Z := if b then 1 else 0.

(** [a + b] *)
Definition py_add (a b : pyval) : exc pyval :=
  match a, b with
  | PStr x, PStr y => OK (PStr (x ++ y)%string)
  | PList x, PList y => OK (PList (x ++ y))
  | PInt x, PInt y => OK (PInt (x + y))
  | PInt x, PBool y => OK (PInt (x + int_of_bool y))
  | PBool x, PInt y => OK (PInt (int_of_bool x + y))
  | PBool x, PBool y => OK (PInt (int_of_bool x + int_of_bool y))
  | PFloat x, PFloat y => OK (PFloat (float_add x y))
  | PFloat x, PInt y | PInt y, PFloat x =>
      match float_add_int x y with
      | OK r => OK (PFloat r)
      | Raise e => Raise e
      end
  | PFloat x, PBool y | PBool y, PFloat x =>
      match float_add_int x (int_of_bool y) with
      | OK r => OK (PFloat r)
      | Raise e => Raise e
      end
  | _, _ => Raise (Raised TypeError "+")
  end.

End Values.

(** ** String operations *)

(** [s.split(sep)] for a one-character separator *)
Fixpoint split_on (sep : ascii) (s : string) : list string :=
  match s with
  | EmptyString => [EmptyString]
  | String c s' =>
      if Ascii.eqb c sep then EmptyString :: split_on sep s'
      else
        match split_on sep s' with
        | p :: ps => String c p :: ps
        | [] => [String c EmptyString]
        end
  end.

(** [s.find(c)]: the first index of [c], or -1 *)
Fixpoint str_find (c : ascii) (s : string) : Z :=
  match s with
  | EmptyString => -1
  | String c' s' =>
      if Ascii.eqb c' c then 0
      else let i := str_find c s' in if i =? -1 then -1 else i + 1
  end.

(** [s.rfind(c)]: the last index of [c], or -1 *)
Fixpoint str_rfind (c : ascii) (s : string) : Z :=
  match s with
  | EmptyString => -1
  | String c' s' =>
      let i := str_rfind c s' in
      if i =? -1 then (if Ascii.eqb c' c then 0 else -1) else i + 1
  end.

(** [s[a:b]] for indices that are not negative *)
Definition slice (s : string) (a b : Z) : string :=
  substring (Z.to_nat a) (Z.to_nat b - Z.to_nat a) s.

(** [sub in s] *)
Fixpoint str_in (sub s : string) : bool :=
  prefix sub s ||
  match s with
  | EmptyString => false
  | String _ s' => str_in sub s'
  end.

(** [s[:n]], the first [n] characters of [s]: a character is a byte of the
    UTF-8 sequence that is not a continuation byte (10xxxxxx), with the
    continuation bytes behind it. *)
Definition is_continuation_byte (c : ascii) : bool :=
  let n := nat_of_ascii c in ((128 <=? n) && (n <? 192))%nat.

Fixpoint first_chars (n : nat) (s : string) : string :=
  match s with
  | EmptyString => EmptyString
  | String c s' =>
      if is_continuation_byte c then String c (first_chars n s')
      else match n with
           | O => EmptyString
           | S n' => String c (first_chars n' s')
           end
  end.

(** [f"{z:02d}"] *)
Definition pad2 (z : Z) : string :=
  if (0 <=? z) && (z <? 10)
  then ("0" ++ NilZero.string_of_int (Z.to_int z))%string
  else NilZero.string_of_int (Z.to_int z).

(** ** The library interface *)

Class PyRuntime {F : PyFloat} := {
  (** [s.lower()] and [s.strip()] *)
  str_lower : string -> string;
  str_strip : string -> string;
  (** [int(s)] on a [str] *)
  int_of_str : string -> exc Z;
  (** [json.loads(s)] *)
  json_loads : string -> exc pyval;
  (** [datetime.fromtimestamp(ts).strftime("%-I:%M %p")] *)
  local_clock : Z -> exc string;
  (** [str(v)] for a value that is not a [str] *)
  py_repr : pyval -> string;
  (** [str(e)] *)
  exn_str : exn -> string;
  (** [self.model] *)
  model_name : string
}.

Section Pipeline.
Context {F : PyFloat} {RT : PyRuntime}.

(** What an f-string puts for [{v}]. *)
Definition py_format (v : pyval) : string :=
  match v with
  | PStr s => s
  | _ => py_repr v
  end.

(** ** Data classes *)

Record Observation := mkObservation {
  start_ts : Z;
  end_ts : Z;
  observation : pyval;
  metadata : pyval
}.

Record ActivityCard := mkActivityCard {
  start_time : pyval;
  end_time : pyval;
  category : pyval;
  title : pyval;
  summary : pyval
}.

(** A line of the transcript handed to the card generator: one of the four
    headings of the context block, an observation with its formatted bounds,
    or an earlier card. *)
Inductive transcript_line :=
| ContextHeading
| PreviousObservationsHeading
| PreviousSummariesHeading
| CurrentSegmentHeading
| LineObservation (start_str end_str : string) (text : pyval)
| LineCard (card : ActivityCard).

Inductive prompt :=
| MergeCheckPrompt (previous_card new_card : ActivityCard)
| FusionPrompt (previous_card new_card : ActivityCard)
| SegmentPrompt (count : nat) (duration_str : string)
    (formatted_descriptions : list (string * string))
| ActivityPrompt (transcript : list transcript_line)
| ContextActivityPrompt (transcript : list transcript_line).

(** What one call of the inference service does, together with the dump of
    its response where the caller writes one in the [try] block of the call
    ([merge_raw_response.txt], [activity_cards_raw_response.txt] and
    [merge_check_<time>.txt]): [Responds text] when the service answers [text]
    and the dump, if there is one, is written; [Fails e] when the call raises
    [e], or the dump does.  The handler of the block gets the exception of
    either, and no caller uses the response before the dump, apart from the
    context-aware generator, which parses it first: there a dump that fails
    behind a response that parses is [Fails] as well, and both ways lead to
    the same fallback card. *)
Inductive outcome :=
| Responds (text : string)
| Fails (e : exn).

(** ** Computations that call the inference service

    The state is the list of prompts sent so far. *)

Definition M (A : Type) : Type := list prompt -> exc A * list prompt.

Definition ret {A} (a : A) : M A := fun w => (OK a, w).

Definition bind {A B} (m : M A) (k : A -> M B) : M B :=
  fun w =>
    match m w with
    | (OK a, w') => k a w'
    | (Raise e, w') => (Raise e, w')
    end.

Definition lift {A} (r : exc A) : M A := fun w => (r, w).

(** [try: body  except Exception as e: handler e] *)
Definition try_except {A} (body : M A) (handler : exn -> M A) : M A :=
  fun w =>
    match body w with
    | (OK a, w') => (OK a, w')
    | (Raise e, w') => handler e w'
    end.

End Pipeline.

Declare Scope py_scope.
Delimit Scope py_scope with py.
Notation "x <- m ;; k" := (bind m (fun x => k))
  (at level 61, m at next level, right associativity) : py_scope.

(** ** The host

    What the drivers print and what is written outside every [try] block: an
    exception of one of these leaves the function that runs it. *)

Inductive host_operation {F : PyFloat} :=
(** [debug_dir.mkdir(parents=True, exist_ok=True)] *)
| MakeDebugDir
(** [frames_dir.mkdir(exist_ok=True)] *)
| MakeFramesDir
(** [open(context_file, 'w')] and [f.write(transcript_text)] *)
| WriteContext (transcript : list transcript_line).

Class PyHost {F : PyFloat} := {
  (** [datetime.fromtimestamp(ts).strftime('%I:%M %p')] *)
  window_clock : Z -> exc string;
  (** an operation on the file system, [n] prompts having been sent *)
  host_run : nat -> host_operation -> exc unit
}.

Definition host {F : PyFloat} {HOST : PyHost} (op : host_operation) : M unit :=
  fun w => (host_run (List.length w) op, w).

(** ** [process_videos.py]: class [VideoProcessor] *)

Section VideoProcessor.
Context {F : PyFloat} {RT : PyRuntime}.
Variable client : nat -> prompt -> outcome.

Local Open Scope py_scope.

(** [_call_ollama(prompt, [], format_json=True) -> str]: one more call of the
    inference service, which answers with a text or raises; the dump of the
    response that follows the call in a [try] block is part of this step. *)
Definition _call_ollama (p : prompt) : M string :=
  fun w =>
    match client (List.length w) p with
    | Responds text => (OK text, w ++ [p])
    | Fails e => (Raise e, w ++ [p])
    end.

(** [try: json.loads(s)  except json.JSONDecodeError: pass] *)
Definition loads_or_pass (s : string) : exc (option pyval) :=
  match json_loads s with
  | OK data => OK (Some data)
  | Raise e => if is_json_decode_error e then OK None else Raise e
  end.

(** [expected_type == list] *)
Definition expects_list (expected_type : option py_type) : bool :=
  match expected_type with
  | Some TList => true
  | _ => false
  end.

(** [response[start_idx:end_idx+1]] between the first [open] and the last
    [close], when both occur *)
Definition between (open close : ascii) (response : string) : option string :=
  let start_idx := str_find open response in
  let end_idx := str_rfind close response in
  if negb (start_idx =? -1) && negb (end_idx =? -1)
  then Some (slice response start_idx (end_idx + 1))
  else None.

Definition _parse_json_from_response (response : string)
    (expected_type : option py_type) : exc pyval :=
  (direct <- loads_or_pass response ;;
   match direct with
   | Some data =>
       match expected_type with
       | Some t =>
           if negb (isinstance data t)
           then Raise (ExpectedType t (type_of data))
           else OK data
       | None => OK data
       end
   | None =>
       let response := str_strip response in
       array <-
         (if expects_list expected_type
          then match between "[" "]" response with
               | Some json_str => loads_or_pass json_str
               | None => OK None
               end
          else OK None) ;;
       match array with
       | Some data => OK data
       | None =>
           object <-
             match between "{" "}" response with
             | Some json_str => loads_or_pass json_str
             | None => OK None
             end ;;
           match object with
           | Some data =>
               if expects_list expected_type then OK (PList [data])
               else OK data
           | None => Raise (CouldNotParseJSON (first_chars 200 response))
           end
       end
   end)%exc.

Definition _parse_timestamp (timestamp : pyval) : exc Z :=
  match timestamp with
  | PStr s =>
      match split_on ":" s with
      | [p1; p2] =>
          (minutes <- int_of_str p1 ;;
           seconds <- int_of_str p2 ;;
           OK (minutes * 60 + seconds))%exc
      | [p1; p2; p3] =>
          (hours <- int_of_str p1 ;;
           minutes <- int_of_str p2 ;;
           seconds <- int_of_str p3 ;;
           OK (hours * 3600 + minutes * 60 + seconds))%exc
      | _ => Raise (InvalidTimestampFormat s)
      end
  | _ => Raise (Raised AttributeError "split")
  end.

Definition _format_duration (seconds : pyfloat) : exc string :=
  (hours <- int_of_float (float_floordiv seconds 3600) ;;
   minutes <- int_of_float (float_floordiv (float_mod seconds 3600) 60) ;;
   secs <- int_of_float (float_mod seconds 60) ;;
   if 0 <? hours
   then OK (pad2 hours ++ ":" ++ pad2 minutes ++ ":" ++ pad2 secs)%string
   else OK (pad2 minutes ++ ":" ++ pad2 secs)%string)%exc.

(** The body of the loop over the parsed segments. *)
Definition segment_to_observation (batch_start_time : pyfloat)
    (segment : pyval) : exc Observation :=
  (start_stamp <- py_getitem segment "startTimestamp" ;;
   start_seconds <- _parse_timestamp start_stamp ;;
   end_stamp <- py_getitem segment "endTimestamp" ;;
   end_seconds <- _parse_timestamp end_stamp ;;
   start_date <- float_add_int batch_start_time start_seconds ;;
   end_date <- float_add_int batch_start_time end_seconds ;;
   start <- int_of_float start_date ;;
   stop <- int_of_float end_date ;;
   description <- py_getitem segment "description" ;;
   OK (mkObservation start stop description
         (PDict [("model", PStr model_name)])))%exc.

Definition failed_merge (start stop : Z) (e : exn) : Observation :=
  mkObservation start stop (PStr "Failed to merge frame descriptions")
    (PDict [("error", PStr (exn_str e))]).

(** The prompt of the segment merger: the snapshots with their offsets and
    the duration, each formatted by [_format_duration]. *)
Definition segment_prompt (frame_descriptions : list (pyfloat * string))
    (video_duration : pyfloat) : exc prompt :=
  (formatted_descriptions <-
     exc_map (fun fd =>
       time_str <- _format_duration (fst fd) ;;
       OK (time_str, snd fd)) frame_descriptions ;;
   duration_str <- _format_duration video_duration ;;
   OK (SegmentPrompt (List.length frame_descriptions) duration_str
         formatted_descriptions))%exc.

(** What the [for] loop over [segments] builds; the log line in front of it
    evaluates [len(segments)], which raises on a value that has no length. *)
Definition observations_of_segments (batch_start_time : pyfloat)
    (segments : pyval) : exc (list Observation) :=
  (_ <- py_len segments ;;
   items <- py_iter segments ;;
   exc_map (segment_to_observation batch_start_time) items)%exc.

Definition _merge_frame_descriptions
    (frame_descriptions : list (pyfloat * string))
    (batch_start_time : pyfloat) (video_duration : pyfloat)
    : M (list Observation) :=
  merge_prompt <- lift (segment_prompt frame_descriptions video_duration) ;;
  try_except
    ((* the call and the dump of [merge_raw_response.txt] *)
     response <- _call_ollama merge_prompt ;;
     segments <- lift (_parse_json_from_response response (Some TList)) ;;
     lift (observations_of_segments batch_start_time segments))
    (fun e =>
       start <- lift (int_of_float batch_start_time) ;;
       stop <- lift (int_of_float (float_add batch_start_time video_duration)) ;;
       ret [failed_merge start stop e]).

(** [observations[0]] and [observations[-1]] *)
Definition first_item {A} (l : list A) : exc A :=
  match l with
  | x :: _ => OK x
  | [] => Raise (Raised IndexError "list index out of range")
  end.

Fixpoint last_item {A} (l : list A) : exc A :=
  match l with
  | [] => Raise (Raised IndexError "list index out of range")
  | [x] => OK x
  | _ :: l' => last_item l'
  end.

Definition transcript_of (observations : list Observation)
    : exc (list transcript_line) :=
  exc_map (fun obs =>
    (start_str <- local_clock (start_ts obs) ;;
     end_str <- local_clock (end_ts obs) ;;
     OK (LineObservation start_str end_str (observation obs)))%exc)
    observations.

(** The two time bounds every card of this generator gets. *)
Definition card_bounds (observations : list Observation)
    : exc (string * string) :=
  (first <- first_item observations ;;
   card_start_time <- local_clock (start_ts first) ;;
   last <- last_item observations ;;
   card_end_time <- local_clock (end_ts last) ;;
   OK (card_start_time, card_end_time))%exc.

Definition fallback_card (bounds : string * string) : ActivityCard :=
  mkActivityCard (PStr (fst bounds)) (PStr (snd bounds)) (PStr "Work")
    (PStr "Activity Session") (PStr "User engaged in various activities.").

Definition _generate_activity_cards (observations : list Observation)
    : M (list ActivityCard) :=
  transcript <- lift (transcript_of observations) ;;
  let activity_prompt := ActivityPrompt transcript in
  try_except
    ((* the call and the dump of [activity_cards_raw_response.txt] *)
     response <- _call_ollama activity_prompt ;;
     result_data <- lift (_parse_json_from_response response (Some TDict)) ;;
     bounds <- lift (card_bounds observations) ;;
     card_title <- lift (py_get result_data "title" (PStr "Activity Session")) ;;
     card_summary <- lift (py_get result_data "summary"
                             (PStr "User engaged in various activities.")) ;;
     ret [mkActivityCard (PStr (fst bounds)) (PStr (snd bounds)) (PStr "Work")
            card_title card_summary])
    (fun e =>
       bounds <- lift (card_bounds observations) ;;
       ret [fallback_card bounds]).

End VideoProcessor.

(** ** Equality of cards

    [final_cards[-1] == previous_card] compares the fields of two cards.  The
    comparison is only ever applied to two references to one object, where
    Python answers [True]; equality of representation agrees with it there. *)

Section CardEquality.
Context {F : PyFloat} {RT : PyRuntime}.

Fixpoint pyval_eq_dec (a b : pyval) : {a = b} + {a <> b}.
Proof.
  decide equality.
  - apply Bool.bool_dec.
  - apply Z.eq_dec.
  - apply float_eq_dec.
  - apply string_dec.
  - apply (list_eq_dec pyval_eq_dec).
  - apply list_eq_dec. decide equality. apply string_dec.
Defined.

Definition card_eq_dec (a b : ActivityCard) : {a = b} + {a <> b}.
Proof. decide equality; apply pyval_eq_dec. Defined.

Definition card_eqb (a b : ActivityCard) : bool :=
  if card_eq_dec a b then true else false.

End CardEquality.

(** ** [activity_card_merger.py] *)

Section ActivityCardMerger.
Context {F : PyFloat} {RT : PyRuntime} {HOST : PyHost}.
Variable client : nat -> prompt -> outcome.

Local Open Scope py_scope.

Definition distraction_keywords : list string :=
  ["youtube"; "instagram"; "twitter"; "reddit"; "facebook";
   "cat video"; "dog video"; "social media"; "took a break";
   "watched"; "scrolled"; "distracted"].

(** [v.lower()] *)
Definition py_lower (v : pyval) : exc string :=
  match v with
  | PStr s => OK (str_lower s)
  | _ => Raise (Raised AttributeError "lower")
  end.

(** [(P.title + P.summary + N.title + N.summary).lower()] *)
Definition combined_text (previous_card new_card : ActivityCard) : exc string :=
  (t1 <- py_add (title previous_card) (summary previous_card) ;;
   t2 <- py_add t1 (title new_card) ;;
   t3 <- py_add t2 (summary new_card) ;;
   py_lower t3)%exc.

Definition should_merge_cards (previous_card new_card : ActivityCard)
    : M pyval :=
  text <- lift (combined_text previous_card new_card) ;;
  if existsb (fun keyword => str_in keyword text) distraction_keywords
  then ret (PBool false)
  else
    let merge_prompt := MergeCheckPrompt previous_card new_card in
    try_except
      ((* the call and the dump of [merge_check_<time>.txt] *)
       response <- _call_ollama client merge_prompt ;;
       result <- lift (_parse_json_from_response response (Some TDict)) ;;
       should_combine <- lift (py_get result "combine" (PBool false)) ;;
       reason <- lift (py_get result "reason" (PStr "No reason provided")) ;;
       ret should_combine)
      (fun e => ret (PBool false)).

Definition merge_two_cards (previous_card new_card : ActivityCard)
    : M ActivityCard :=
  let merge_prompt := FusionPrompt previous_card new_card in
  try_except
    (response <- _call_ollama client merge_prompt ;;
     result <- lift (_parse_json_from_response response (Some TDict)) ;;
     merged_title <-
       lift (py_get result "title"
               (PStr (py_format (title previous_card) ++ " and "
                      ++ py_format (title new_card))%string)) ;;
     merged_summary <-
       lift (py_get result "summary"
               (PStr (py_format (summary previous_card) ++ " "
                      ++ py_format (summary new_card))%string)) ;;
     ret (mkActivityCard (start_time previous_card) (end_time new_card)
            (category previous_card) merged_title merged_summary))
    (fun e =>
       ret (mkActivityCard (start_time previous_card) (end_time new_card)
              (category previous_card) (title previous_card)
              (PStr (py_format (summary previous_card) ++ " Continued with "
                     ++ py_format (summary new_card))%string))).

(** *** [process_with_merging] *)

(** One record of the observations file. *)
Record observation_record := mkRecord {
  rec_start_ts : Z;
  rec_end_ts : Z;
  rec_observation : pyval;
  rec_metadata : option pyval
}.

(** [list.sort(key=lambda x: x['start_ts'])], a stable sort *)
Fixpoint insert_by_start (x : observation_record)
    (l : list observation_record) : list observation_record :=
  match l with
  | [] => [x]
  | y :: l' =>
      if rec_start_ts x <=? rec_start_ts y then x :: l
      else y :: insert_by_start x l'
  end.

Definition sort_by_start (l : list observation_record)
    : list observation_record :=
  fold_right insert_by_start [] l.

(** The observations whose interval meets the window. *)
Definition chunk_of (all_observations : list observation_record)
    (chunk_start chunk_end : Z) : list observation_record :=
  filter (fun obs => (rec_start_ts obs <? chunk_end)
                     && (rec_end_ts obs >? chunk_start))
    all_observations.

Definition to_observation (obs : observation_record) : Observation :=
  mkObservation (rec_start_ts obs) (rec_end_ts obs) (rec_observation obs)
    (match rec_metadata obs with
     | Some m => m
     | None => PDict []
     end).

Record merge_state := mkMergeState {
  chunk_start : Z;
  final_cards : list ActivityCard;
  previous_card : option ActivityCard
}.

Definition chunk_duration : Z := 15 * 60.

(** [final_cards and final_cards[-1] == previous_card] *)
Definition last_is (final_cards : list ActivityCard)
    (previous_card : ActivityCard) : bool :=
  match last_item final_cards with
  | OK c => card_eqb c previous_card
  | Raise _ => false
  end.

(** The part of the loop body that places the new card. *)
Definition place_card (final_cards : list ActivityCard)
    (previous_card : option ActivityCard) (new_card : ActivityCard)
    : M (list ActivityCard * option ActivityCard) :=
  match previous_card with
  | Some previous =>
      decision <- should_merge_cards previous new_card ;;
      if py_truthy decision
      then
        merged_card <- merge_two_cards previous new_card ;;
        if last_is final_cards previous
        then ret (removelast final_cards ++ [merged_card], Some merged_card)
        else ret (final_cards ++ [merged_card], Some merged_card)
      else ret (final_cards ++ [new_card], Some new_card)
  | None => ret (final_cards ++ [new_card], Some new_card)
  end.

(** The pass through the body of the [while] loop from the card generator
    on, that is, once the window is announced ([merging_pass] below); on an
    empty window, the whole pass. *)
Definition merging_iteration (all_observations : list observation_record)
    (st : merge_state) : M merge_state :=
  let chunk_end := chunk_start st + chunk_duration in
  let chunk_observations :=
    chunk_of all_observations (chunk_start st) chunk_end in
  match chunk_observations with
  | [] => ret (mkMergeState chunk_end (final_cards st) (previous_card st))
  | _ =>
      let obs_objects := map to_observation chunk_observations in
      cards <- _generate_activity_cards client obs_objects ;;
      match cards with
      | [] => ret (mkMergeState chunk_end (final_cards st) (previous_card st))
      | new_card :: _ =>
          placed <- place_card (final_cards st) (previous_card st) new_card ;;
          ret (mkMergeState chunk_end (fst placed) (snd placed))
      end
  end.

(** [while cond: body], with a bound on the number of passes; [None] when the
    bound is reached with the condition still true. *)
Fixpoint while_loop {S : Type} (fuel : nat) (cond : S -> bool)
    (body : S -> M S) (s : S) : M (option S) :=
  if cond s
  then match fuel with
       | O => ret None
       | Datatypes.S fuel' => s' <- body s ;; while_loop fuel' cond body s'
       end
  else ret (Some s).

(** The number of windows of length [step] from [start_time] to [end_time]. *)
Definition passes (start_time end_time step : Z) : nat :=
  Z.to_nat ((end_time - start_time + step - 1) / step).

(** The [print] of a window that is not empty, which formats its two
    bounds. *)
Definition report_chunk (chunk_start chunk_end : Z) : M unit :=
  _ <- lift (window_clock chunk_start) ;;
  _ <- lift (window_clock chunk_end) ;;
  ret tt.

(** One pass through the body of the [while] loop: on a window that is not
    empty the bounds are printed and the debug directory is created before
    the card generator is called. *)
Definition merging_pass (all_observations : list observation_record)
    (st : merge_state) : M merge_state :=
  let chunk_end := chunk_start st + chunk_duration in
  match chunk_of all_observations (chunk_start st) chunk_end with
  | [] => ret (mkMergeState chunk_end (final_cards st) (previous_card st))
  | _ =>
      _ <- report_chunk (chunk_start st) chunk_end ;;
      _ <- host MakeDebugDir ;;
      merging_iteration all_observations st
  end.

Definition process_with_merging (observations_file : list observation_record)
    : M (option (list ActivityCard)) :=
  let all_observations := sort_by_start observations_file in
  first <- lift (first_item all_observations) ;;
  last <- lift (last_item all_observations) ;;
  let start_time := rec_start_ts first in
  let end_time := rec_end_ts last in
  final <- while_loop (passes start_time end_time chunk_duration)
             (fun st => chunk_start st <? end_time)
             (merging_pass all_observations)
             (mkMergeState start_time [] None) ;;
  ret (option_map final_cards final).

End ActivityCardMerger.

(** ** [process_dummy_observations.py] *)

Section ContextCards.
Context {F : PyFloat} {RT : PyRuntime} {HOST : PyHost}.
Variable client : nat -> prompt -> outcome.

Local Open Scope py_scope.

(** The transcript with the context block in front of the current segment. *)
Definition context_transcript (observations : list Observation)
    (context_observations : list observation_record)
    (context_cards : list ActivityCard) : exc (list transcript_line) :=
  (context_block <-
     match context_observations, context_cards with
     | [], [] => OK []
     | _, _ =>
         previous_observations <-
           match context_observations with
           | [] => OK []
           | _ =>
               lines <- exc_map (fun obs =>
                          start_str <- local_clock (rec_start_ts obs) ;;
                          end_str <- local_clock (rec_end_ts obs) ;;
                          OK (LineObservation start_str end_str
                                (rec_observation obs)))
                        context_observations ;;
               OK (PreviousObservationsHeading :: lines)
           end ;;
         OK ([ContextHeading]
             ++ previous_observations
             ++ match context_cards with
                | [] => []
                | _ => PreviousSummariesHeading :: map LineCard context_cards
                end
             ++ [CurrentSegmentHeading])
     end ;;
   current <- transcript_of observations ;;
   OK (context_block ++ current))%exc.

(** The body of the loop over the cards of the response. *)
Definition card_of_data (card_data : pyval) : exc ActivityCard :=
  (card_start <- py_getitem card_data "startTime" ;;
   card_end <- py_getitem card_data "endTime" ;;
   card_category <- py_getitem card_data "category" ;;
   card_title <- py_getitem card_data "title" ;;
   card_summary <- py_getitem card_data "summary" ;;
   OK (mkActivityCard card_start card_end card_category card_title
         card_summary))%exc.

Definition _generate_activity_cards_with_context
    (observations : list Observation)
    (context_observations : list observation_record)
    (context_cards : list ActivityCard) : M (list ActivityCard) :=
  _ <- host MakeDebugDir ;;
  transcript_text <-
    lift (context_transcript observations context_observations context_cards) ;;
  _ <- host (WriteContext transcript_text) ;;
  let activity_prompt := ContextActivityPrompt transcript_text in
  try_except
    ((* the call and, behind the parse, the dump of
        [activity_cards_raw_response.txt] *)
     response <- _call_ollama client activity_prompt ;;
     cards_data <- lift (_parse_json_from_response response (Some TList)) ;;
     items <- lift (py_iter cards_data) ;;
     lift (exc_map card_of_data items))
    (fun e =>
       bounds <- lift (card_bounds observations) ;;
       ret [fallback_card bounds]).

Record chunk_state := mkChunkState {
  cursor : Z;
  all_cards : list ActivityCard
}.

(** The pass through the body of the [while] loop of
    [process_observations_in_chunks] apart from the [print] of the window
    ([chunk_pass] below). *)
Definition chunk_iteration (observations : list observation_record)
    (chunk_duration_minutes context_duration_minutes : Z)
    (st : chunk_state) : M chunk_state :=
  let chunk_start := cursor st in
  let chunk_end := chunk_start + chunk_duration_minutes * 60 in
  let chunk_observations := chunk_of observations chunk_start chunk_end in
  match chunk_observations with
  | [] => ret (mkChunkState chunk_end (all_cards st))
  | _ =>
      let context_start := chunk_start - context_duration_minutes * 60 in
      let context_observations :=
        filter (fun obs => (rec_start_ts obs >=? context_start)
                           && (rec_end_ts obs <=? chunk_start))
          observations in
      let context_cards :=
        filter (fun card => py_truthy (start_time card)) (all_cards st) in
      let chunk_obs_objects := map to_observation chunk_observations in
      cards <- _generate_activity_cards_with_context chunk_obs_objects
                 context_observations context_cards ;;
      ret (mkChunkState chunk_end (all_cards st ++ cards))
  end.

(** One pass through the body of the [while] loop: on a window that is not
    empty the bounds are printed before the generator is called. *)
Definition chunk_pass (observations : list observation_record)
    (chunk_duration_minutes context_duration_minutes : Z)
    (st : chunk_state) : M chunk_state :=
  let chunk_end := cursor st + chunk_duration_minutes * 60 in
  match chunk_of observations (cursor st) chunk_end with
  | [] => ret (mkChunkState chunk_end (all_cards st))
  | _ =>
      _ <- report_chunk (cursor st) chunk_end ;;
      chunk_iteration observations chunk_duration_minutes
        context_duration_minutes st
  end.

Definition process_observations_in_chunks
    (observations : list observation_record)
    (chunk_duration_minutes context_duration_minutes : Z)
    : M (option (list ActivityCard)) :=
  let observations := sort_by_start observations in
  first <- lift (first_item observations) ;;
  last <- lift (last_item observations) ;;
  let start_time := rec_start_ts first in
  let end_time := rec_end_ts last in
  final <- while_loop
             (passes start_time end_time (chunk_duration_minutes * 60))
             (fun st => cursor st <? end_time)
             (chunk_pass observations chunk_duration_minutes
                context_duration_minutes)
             (mkChunkState start_time []) ;;
  ret (option_map all_cards final).

End ContextCards.

(** ** The dump of a response

    How a call and the dump of its response make one outcome.  [service] is
    the call alone, [dump] the writing of the file; the functions above are
    stated over any [client], and so over these. *)

Section Dumps.
Context {F : PyFloat} {RT : PyRuntime}.
Variable service : nat -> prompt -> outcome.
Variable dump : nat -> prompt -> string -> exc unit.

(** The response is dumped right behind the call ([should_merge_cards],
    [_merge_frame_descriptions], [_generate_activity_cards]). *)
Definition with_dump : nat -> prompt -> outcome :=
  fun n p =>
    match service n p with
    | Responds text =>
        match dump n p text with
        | OK _ => Responds text
        | Raise e => Fails e
        end
    | Fails e => Fails e
    end.

(** The response is dumped once it has parsed as [expected]
    ([_generate_activity_cards_with_context]). *)
Definition with_dump_behind_parse (expected : py_type) : nat -> prompt -> outcome :=
  fun n p =>
    match service n p with
    | Responds text =>
        match _parse_json_from_response text (Some expected) with
        | OK _ =>
            match dump n p text with
            | OK _ => Responds text
            | Raise e => Fails e
            end
        | Raise _ => Responds text
        end
    | Fails e => Fails e
    end.

(** The dump as a step of its own: the call it belongs to is the last one of
    the log. *)
Definition dump_response (p : prompt) (response : string) : M unit :=
  fun w => (dump (pred (List.length w)) p response, w).

End Dumps.

(** ** [process_videos.py]: frames and their captions

    The first two stages of [process_single_video].  ffprobe and ffmpeg run
    as subprocesses and the frames go through files, so what they do is a
    variable of the section, as the inference service is; the vision call of
    [_get_frame_description] has a variable of its own, which gets the number
    of captions asked for so far and the frame. *)

Section Frames.
Context {F : PyFloat} {RT : PyRuntime} {HOST : PyHost}.

Definition FRAME_EXTRACTION_INTERVAL : Z := 30.

Record FrameData := mkFrameData {
  image_base64 : string;
  timestamp : Z;
  frame_number : Z
}.

(** What the [try] statement of [_extract_frames] does for one frame: ffmpeg
    writes the frame and its bytes are read and encoded; or ffmpeg exits with
    a status that is not zero and the handler of [CalledProcessError] logs its
    error output; or an exception leaves the statement, raised in the block
    (no ffmpeg, no file to read) or by the handler (an error output that
    [decode] refuses). *)
Inductive extraction :=
| Extracted (image : string)
| CalledProcessError
| Aborted (e : exn).

(** [float(result.stdout.strip())] of an ffprobe run, or what is raised: both
    handlers of [_get_video_duration] raise again what they caught. *)
Variable ffprobe : exc pyfloat.
(** [n < x] for an [int] and a [float]. *)
Variable int_lt_float : Z -> pyfloat -> bool.
(** ffmpeg at [current_time], writing the frame [frame_number]. *)
Variable ffmpeg : Z -> Z -> extraction.
(** What the [try] block of [_get_frame_description] gets: the response of
    the inference service to the caption prompt and the image of a frame, or
    the exception of the call or of the saving of the caption. *)
Variable vision : nat -> FrameData -> outcome.

Definition _get_video_duration : exc pyfloat := ffprobe.

(** The [while current_time < duration] loop, with a bound on the number of
    passes; [None] when the bound is reached with the condition still true. *)
Fixpoint extraction_loop (fuel : nat) (duration : pyfloat)
    (frames : list FrameData) (current_time number : Z)
    : option (exc (list FrameData)) :=
  if int_lt_float current_time duration
  then match fuel with
       | O => None
       | S fuel' =>
           match ffmpeg current_time number with
           | Extracted image =>
               extraction_loop fuel' duration
                 (frames ++ [mkFrameData image current_time number])
                 (current_time + FRAME_EXTRACTION_INTERVAL) (number + 1)
           | CalledProcessError =>
               extraction_loop fuel' duration frames
                 (current_time + FRAME_EXTRACTION_INTERVAL) (number + 1)
           | Aborted e => Some (Raise e)
           end
       end
  else Some (OK frames).

Definition _extract_frames (fuel : nat) : option (exc (list FrameData)) :=
  match _get_video_duration with
  | OK duration =>
      match host_run 0 MakeFramesDir with
      | OK _ => extraction_loop fuel duration [] 0 0
      | Raise e => Some (Raise e)
      end
  | Raise e => Some (Raise e)
  end.

(** [_format_duration] on an [int], which is what [frame.timestamp] holds:
    [//] and [%] are then the integer operations and [int] changes nothing. *)
Definition _format_duration_int (seconds : Z) : string :=
  let hours := seconds / 3600 in
  let minutes := (seconds mod 3600) / 60 in
  let secs := seconds mod 60 in
  if 0 <? hours
  then (pad2 hours ++ ":" ++ pad2 minutes ++ ":" ++ pad2 secs)%string
  else (pad2 minutes ++ ":" ++ pad2 secs)%string.

Definition frame_error (frame : FrameData) : string :=
  ("[Error analyzing frame at " ++ _format_duration_int (timestamp frame)
   ++ "]")%string.

(** [_get_frame_description]: the stripped response, or the text of the
    handler, which catches every exception of the call. *)
Definition _get_frame_description (calls : nat) (frame : FrameData) : string :=
  match vision calls frame with
  | Responds response => str_strip response
  | Fails _ => frame_error frame
  end.

(** Stage 2 of [process_single_video]: the loop over the frames, [calls]
    captions having been asked for before. *)
Fixpoint frame_descriptions_of (calls : nat) (frames : list FrameData)
    : list (Z * string) :=
  match frames with
  | [] => []
  | frame :: rest =>
      (timestamp frame, _get_frame_description calls frame)
        :: frame_descriptions_of (S calls) rest
  end.

End Frames.

(** ** Test doubles

    A runtime and inference services to run the pipeline on concrete inputs:
    floats that hold a whole number of seconds (on which float arithmetic is
    exact), ASCII texts, a clock on UTC, and a JSON reader that knows the few
    documents the examples use. *)

Module Fixture.

#[export] Instance whole_seconds : PyFloat := {|
  pyfloat := Z;
  float_add := Z.add;
  float_add_int := fun x n => OK (x + n);
  float_floordiv := Z.div;
  float_mod := Z.modulo;
  int_of_float := fun x => OK x;
  float_truthy := fun x => negb (x =? 0);
  float_eq_dec := Z.eq_dec
|}.

Definition lower_char (c : ascii) : ascii :=
  let n := nat_of_ascii c in
  if ((65 <=? n) && (n <=? 90))%nat then ascii_of_nat (n + 32) else c.

Fixpoint ascii_lower (s : string) : string :=
  match s with
  | EmptyString => EmptyString
  | String c s' => String (lower_char c) (ascii_lower s')
  end.

Definition is_space (c : ascii) : bool :=
  let n := nat_of_ascii c in
  ((n =? 32) || ((9 <=? n) && (n <=? 13)))%nat.

Fixpoint lstrip (s : string) : string :=
  match s with
  | EmptyString => EmptyString
  | String c s' => if is_space c then lstrip s' else s
  end.

Fixpoint rstrip (s : string) : string :=
  match s with
  | EmptyString => EmptyString
  | String c s' =>
      match rstrip s' with
      | EmptyString => if is_space c then EmptyString else String c EmptyString
      | rest => String c rest
      end
  end.

Fixpoint digits_value (s : string) (acc : Z) : option Z :=
  match s with
  | EmptyString => Some acc
  | String c s' =>
      let n := nat_of_ascii c in
      if ((48 <=? n) && (n <=? 57))%nat
      then digits_value s' (acc * 10 + (Z.of_nat n - 48))
      else None
  end.

(** [int(s)] on an unsigned decimal literal *)
Definition decimal_int (s : string) : exc Z :=
  match s with
  | EmptyString => Raise (Raised ValueError "int")
  | _ =>
      match digits_value s 0 with
      | Some z => OK z
      | None => Raise (Raised ValueError "int")
      end
  end.

(** The clock of a machine on UTC, between 1970 and 9999. *)
Definition utc_clock (ts : Z) : exc string :=
  if (0 <=? ts) && (ts <=? 253402300799)
  then
    let minute_of_day := (ts / 60) mod 1440 in
    let hour := minute_of_day / 60 in
    let hour12 := if hour mod 12 =? 0 then 12 else hour mod 12 in
    OK (NilZero.string_of_int (Z.to_int hour12) ++ ":"
        ++ pad2 (minute_of_day mod 60) ++ " "
        ++ (if (hour <? 12)%Z then "AM" else "PM"))%string
  else Raise (Raised OverflowError "fromtimestamp").

(** The same clock with the hour on two digits, and a host on which every
    operation succeeds. *)
Definition utc_window_clock (ts : Z) : exc string :=
  if (0 <=? ts) && (ts <=? 253402300799)
  then
    let minute_of_day := (ts / 60) mod 1440 in
    let hour := minute_of_day / 60 in
    let hour12 := if hour mod 12 =? 0 then 12 else hour mod 12 in
    OK (pad2 hour12 ++ ":" ++ pad2 (minute_of_day mod 60) ++ " "
        ++ (if (hour <? 12)%Z then "AM" else "PM"))%string
  else Raise (Raised OverflowError "fromtimestamp").

#[export] Instance quiet_host : PyHost := {|
  window_clock := utc_window_clock;
  host_run := fun _ _ => OK tt
|}.

Definition dq : string := String (ascii_of_nat 34) EmptyString.

Definition quoted (s : string) : string := (dq ++ s ++ dq)%string.

(** [{"k1": "v1", ...}] as a JSON text and as the value it denotes *)
Fixpoint members_text (members : list (string * string)) : string :=
  match members with
  | [] => EmptyString
  | [(k, v)] => (quoted k ++ ": " ++ quoted v)%string
  | (k, v) :: rest =>
      (quoted k ++ ": " ++ quoted v ++ ", " ++ members_text rest)%string
  end.

Definition object_text (members : list (string * string)) : string :=
  ("{" ++ members_text members ++ "}")%string.

Definition object_value (members : list (string * string)) : pyval :=
  PDict (map (fun kv => (fst kv, PStr (snd kv))) members).

(** A card of the response of the context-aware generator. *)
Definition late_card : list (string * string) :=
  [("startTime", "3:07 PM"); ("endTime", "3:22 PM"); ("category", "Research");
   ("title", "Read papers"); ("summary", "Read two papers.")].

(** Three segments covering fifteen minutes. *)
Definition segment (a b d : string) : list (string * string) :=
  [("startTimestamp", a); ("endTimestamp", b); ("description", d)].

Definition three_segments_text : string :=
  ("[" ++ object_text (segment "00:00" "05:30" "Billing")
   ++ ", " ++ object_text (segment "05:30" "10:00" "Research")
   ++ ", " ++ object_text (segment "10:00" "15:00" "Coding") ++ "]")%string.

Definition three_segments_value : pyval :=
  PList [object_value (segment "00:00" "05:30" "Billing");
         object_value (segment "05:30" "10:00" "Research");
         object_value (segment "10:00" "15:00" "Coding")].

Definition bad_segment_text : string :=
  ("[" ++ object_text (segment "abc" "05:30" "Billing") ++ "]")%string.

Definition combine_true : list (string * pyval) :=
  [("combine", PBool true); ("reason", PStr "same task")].

Definition combine_true_text : string :=
  ("{" ++ quoted "combine" ++ ": true, " ++ quoted "reason" ++ ": "
   ++ quoted "same task" ++ "}")%string.

(** [json.loads] on the documents above; any other text is taken not to be
    JSON. *)
Definition known_documents : list (string * pyval) :=
  [("[]", PList []);
   ("{}", PDict []);
   (three_segments_text, three_segments_value);
   (bad_segment_text, PList [object_value (segment "abc" "05:30" "Billing")]);
   (("[" ++ object_text late_card ++ "]")%string,
    PList [object_value late_card]);
   (combine_true_text, PDict combine_true);
   (object_text [("title", "Built the parser"); ("summary", "Wrote it.")],
    object_value [("title", "Built the parser"); ("summary", "Wrote it.")])].

Definition table_loads (s : string) : exc pyval :=
  match assoc s known_documents with
  | Some v => OK v
  | None => Raise (Raised JSONDecodeError "json.loads")
  end.

Definition render_exn (e : exn) : string :=
  match e with
  | Raised _ origin => origin
  | ExpectedType _ _ => "Expected another type"
  | CouldNotParseJSON p =>
      ("Could not parse JSON from response: " ++ p ++ "...")%string
  | InvalidTimestampFormat t => ("Invalid timestamp format: " ++ t)%string
  end.

#[export] Instance runtime : PyRuntime := {|
  str_lower := ascii_lower;
  str_strip := fun s => rstrip (lstrip s);
  int_of_str := decimal_int;
  json_loads := table_loads;
  local_clock := utc_clock;
  py_repr := fun _ => "<value>";
  exn_str := render_exn;
  model_name := "google/gemma-3n-e4b"
|}.

(** An inference service that is down. *)
Definition unreachable_service : nat -> prompt -> outcome :=
  fun _ _ => Fails (Raised RequestException "connection refused").

(** An inference service that answers its n-th call with the n-th text. *)
Definition scripted (texts : list string) : nat -> prompt -> outcome :=
  fun n _ =>
    match nth_error texts n with
    | Some text => Responds text
    | None => Fails (Raised RequestException "connection refused")
    end.

Definition obs (a b : Z) (text : string) : Observation :=
  mkObservation a b (PStr text) (PDict []).

Definition card (a b t s : string) : ActivityCard :=
  mkActivityCard (PStr a) (PStr b) (PStr "Work") (PStr t) (PStr s).

(** Fifteen minutes in two observations, and two observations that overlap. *)
Definition quarter_hour : list Observation :=
  [obs 0 600 "Editing code"; obs 600 900 "Reading mail"].

Definition overlapping : list Observation :=
  [obs 0 1000 "Editing code"; obs 100 200 "Reading mail"].

Definition late_response : string := ("[" ++ object_text late_card ++ "]")%string.

Definition two_frames : list (Z * string) :=
  [(0, "Editing code"); (30, "Reading mail")].

Definition two_frames_prompt : prompt :=
  SegmentPrompt 2 "15:00" [("00:00", "Editing code"); ("00:30", "Reading mail")].

(** Two records, the second forty-five minutes after the first. *)
Definition two_records : list observation_record :=
  [mkRecord 0 600 (PStr "Editing code") None;
   mkRecord 2700 3300 (PStr "Reading mail") None].

(** The card every generator falls back to for the first record. *)
Definition first_card : ActivityCard :=
  mkActivityCard (PStr "12:00 AM") (PStr "12:10 AM") (PStr "Work")
    (PStr "Activity Session") (PStr "User engaged in various activities.").

(** Two records in windows that follow each other, and a service that gives
    no title for either chunk, then says combine and gives the fused title
    and summary. *)
Definition adjacent_records : list observation_record :=
  [mkRecord 0 600 (PStr "Editing code") None;
   mkRecord 900 1500 (PStr "Editing code") None].

Definition merging_script : list string :=
  ["{}"; "{}"; combine_true_text;
   object_text [("title", "Built the parser"); ("summary", "Wrote it.")]].

Definition next_card : ActivityCard :=
  mkActivityCard (PStr "12:15 AM") (PStr "12:25 AM") (PStr "Work")
    (PStr "Activity Session") (PStr "User engaged in various activities.").

Definition fused_card : ActivityCard :=
  mkActivityCard (PStr "12:00 AM") (PStr "12:25 AM") (PStr "Work")
    (PStr "Built the parser") (PStr "Wrote it.").

Definition two_chunk_prompts : list prompt :=
  [ActivityPrompt [LineObservation "12:00 AM" "12:10 AM" (PStr "Editing code")];
   ActivityPrompt [LineObservation "12:15 AM" "12:25 AM" (PStr "Editing code")]].

End Fixture.

(** ** More samples *)

Module Samples.
Import Fixture.

Definition parser_card : ActivityCard :=
  card "9:00 AM" "9:15 AM" "Parser work" "Fixed the tokenizer.".

Definition tests_card : ActivityCard :=
  card "9:15 AM" "9:30 AM" "Parser work" "Added tests.".

(** A card whose title is [None], as the generator stores it for a response
    with a null title. *)
Definition untitled_card : ActivityCard :=
  mkActivityCard (PStr "9:00 AM") (PStr "9:15 AM") (PStr "Work") PNone
    (PStr "Fixed the tokenizer.").

Definition first_record : observation_record :=
  mkRecord 0 600 (PStr "Editing code") None.

Definition second_record : observation_record :=
  mkRecord 2700 3300 (PStr "Reading mail") None.

Definition second_card : ActivityCard :=
  mkActivityCard (PStr "12:45 AM") (PStr "12:55 AM") (PStr "Work")
    (PStr "Activity Session") (PStr "User engaged in various activities.").

(** Responses with prose around the JSON. *)
Definition prose_array : string := "Here you are: [] I hope it helps".

Definition prose_object : string := "Sure: {} .".

Definition fusion_response : string :=
  object_text [("title", "Built the parser"); ("summary", "Wrote it.")].

End Samples.

(** ** Frames for the examples *)

Module FrameSamples.
Import Fixture.

(** A video of 75 seconds. *)
Definition short_video : exc Z := OK 75.

(** ffmpeg that cannot write the frame at 30 s, and ffmpeg whose frame at
    30 s cannot be read back. *)
Definition camera (current_time number : Z) : extraction :=
  if current_time =? 30 then CalledProcessError else Extracted "/9j/4AAQ".

Definition broken_camera (current_time number : Z) : extraction :=
  if current_time =? 30
  then Aborted (Raised OtherException "open")
  else Extracted "/9j/4AAQ".

(** A host on which the frames directory cannot be created. *)
Definition locked_host : PyHost := {|
  window_clock := utc_window_clock;
  host_run := fun _ op =>
    match op with
    | MakeFramesDir => Raise (Raised OtherException "mkdir")
    | _ => OK tt
    end
|}.

(** A vision service that is down. *)
Definition blind_service : nat -> FrameData -> outcome :=
  fun _ _ => Fails (Raised RequestException "connection refused").

End FrameSamples.

(** * Vocabulary of the properties *)

(** [sub] occurs in [s]. *)
Definition occurs_in (sub s : string) : Prop :=
  exists before after, s = (before ++ sub ++ after)%string.

(** [sep] does not occur in [s]. *)
Fixpoint free_of (sep : ascii) (s : string) : Prop :=
  match s with
  | EmptyString => True
  | String c s' => c <> sep /\ free_of sep s'
  end.

(** [sep.join(p :: ps)] *)
Definition join_fields (sep : ascii) (p : string) (ps : list string) : string :=
  fold_left (fun acc q => (acc ++ String sep q)%string) ps p.

Section Vocabulary.
Context {F : PyFloat} {RT : PyRuntime}.

(** The two accepted shapes of a timestamp. *)
Definition two_fields (s : string) (m sec : Z) : Prop :=
  exists a b, s = (a ++ ":" ++ b)%string /\
    free_of ":" a /\ free_of ":" b /\
    int_of_str a = OK m /\ int_of_str b = OK sec.

Definition three_fields (s : string) (h m sec : Z) : Prop :=
  exists a b c, s = (a ++ ":" ++ b ++ ":" ++ c)%string /\
    free_of ":" a /\ free_of ":" b /\ free_of ":" c /\
    int_of_str a = OK h /\ int_of_str b = OK m /\ int_of_str c = OK sec.

End Vocabulary.

Section SegmentVocabulary.
Context {F : PyFloat} {RT : PyRuntime}.

(** The ways the [try] block of the segment merger fails on an outcome of the
    inference call: the call raises, the response does not parse, or a
    segment of the parsed response has a boundary that is not a timestamp. *)
Definition merge_attempt_fails (o : outcome) : Prop :=
  (exists e, o = Fails e) \/
  (exists response e,
     o = Responds response /\
     _parse_json_from_response response (Some TList) = Raise e) \/
  (exists response segments segment stamp e,
     o = Responds response /\
     _parse_json_from_response response (Some TList) = OK (PList segments) /\
     In segment segments /\
     (py_getitem segment "startTimestamp" = OK stamp \/
      py_getitem segment "endTimestamp" = OK stamp) /\
     _parse_timestamp stamp = Raise e).

(** [o] is the observation the loop builds from [segment]: its bounds are the
    parsed boundaries added to the batch start and truncated. *)
Definition observation_of_segment (batch_start_time : pyfloat)
    (segment : pyval) (o : Observation) : Prop :=
  exists start_stamp end_stamp start_seconds end_seconds start_date end_date,
    py_getitem segment "startTimestamp" = OK start_stamp /\
    py_getitem segment "endTimestamp" = OK end_stamp /\
    _parse_timestamp start_stamp = OK start_seconds /\
    _parse_timestamp end_stamp = OK end_seconds /\
    float_add_int batch_start_time start_seconds = OK start_date /\
    float_add_int batch_start_time end_seconds = OK end_date /\
    int_of_float start_date = OK (start_ts o) /\
    int_of_float end_date = OK (end_ts o) /\
    py_getitem segment "description" = OK (observation o) /\
    metadata o = PDict [("model", PStr model_name)].

(** The number of distinct captions of a batch. *)
Definition distinct_captions (frame_descriptions : list (pyfloat * string))
    : nat :=
  List.length (nodup string_dec (map snd frame_descriptions)).

(** Start times do not decrease along the list. *)
Fixpoint chronological (l : list Observation) : bool :=
  match l with
  | a :: (b :: _) as rest => (start_ts a <=? start_ts b) && chronological rest
  | _ => true
  end.

(** No observation starts before the one in front of it ends. *)
Fixpoint non_overlapping (l : list Observation) : bool :=
  match l with
  | a :: (b :: _) as rest => (end_ts a <=? start_ts b) && non_overlapping rest
  | _ => true
  end.

(** The list starts at [start], leaves no gap and ends at [stop]. *)
Fixpoint covers (start stop : Z) (l : list Observation) : bool :=
  match l with
  | [] => false
  | [a] => (start_ts a =? start) && (end_ts a =? stop)
  | a :: rest => (start_ts a =? start) && covers (end_ts a) stop rest
  end.

(** The contract of the segment merger on its result. *)
Definition segment_contract (start stop : Z) (l : list Observation) : bool :=
  match l with
  | [] => false
  | _ => chronological l && non_overlapping l && covers start stop l
  end.

End SegmentVocabulary.

Section CardVocabulary.
Context {F : PyFloat} {RT : PyRuntime}.

(** The earliest start and the latest end among the observations of a chunk. *)
Definition earliest_start (observations : list Observation) : Z :=
  match observations with
  | [] => 0
  | o :: rest => fold_left (fun acc x => Z.min acc (start_ts x)) rest (start_ts o)
  end.

Definition latest_end (observations : list Observation) : Z :=
  match observations with
  | [] => 0
  | o :: rest => fold_left (fun acc x => Z.max acc (end_ts x)) rest (end_ts o)
  end.

(** The time bounds of [card] are the formatted earliest start and latest end
    of the chunk. *)
Definition bounds_of_chunk (observations : list Observation)
    (card : ActivityCard) : Prop :=
  exists s t,
    local_clock (earliest_start observations) = OK s /\
    local_clock (latest_end observations) = OK t /\
    start_time card = PStr s /\ end_time card = PStr t.

(** The ways the [try] block of a generator or of the merger fails before a
    value of the expected shape is in hand: the call raises or the response
    does not parse. *)
Definition call_or_parse_fails (expected : py_type) (o : outcome) : Prop :=
  (exists e, o = Fails e) \/
  (exists response e,
     o = Responds response /\
     _parse_json_from_response response (Some expected) = Raise e).

End CardVocabulary.

(** End times do not decrease along the list. *)
Fixpoint ends_ordered {F : PyFloat} (l : list Observation) : bool :=
  match l with
  | a :: (b :: _) as rest => (end_ts a <=? end_ts b) && ends_ordered rest
  | _ => true
  end.

Section TimelineVocabulary.
Context {F : PyFloat} {RT : PyRuntime}.
Variable client : nat -> prompt -> outcome.

(** [previous_card] is the last card of the timeline (and there is none
    before the first card). *)
Definition previous_is_last (st : merge_state) : Prop :=
  match previous_card st with
  | Some previous => last_item (final_cards st) = OK previous
  | None => final_cards st = []
  end.

(** The states of the loop of [process_with_merging] at the end of its passes,
    with the calls sent so far.  A pass that ends has printed its window and
    created the debug directory, and is then a [merging_iteration] that
    ends. *)
Inductive reached (all_observations : list observation_record)
    (start_time end_time : Z) (w0 : list prompt)
    : merge_state -> list prompt -> Prop :=
| reached_start :
    reached all_observations start_time end_time w0
      (mkMergeState start_time [] None) w0
| reached_pass st w st' w' :
    reached all_observations start_time end_time w0 st w ->
    (chunk_start st <? end_time) = true ->
    merging_iteration client all_observations st w = (OK st', w') ->
    reached all_observations start_time end_time w0 st' w'.

End TimelineVocabulary.

Section FusionVocabulary.
Context {F : PyFloat} {RT : PyRuntime}.

(** The card [merge_two_cards] falls back to: the first card extended to the
    end of the second, its summary continued with the summary of the
    second. *)
Definition continued_card (previous_card new_card : ActivityCard)
    : ActivityCard :=
  mkActivityCard (start_time previous_card) (end_time new_card)
    (category previous_card) (title previous_card)
    (PStr (py_format (summary previous_card) ++ " Continued with "
           ++ py_format (summary new_card))%string).

(** The value of [key] in [d], or [default]. *)
Definition value_or (key : string) (default : pyval)
    (d : list (string * pyval)) : pyval :=
  match assoc key d with
  | Some x => x
  | None => default
  end.

End FusionVocabulary.

Section SchedulerVocabulary.
Context {F : PyFloat} {RT : PyRuntime}.

(** The context observations of a chunk of [process_observations_in_chunks]:
    the records that start at or after [context_start] and end at or before
    [chunk_start]. *)
Definition context_of (observations : list observation_record)
    (context_start chunk_start : Z) : list observation_record :=
  filter (fun obs => (rec_start_ts obs >=? context_start)
                     && (rec_end_ts obs <=? chunk_start))
    observations.

End SchedulerVocabulary.

Section DegradedVocabulary.
Context {F : PyFloat} {RT : PyRuntime}.

(** A card with the placeholders of the card generator. *)
Definition is_fallback_card (c : ActivityCard) : Prop :=
  category c = PStr "Work" /\
  title c = PStr "Activity Session" /\
  summary c = PStr "User engaged in various activities." /\
  exists s t, start_time c = PStr s /\ end_time c = PStr t.

(** Every call of the inference service raises. *)
Definition service_down (client : nat -> prompt -> outcome) : Prop :=
  forall n p, exists e, client n p = Fails e.

(** The clock formats the bounds of every record. *)
Definition clocks_defined (records : list observation_record) : Prop :=
  forall o, In o records ->
    (exists s, local_clock (rec_start_ts o) = OK s) /\
    (exists t, local_clock (rec_end_ts o) = OK t).

(** The host prints every window of a run from [start_time] to [end_time]
    in steps of [step]: it formats every instant a cursor or the end of its
    window can be. *)
Definition windows_printed {HOST : PyHost} (start_time end_time step : Z)
    : Prop :=
  forall t, start_time <= t <= end_time + step ->
    exists s, window_clock t = OK s.

(** The host creates the debug directory and writes the context file
    whenever it is asked to. *)
Definition debug_dir_made {HOST : PyHost} : Prop :=
  forall n, host_run n MakeDebugDir = OK tt.

Definition context_files_written {HOST : PyHost} : Prop :=
  forall n transcript, host_run n (WriteContext transcript) = OK tt.

(** What the loop keeps when the service is down: the timeline holds
    fallback cards only, and so does [previous_card]. *)
Definition only_fallback_cards (st : merge_state) : Prop :=
  Forall is_fallback_card (final_cards st) /\
  forall P, previous_card st = Some P -> is_fallback_card P.

(** The five keys of a card of the context-aware generator. *)
Definition card_keys : list string :=
  ["startTime"; "endTime"; "category"; "title"; "summary"].

End DegradedVocabulary.

Section FrameVocabulary.
Context {F : PyFloat}.
Variable int_lt_float : Z -> pyfloat -> bool.
Variable ffmpeg : Z -> Z -> extraction.

(** The loop of [_extract_frames] makes [n] passes on this duration. *)
Definition passes_on (duration : pyfloat) (n : nat) : Prop :=
  forall k : nat,
    int_lt_float (Z.of_nat k * FRAME_EXTRACTION_INTERVAL) duration = true
    <-> (k < n)%nat.

(** What ffmpeg does in the pass [k], and the frames this pass adds. *)
Definition extraction_at (k : nat) : extraction :=
  ffmpeg (Z.of_nat k * FRAME_EXTRACTION_INTERVAL) (Z.of_nat k).

Definition frame_at (k : nat) : list FrameData :=
  match extraction_at k with
  | Extracted image =>
      [mkFrameData image (Z.of_nat k * FRAME_EXTRACTION_INTERVAL) (Z.of_nat k)]
  | _ => []
  end.

(** A frame taken on the clock of the loop, inside the video. *)
Definition on_the_clock (duration : pyfloat) (frame : FrameData) : Prop :=
  0 <= frame_number frame /\
  timestamp frame = frame_number frame * FRAME_EXTRACTION_INTERVAL /\
  int_lt_float (timestamp frame) duration = true.

Definition numbered_before (a b : FrameData) : Prop :=
  frame_number a < frame_number b.

End FrameVocabulary.

(** * Properties *)

(** ** Texts *)

Lemma prefix_iff (p s : string) :
  prefix p s = true <-> exists rest, s = (p ++ rest)%string.
Proof.
  revert s. induction p as [|c p IH]; intros s.
  - split; [intros _; exists s; reflexivity | intros _; destruct s; reflexivity].
  - destruct s as [|c' s]; simpl.
    + split; [discriminate | intros [rest H]; discriminate].
    + destruct (ascii_dec c c') as [->|Hne].
      * rewrite IH. split; intros [rest H]; exists rest.
        -- now rewrite H.
        -- now inversion H.
      * split; [discriminate | intros [rest H]; inversion H; congruence].
Qed.

Lemma str_in_iff (sub s : string) : str_in sub s = true <-> occurs_in sub s.
Proof.
  unfold occurs_in. induction s as [|c s IH].
  - cbn [str_in]. rewrite orb_false_r, prefix_iff. split.
    + intros [rest H]. exists EmptyString, rest. exact H.
    + intros [before [after H]]. destruct before; simpl in H.
      * exists after. exact H.
      * discriminate.
  - cbn [str_in]. rewrite orb_true_iff, prefix_iff, IH. split.
    + intros [[rest H] | [before [after H]]].
      * exists EmptyString, rest. exact H.
      * exists (String c before), after. simpl. now rewrite H.
    + intros [before [after H]]. destruct before as [|c' before]; simpl in H.
      * left. exists after. exact H.
      * right. inversion H. exists before, after. reflexivity.
Qed.

Lemma append_assoc (x y z : string) :
  ((x ++ y) ++ z)%string = (x ++ (y ++ z))%string.
Proof. induction x as [|c x IH]; simpl; [reflexivity | now rewrite IH]. Qed.

Lemma split_on_nonempty (sep : ascii) (s : string) : split_on sep s <> [].
Proof.
  destruct s as [|c s]; simpl; [discriminate|].
  destruct (Ascii.eqb c sep); [discriminate|].
  destruct (split_on sep s); discriminate.
Qed.

Lemma split_on_free (sep : ascii) (s : string) :
  free_of sep s -> split_on sep s = [s].
Proof.
  induction s as [|c s IH]; simpl; [reflexivity|].
  intros [Hc Hs]. apply Ascii.eqb_neq in Hc. rewrite Hc, (IH Hs). reflexivity.
Qed.

Lemma split_on_app (sep : ascii) (a rest : string) :
  free_of sep a ->
  split_on sep (a ++ String sep rest) = a :: split_on sep rest.
Proof.
  induction a as [|c a IH]; simpl.
  - intros _. now rewrite Ascii.eqb_refl.
  - intros [Hc Ha]. apply Ascii.eqb_neq in Hc. rewrite Hc, (IH Ha). reflexivity.
Qed.

Lemma join_fields_cons (sep c : ascii) (p : string) (ps : list string) :
  join_fields sep (String c p) ps = String c (join_fields sep p ps).
Proof.
  unfold join_fields. revert p.
  induction ps as [|q ps IH]; intros p; simpl; [reflexivity|]. apply IH.
Qed.

(** Every text is its fields joined by the separator. *)
Lemma split_on_fields (sep : ascii) (s : string) :
  match split_on sep s with
  | [] => False
  | p :: ps =>
      free_of sep p /\ Forall (free_of sep) ps /\ s = join_fields sep p ps
  end.
Proof.
  induction s as [|c s IH]; simpl.
  - repeat split. constructor.
  - destruct (Ascii.eqb c sep) eqn:E.
    + apply Ascii.eqb_eq in E. subst c.
      destruct (split_on sep s) as [|p ps]; [contradiction|].
      destruct IH as (Hp & Hps & Hs). repeat split.
      * constructor; assumption.
      * change (join_fields sep EmptyString (p :: ps))
          with (join_fields sep (String sep p) ps).
        rewrite join_fields_cons. now rewrite <- Hs.
    + apply Ascii.eqb_neq in E.
      destruct (split_on sep s) as [|p ps]; [contradiction|].
      destruct IH as (Hp & Hps & Hs). repeat split; try assumption.
      rewrite join_fields_cons. now rewrite <- Hs.
Qed.

(** [s[:n]] counts characters, not bytes: two characters of two bytes each. *)
Example first_chars_counts_characters :
  let e_acute := String (ascii_of_nat 195) (String (ascii_of_nat 169) EmptyString) in
  first_chars 2 (e_acute ++ e_acute ++ "x") = (e_acute ++ e_acute)%string /\
  substring 0 2 (e_acute ++ e_acute ++ "x") = e_acute.
Proof. split; reflexivity. Qed.

Lemma first_chars_ascii (n : nat) (s : string) :
  (forall c, In c (list_ascii_of_string s) -> is_continuation_byte c = false) ->
  first_chars n s = substring 0 n s.
Proof.
  revert n. induction s as [|c s IH]; intros n Hs; [now destruct n|].
  cbn [first_chars]. rewrite (Hs c (or_introl eq_refl)).
  destruct n as [|n]; [reflexivity|]. simpl. f_equal. apply IH.
  intros c' Hc'. apply Hs. now right.
Qed.

(** ** Calls and dumps *)

Section DumpProperties.
Context {F : PyFloat} {RT : PyRuntime}.
Variable service : nat -> prompt -> outcome.
Variable dump : nat -> prompt -> string -> exc unit.

Lemma length_snoc {A} (l : list A) (x : A) :
  pred (List.length (l ++ [x])) = List.length l.
Proof. rewrite length_app. simpl. lia. Qed.

(** A call followed by the dump of its response is one call of the client
    [with_dump]. *)
Lemma call_then_dump (p : prompt) (w : list prompt) :
  bind (_call_ollama service p)
    (fun response =>
       bind (dump_response dump p response) (fun _ => ret response)) w
  = _call_ollama (with_dump service dump) p w.
Proof.
  unfold bind, _call_ollama, with_dump, dump_response, ret.
  destruct (service (List.length w) p) as [text|e]; [|reflexivity].
  rewrite length_snoc. destruct (dump (List.length w) p text); reflexivity.
Qed.

(** In a [try] block whose handler does not look at the exception, a call,
    the parse of the response and then the dump are a call of the client
    [with_dump_behind_parse] and the parse. *)
Lemma call_parse_then_dump {A} (expected : py_type) (p : prompt)
    (rest : pyval -> M A) (handler : M A) (w : list prompt) :
  try_except
    (bind (_call_ollama service p)
       (fun response =>
          bind (lift (_parse_json_from_response response (Some expected)))
            (fun data =>
               bind (dump_response dump p response) (fun _ => rest data))))
    (fun _ => handler) w
  = try_except
      (bind (_call_ollama (with_dump_behind_parse service dump expected) p)
         (fun response =>
            bind (lift (_parse_json_from_response response (Some expected)))
              rest))
      (fun _ => handler) w.
Proof.
  unfold try_except, bind, lift, _call_ollama, with_dump_behind_parse,
    dump_response.
  destruct (service (List.length w) p) as [text|e]; [|reflexivity].
  destruct (_parse_json_from_response text (Some expected)) as [data|e] eqn:E.
  - rewrite length_snoc. destruct (dump (List.length w) p text) as [[]|e].
    + rewrite E. reflexivity.
    + reflexivity.
  - rewrite E. reflexivity.
Qed.

(** The four functions that dump a response, with the dump written out as
    in the source, are the functions of the model on these clients. *)
Lemma should_merge_cards_dumps P N w :
  (text <- lift (combined_text P N) ;;
   if existsb (fun keyword => str_in keyword text) distraction_keywords
   then ret (PBool false)
   else
     try_except
       (response <- _call_ollama service (MergeCheckPrompt P N) ;;
        _ <- dump_response dump (MergeCheckPrompt P N) response ;;
        result <- lift (_parse_json_from_response response (Some TDict)) ;;
        should_combine <- lift (py_get result "combine" (PBool false)) ;;
        reason <- lift (py_get result "reason" (PStr "No reason provided")) ;;
        ret should_combine)
       (fun e => ret (PBool false)))%py w
  = should_merge_cards (with_dump service dump) P N w.
Proof.
  unfold should_merge_cards, try_except, bind, lift, ret, _call_ollama,
    with_dump, dump_response.
  destruct (combined_text P N) as [text|e]; [|reflexivity].
  destruct (existsb _ distraction_keywords); [reflexivity|].
  destruct (service (List.length w) (MergeCheckPrompt P N)) as [text'|e];
    [|reflexivity].
  rewrite length_snoc.
  destruct (dump (List.length w) (MergeCheckPrompt P N) text'); reflexivity.
Qed.

Lemma merge_frame_descriptions_dumps fds T0 D w :
  (merge_prompt <- lift (segment_prompt fds D) ;;
   try_except
     (response <- _call_ollama service merge_prompt ;;
      _ <- dump_response dump merge_prompt response ;;
      segments <- lift (_parse_json_from_response response (Some TList)) ;;
      lift (observations_of_segments T0 segments))
     (fun e =>
        start <- lift (int_of_float T0) ;;
        stop <- lift (int_of_float (float_add T0 D)) ;;
        ret [failed_merge start stop e]))%py w
  = _merge_frame_descriptions (with_dump service dump) fds T0 D w.
Proof.
  unfold _merge_frame_descriptions, try_except, bind, lift, ret, _call_ollama,
    with_dump, dump_response.
  destruct (segment_prompt fds D) as [p|e]; [|reflexivity].
  destruct (service (List.length w) p) as [text|e]; [|reflexivity].
  rewrite length_snoc.
  destruct (dump (List.length w) p text); reflexivity.
Qed.

Lemma generate_activity_cards_dumps observations w :
  (transcript <- lift (transcript_of observations) ;;
   try_except
     (response <- _call_ollama service (ActivityPrompt transcript) ;;
      _ <- dump_response dump (ActivityPrompt transcript) response ;;
      result_data <- lift (_parse_json_from_response response (Some TDict)) ;;
      bounds <- lift (card_bounds observations) ;;
      card_title <- lift (py_get result_data "title" (PStr "Activity Session")) ;;
      card_summary <- lift (py_get result_data "summary"
                              (PStr "User engaged in various activities.")) ;;
      ret [mkActivityCard (PStr (fst bounds)) (PStr (snd bounds)) (PStr "Work")
             card_title card_summary])
     (fun e =>
        bounds <- lift (card_bounds observations) ;;
        ret [fallback_card bounds]))%py w
  = _generate_activity_cards (with_dump service dump) observations w.
Proof.
  unfold _generate_activity_cards, try_except, bind, lift, ret, _call_ollama,
    with_dump, dump_response.
  destruct (transcript_of observations) as [transcript|e]; [|reflexivity].
  destruct (service (List.length w) (ActivityPrompt transcript)) as [text|e];
    [|reflexivity].
  rewrite length_snoc.
  destruct (dump (List.length w) (ActivityPrompt transcript) text);
    reflexivity.
Qed.

End DumpProperties.

Section ContextDumpProperties.
Context {F : PyFloat} {RT : PyRuntime} {HOST : PyHost}.
Variable service : nat -> prompt -> outcome.
Variable dump : nat -> prompt -> string -> exc unit.

Lemma generate_with_context_dumps observations context_observations
    context_cards w :
  (_ <- host MakeDebugDir ;;
   transcript_text <-
     lift (context_transcript observations context_observations
             context_cards) ;;
   _ <- host (WriteContext transcript_text) ;;
   try_except
     (response <- _call_ollama service (ContextActivityPrompt transcript_text) ;;
      cards_data <- lift (_parse_json_from_response response (Some TList)) ;;
      _ <- dump_response dump (ContextActivityPrompt transcript_text) response ;;
      items <- lift (py_iter cards_data) ;;
      lift (exc_map card_of_data items))
     (fun e =>
        bounds <- lift (card_bounds observations) ;;
        ret [fallback_card bounds]))%py w
  = _generate_activity_cards_with_context
      (with_dump_behind_parse service dump TList) observations
      context_observations context_cards w.
Proof.
  unfold _generate_activity_cards_with_context, try_except, bind, lift, ret,
    _call_ollama, with_dump_behind_parse, dump_response, host.
  destruct (host_run (List.length w) MakeDebugDir) as [[]|e]; [|reflexivity].
  destruct (context_transcript observations context_observations context_cards)
    as [transcript|e]; [|reflexivity].
  destruct (host_run (List.length w) (WriteContext transcript)) as [[]|e];
    [|reflexivity].
  destruct (service (List.length w) (ContextActivityPrompt transcript))
    as [text|e]; [|reflexivity].
  destruct (_parse_json_from_response text (Some TList)) as [data|e] eqn:E.
  - rewrite length_snoc.
    destruct (dump (List.length w) (ContextActivityPrompt transcript) text)
      as [[]|e]; [rewrite E|]; reflexivity.
  - rewrite E. reflexivity.
Qed.

End ContextDumpProperties.

(** ** Loops and handlers *)

Lemma exc_map_raises {A B} (f : A -> exc B) (l : list A) (x : A) (e : exn) :
  In x l -> f x = Raise e -> exists e', exc_map f l = Raise e'.
Proof.
  induction l as [|y l IH]; simpl; [contradiction|].
  intros [-> | Hin] Hx.
  - rewrite Hx. eauto.
  - destruct (f y); [|eauto].
    destruct (IH Hin Hx) as [e' ->]. eauto.
Qed.

Lemma exc_map_ok {A B} (f : A -> exc B) (l : list A) (r : list B) :
  exc_map f l = OK r -> Forall2 (fun x y => f x = OK y) l r.
Proof.
  revert r. induction l as [|x l IH]; simpl; intros r H.
  - inversion H. constructor.
  - destruct (f x) eqn:Hx; [|discriminate].
    destruct (exc_map f l); [|discriminate].
    inversion H. subst. constructor; auto.
Qed.

Lemma first_item_in {A} (l : list A) (x : A) : first_item l = OK x -> In x l.
Proof. destruct l; simpl; intros H; inversion H. now left. Qed.

Lemma last_item_in {A} (l : list A) (x : A) : last_item l = OK x -> In x l.
Proof.
  induction l as [|y l IH]; simpl; [discriminate|].
  destruct l as [|z l].
  - intros H. inversion H. now left.
  - intros H. right. apply IH. exact H.
Qed.

Lemma last_item_app {A} (l : list A) (x : A) : last_item (l ++ [x]) = OK x.
Proof.
  induction l as [|y l IH]; simpl; [reflexivity|].
  destruct (l ++ [x]) eqn:E; [|exact IH].
  destruct l; discriminate.
Qed.

Lemma last_item_nonempty {A} (l : list A) :
  l <> [] -> exists x, last_item l = OK x.
Proof.
  induction l as [|y l IH]; [congruence|]. intros _.
  destruct l as [|z l]; simpl; [eauto|].
  apply IH. discriminate.
Qed.

Section VideoProcessorProperties.
Context {F : PyFloat} {RT : PyRuntime} {HOST : PyHost}.
Variable client : nat -> prompt -> outcome.

(** The segment merger, once its prompt is built, by what the service and the
    parser do. *)
Lemma merge_frame_descriptions_cases fds T0 D w p start stop :
  segment_prompt fds D = OK p ->
  int_of_float T0 = OK start ->
  int_of_float (float_add T0 D) = OK stop ->
  _merge_frame_descriptions client fds T0 D w =
  (match client (List.length w) p with
   | Fails e => OK [failed_merge start stop e]
   | Responds response =>
       match _parse_json_from_response response (Some TList) with
       | Raise e => OK [failed_merge start stop e]
       | OK segments =>
           match observations_of_segments T0 segments with
           | Raise e => OK [failed_merge start stop e]
           | OK observations => OK observations
           end
       end
   end, w ++ [p]).
Proof.
  intros Hp Hstart Hstop.
  unfold _merge_frame_descriptions, bind, lift, try_except, ret, _call_ollama.
  rewrite Hp, Hstart, Hstop.
  destruct (client (List.length w) p) as [response|e]; [|reflexivity].
  destruct (_parse_json_from_response response (Some TList)); [|reflexivity].
  destruct (observations_of_segments T0 a); reflexivity.
Qed.

(** A segment with a boundary that does not parse stops the loop. *)
Lemma bad_boundary_raises T0 segment stamp e :
  py_getitem segment "startTimestamp" = OK stamp \/
  py_getitem segment "endTimestamp" = OK stamp ->
  _parse_timestamp stamp = Raise e ->
  exists e', segment_to_observation T0 segment = Raise e'.
Proof.
  intros Hstamp Hparse. unfold segment_to_observation, exc_bind.
  destruct Hstamp as [H | H].
  - rewrite H, Hparse. eauto.
  - destruct (py_getitem segment "startTimestamp"); [|eauto].
    destruct (_parse_timestamp a); [|eauto].
    rewrite H, Hparse. eauto.
Qed.

Lemma parse_timestamp_two s m sec :
  two_fields s m sec -> _parse_timestamp (PStr s) = OK (m * 60 + sec).
Proof.
  intros (a & b & -> & Ha & Hb & Hm & Hsec). unfold _parse_timestamp.
  change (a ++ ":" ++ b)%string with (a ++ String ":" b)%string.
  rewrite (split_on_app _ _ _ Ha), (split_on_free _ _ Hb).
  unfold exc_bind. now rewrite Hm, Hsec.
Qed.

Lemma parse_timestamp_three s h m sec :
  three_fields s h m sec ->
  _parse_timestamp (PStr s) = OK (h * 3600 + m * 60 + sec).
Proof.
  intros (a & b & c & -> & Ha & Hb & Hc & Hh & Hm & Hsec).
  unfold _parse_timestamp.
  change (a ++ ":" ++ b ++ ":" ++ c)%string
    with (a ++ String ":" (b ++ String ":" c))%string.
  rewrite (split_on_app _ _ _ Ha), (split_on_app _ _ _ Hb),
    (split_on_free _ _ Hc).
  unfold exc_bind. now rewrite Hh, Hm, Hsec.
Qed.

Lemma parse_timestamp_shape s v :
  _parse_timestamp (PStr s) = OK v ->
  (exists m sec, two_fields s m sec /\ v = m * 60 + sec) \/
  (exists h m sec, three_fields s h m sec /\ v = h * 3600 + m * 60 + sec).
Proof.
  unfold _parse_timestamp. pose proof (split_on_fields ":" s) as Hf.
  destruct (split_on ":" s) as [|a [|b [|c [|d rest]]]]; try discriminate.
  - destruct Hf as (Ha & Hps & Hs). inversion Hps as [|? ? Hb _]. subst.
    unfold exc_bind.
    destruct (int_of_str a) as [m|] eqn:Hm; [|discriminate].
    destruct (int_of_str b) as [sec|] eqn:Hsec; [|discriminate].
    intros H. inversion H. left. exists m, sec. split; [|reflexivity].
    exists a, b. repeat split; assumption.
  - destruct Hf as (Ha & Hps & Hs).
    inversion Hps as [|? ? Hb Hps']. inversion Hps' as [|? ? Hc _]. subst.
    unfold exc_bind.
    destruct (int_of_str a) as [h|] eqn:Hh; [|discriminate].
    destruct (int_of_str b) as [m|] eqn:Hm; [|discriminate].
    destruct (int_of_str c) as [sec|] eqn:Hsec; [|discriminate].
    intros H. inversion H. right. exists h, m, sec. split; [|reflexivity].
    exists a, b, c. unfold join_fields. simpl.
    rewrite append_assoc. repeat split; assumption.
Qed.


Lemma segment_to_observation_ok T0 segment o :
  segment_to_observation T0 segment = OK o ->
  observation_of_segment T0 segment o.
Proof.
  unfold segment_to_observation, observation_of_segment, exc_bind.
  destruct (py_getitem segment "startTimestamp") as [ss|] eqn:H1; [|discriminate].
  destruct (_parse_timestamp ss) as [s|] eqn:H2; [|discriminate].
  destruct (py_getitem segment "endTimestamp") as [es|] eqn:H3; [|discriminate].
  destruct (_parse_timestamp es) as [t|] eqn:H4; [|discriminate].
  destruct (float_add_int T0 s) as [sd|] eqn:H5; [|discriminate].
  destruct (float_add_int T0 t) as [ed|] eqn:H6; [|discriminate].
  destruct (int_of_float sd) as [a|] eqn:H7; [|discriminate].
  destruct (int_of_float ed) as [b|] eqn:H8; [|discriminate].
  destruct (py_getitem segment "description") as [d|] eqn:H9; [|discriminate].
  intros H. inversion H. subst o. simpl.
  exists ss, es, s, t, sd, ed. repeat split; assumption.
Qed.

Lemma merge_attempt_raises T0 response :
  merge_attempt_fails (Responds response) ->
  (exists e, _parse_json_from_response response (Some TList) = Raise e) \/
  (exists segments e,
     _parse_json_from_response response (Some TList) = OK segments /\
     observations_of_segments T0 segments = Raise e).
Proof.
  intros [[e H] | [(r & e & H & Hparse) | H]].
  - discriminate.
  - inversion H. subst. eauto.
  - destruct H as (r & segments & segment & stamp & e & H & Hparse & Hin & Hstamp & Hbad).
    inversion H. subst r. right.
    destruct (bad_boundary_raises T0 segment stamp e Hstamp Hbad) as [e1 H1].
    destruct (exc_map_raises _ _ _ _ Hin H1) as [e2 H2].
    exists (PList segments), e2. split; [exact Hparse|].
    unfold observations_of_segments. simpl. exact H2.
Qed.

(** C3. Once the prompt of a batch starting at T0 and lasting D is built, if
    the inference call raises, or its response does not parse, or a segment
    of it has a boundary that is not MM:SS or HH:MM:SS, the segment merger
    raises nothing and returns exactly one observation from int(T0) to
    int(T0 + D), with the sentinel description and the text of the error in
    its metadata (the error of the call or of the parser when these fail). *)
Theorem segment_merger_falls_back fds T0 D w p start stop :
  segment_prompt fds D = OK p ->
  int_of_float T0 = OK start ->
  int_of_float (float_add T0 D) = OK stop ->
  merge_attempt_fails (client (List.length w) p) ->
  exists e,
    _merge_frame_descriptions client fds T0 D w =
      (OK [mkObservation start stop (PStr "Failed to merge frame descriptions")
             (PDict [("error", PStr (exn_str e))])], w ++ [p]) /\
    (forall e0, client (List.length w) p = Fails e0 -> e = e0) /\
    (forall response e0,
       client (List.length w) p = Responds response ->
       _parse_json_from_response response (Some TList) = Raise e0 -> e = e0).
Proof.
  intros Hp Hstart Hstop Hfail.
  rewrite (merge_frame_descriptions_cases fds T0 D w p start stop Hp Hstart Hstop).
  destruct (client (List.length w) p) as [response|e] eqn:Hc.
  - destruct (merge_attempt_raises T0 response Hfail)
      as [[e He] | (segments & e & Hs & He)].
    + rewrite He. exists e. split; [reflexivity|]. split.
      * intros e0 H. discriminate.
      * intros r e0 H1 H2. inversion H1. subst r. congruence.
    + rewrite Hs, He. exists e. split; [reflexivity|]. split.
      * intros e0 H. discriminate.
      * intros r e0 H1 H2. inversion H1. subst r. congruence.
  - exists e. split; [reflexivity|]. split.
    + intros e0 H. now inversion H.
    + intros r e0 H. discriminate.
Qed.

(** C9. [_parse_timestamp] returns m*60 + sec on a text with the two integer
    fields m:sec, h*3600 + m*60 + sec on a text with the three integer fields
    h:m:sec, and raises on every other text; in the segment merger a boundary
    it raises on sends the whole batch to the single-observation fallback. *)
Theorem parse_timestamp_spec :
  (forall s m sec,
     two_fields s m sec -> _parse_timestamp (PStr s) = OK (m * 60 + sec)) /\
  (forall s h m sec,
     three_fields s h m sec ->
     _parse_timestamp (PStr s) = OK (h * 3600 + m * 60 + sec)) /\
  (forall s,
     (forall m sec, ~ two_fields s m sec) ->
     (forall h m sec, ~ three_fields s h m sec) ->
     exists e, _parse_timestamp (PStr s) = Raise e) /\
  (forall fds T0 D w p start stop response segments segment stamp e,
     segment_prompt fds D = OK p ->
     int_of_float T0 = OK start ->
     int_of_float (float_add T0 D) = OK stop ->
     client (List.length w) p = Responds response ->
     _parse_json_from_response response (Some TList) = OK (PList segments) ->
     In segment segments ->
     py_getitem segment "startTimestamp" = OK stamp \/
     py_getitem segment "endTimestamp" = OK stamp ->
     _parse_timestamp stamp = Raise e ->
     exists e',
       _merge_frame_descriptions client fds T0 D w =
         (OK [failed_merge start stop e'], w ++ [p])).
Proof.
  split; [exact parse_timestamp_two|].
  split; [exact parse_timestamp_three|].
  split.
  - intros s H2 H3. destruct (_parse_timestamp (PStr s)) as [v|e] eqn:E; [|eauto].
    destruct (parse_timestamp_shape s v E) as [(m & sec & H & _) | (h & m & sec & H & _)].
    + destruct (H2 m sec H).
    + destruct (H3 h m sec H).
  - intros fds T0 D w p start stop response segments segment stamp e
      Hp Hstart Hstop Hc Hparse Hin Hstamp Hbad.
    rewrite (merge_frame_descriptions_cases fds T0 D w p start stop Hp Hstart Hstop).
    rewrite Hc, Hparse.
    destruct (bad_boundary_raises T0 segment stamp e Hstamp Hbad) as [e1 H1].
    destruct (exc_map_raises _ _ _ _ Hin H1) as [e2 H2].
    exists e2. unfold observations_of_segments. simpl. now rewrite H2.
Qed.

(** C7 (as amended). Once the prompt of a batch is built and int(T0),
    int(T0 + D) exist, the segment merger returns a list whatever the
    inference service does: on the fallback path the single observation from
    int(T0) to int(T0 + D), which meets the contract (non-empty, ordered,
    non-overlapping, covering the span); on the success path one observation
    per segment of the parsed response, in the order of the response, with
    bounds int(T0 + parsed boundary). *)
Theorem segment_merger_result fds T0 D w p start stop :
  segment_prompt fds D = OK p ->
  int_of_float T0 = OK start ->
  int_of_float (float_add T0 D) = OK stop ->
  exists observations,
    _merge_frame_descriptions client fds T0 D w = (OK observations, w ++ [p]) /\
    ((exists e, observations = [failed_merge start stop e] /\
                segment_contract start stop observations = true) \/
     (exists response segments items,
        client (List.length w) p = Responds response /\
        _parse_json_from_response response (Some TList) = OK segments /\
        py_iter segments = OK items /\
        Forall2 (observation_of_segment T0) items observations)).
Proof.
  intros Hp Hstart Hstop.
  rewrite (merge_frame_descriptions_cases fds T0 D w p start stop Hp Hstart Hstop).
  assert (Hfb : forall e,
    exists e0, [failed_merge start stop e] = [failed_merge start stop e0] /\
      segment_contract start stop [failed_merge start stop e] = true).
  { intros e. exists e. split; [reflexivity|].
    unfold segment_contract. simpl. now rewrite !Z.eqb_refl. }
  destruct (client (List.length w) p) as [response|e].
  - destruct (_parse_json_from_response response (Some TList)) as [segments|e] eqn:Hparse.
    + destruct (observations_of_segments T0 segments) as [observations|e] eqn:Hobs.
      * exists observations. split; [reflexivity|]. right.
        unfold observations_of_segments, exc_bind in Hobs.
        destruct (py_len segments); [|discriminate].
        destruct (py_iter segments) as [items|] eqn:Hiter; [|discriminate].
        exists response, segments, items. repeat split; try assumption.
        apply exc_map_ok in Hobs.
        clear - Hobs. induction Hobs as [|x y l l' Hxy _ IH]; constructor.
        -- now apply segment_to_observation_ok.
        -- exact IH.
      * eexists. split; [reflexivity|]. left. apply Hfb.
    + eexists. split; [reflexivity|]. left. apply Hfb.
  - eexists. split; [reflexivity|]. left. apply Hfb.
Qed.

(** *** The card generator *)

Lemma transcript_clocks observations transcript :
  transcript_of observations = OK transcript ->
  forall o, In o observations ->
    (exists s, local_clock (start_ts o) = OK s) /\
    (exists t, local_clock (end_ts o) = OK t).
Proof.
  unfold transcript_of. revert transcript.
  induction observations as [|x l IH]; simpl; intros transcript H o Hin.
  - contradiction.
  - unfold exc_bind in H at 1.
    destruct (local_clock (start_ts x)) as [s|] eqn:Hs; [|discriminate].
    unfold exc_bind in H at 1.
    destruct (local_clock (end_ts x)) as [t|] eqn:Ht; [|discriminate].
    destruct (exc_map _ l) as [rest|] eqn:Hrest; [|discriminate].
    destruct Hin as [<- | Hin]; [eauto|].
    exact (IH rest eq_refl o Hin).
Qed.

(** When the transcript of a non-empty chunk is built, so are its bounds. *)
Lemma card_bounds_defined observations transcript :
  observations <> [] ->
  transcript_of observations = OK transcript ->
  exists first last s t,
    first_item observations = OK first /\
    last_item observations = OK last /\
    local_clock (start_ts first) = OK s /\
    local_clock (end_ts last) = OK t /\
    card_bounds observations = OK (s, t).
Proof.
  intros Hne Htr.
  destruct observations as [|first rest] eqn:E; [congruence|]. rewrite <- E in *.
  assert (Hfirst : first_item observations = OK first) by now rewrite E.
  destruct (last_item_nonempty observations Hne) as [last Hlast].
  destruct (transcript_clocks _ _ Htr first (first_item_in _ _ Hfirst)) as [[s Hs] _].
  destruct (transcript_clocks _ _ Htr last (last_item_in _ _ Hlast)) as [_ [t Ht]].
  exists first, last, s, t. repeat split; try assumption.
  unfold card_bounds, exc_bind. now rewrite Hfirst, Hs, Hlast, Ht.
Qed.

Lemma generate_activity_cards_cases observations transcript bounds w :
  transcript_of observations = OK transcript ->
  card_bounds observations = OK bounds ->
  _generate_activity_cards client observations w =
  (OK (match client (List.length w) (ActivityPrompt transcript) with
       | Fails _ => [fallback_card bounds]
       | Responds response =>
           match _parse_json_from_response response (Some TDict) with
           | Raise _ => [fallback_card bounds]
           | OK result_data =>
               match py_get result_data "title" (PStr "Activity Session"),
                     py_get result_data "summary"
                       (PStr "User engaged in various activities.") with
               | OK card_title, OK card_summary =>
                   [mkActivityCard (PStr (fst bounds)) (PStr (snd bounds))
                      (PStr "Work") card_title card_summary]
               | _, _ => [fallback_card bounds]
               end
           end
       end), w ++ [ActivityPrompt transcript]).
Proof.
  intros Htr Hb.
  unfold _generate_activity_cards, bind, lift, try_except, ret, _call_ollama.
  rewrite Htr, Hb.
  destruct (client (List.length w) (ActivityPrompt transcript)) as [response|e];
    [|reflexivity].
  destruct (_parse_json_from_response response (Some TDict)) as [data|e];
    [|reflexivity].
  destruct (py_get data "title" _); [|reflexivity].
  destruct (py_get data "summary" _); reflexivity.
Qed.

(** C4. For a non-empty chunk whose transcript is built, if the inference
    call raises or its response does not parse as an object, the generator
    raises nothing and returns exactly one card: category Work, title
    Activity Session, summary "User engaged in various activities.", from the
    formatted start of the first observation to the formatted end of the
    last. *)
Theorem card_generator_falls_back observations transcript w :
  observations <> [] ->
  transcript_of observations = OK transcript ->
  call_or_parse_fails TDict
    (client (List.length w) (ActivityPrompt transcript)) ->
  exists first last s t,
    first_item observations = OK first /\
    last_item observations = OK last /\
    local_clock (start_ts first) = OK s /\
    local_clock (end_ts last) = OK t /\
    _generate_activity_cards client observations w =
      (OK [mkActivityCard (PStr s) (PStr t) (PStr "Work")
             (PStr "Activity Session")
             (PStr "User engaged in various activities.")],
       w ++ [ActivityPrompt transcript]).
Proof.
  intros Hne Htr Hfail.
  destruct (card_bounds_defined observations transcript Hne Htr)
    as (first & last & s & t & Hfirst & Hlast & Hs & Ht & Hb).
  exists first, last, s, t. repeat split; try assumption.
  rewrite (generate_activity_cards_cases _ _ _ w Htr Hb).
  destruct Hfail as [[e ->] | (response & e & -> & ->)]; reflexivity.
Qed.

Lemma chronological_first o rest :
  chronological (o :: rest) = true ->
  Forall (fun x => start_ts o <= start_ts x) rest.
Proof.
  revert o. induction rest as [|b rest IH]; intros o H; [constructor|].
  cbn [chronological] in H. apply andb_true_iff in H. destruct H as [Hob H].
  apply Z.leb_le in Hob. constructor; [exact Hob|].
  eapply Forall_impl; [|exact (IH b H)]. simpl. intros x Hx. lia.
Qed.

Lemma earliest_start_first o rest :
  chronological (o :: rest) = true -> earliest_start (o :: rest) = start_ts o.
Proof.
  intros H. apply chronological_first in H. unfold earliest_start.
  induction H as [|b rest Hb _ IH]; simpl; [reflexivity|].
  rewrite Z.min_l by exact Hb. exact IH.
Qed.

Lemma latest_end_last observations last :
  ends_ordered observations = true ->
  last_item observations = OK last ->
  latest_end observations = end_ts last.
Proof.
  destruct observations as [|o rest]; [discriminate|].
  unfold latest_end. revert o.
  induction rest as [|b rest IH]; intros o Hord Hlast.
  - simpl in *. now inversion Hlast.
  - cbn [ends_ordered] in Hord. apply andb_true_iff in Hord.
    destruct Hord as [Hob Hord]. apply Z.leb_le in Hob.
    cbn [fold_left]. rewrite Z.max_r by exact Hob.
    apply (IH b Hord). exact Hlast.
Qed.

Lemma context_transcript_current observations context_observations context_cards tr :
  context_transcript observations context_observations context_cards = OK tr ->
  exists current, transcript_of observations = OK current.
Proof.
  unfold context_transcript. unfold exc_bind at 1.
  destruct (match context_observations with [] => _ | _ => _ end); [|discriminate].
  unfold exc_bind. destruct (transcript_of observations); [eauto|discriminate].
Qed.

Lemma generate_with_context_cases observations context_observations
    context_cards transcript bounds w :
  host_run (List.length w) MakeDebugDir = OK tt ->
  context_transcript observations context_observations context_cards
    = OK transcript ->
  host_run (List.length w) (WriteContext transcript) = OK tt ->
  card_bounds observations = OK bounds ->
  _generate_activity_cards_with_context client observations
    context_observations context_cards w =
  (OK (match client (List.length w) (ContextActivityPrompt transcript) with
       | Fails _ => [fallback_card bounds]
       | Responds response =>
           match _parse_json_from_response response (Some TList) with
           | Raise _ => [fallback_card bounds]
           | OK cards_data =>
               match py_iter cards_data with
               | Raise _ => [fallback_card bounds]
               | OK items =>
                   match exc_map card_of_data items with
                   | Raise _ => [fallback_card bounds]
                   | OK cards => cards
                   end
               end
           end
       end), w ++ [ContextActivityPrompt transcript]).
Proof.
  intros Hdir Htr Hfile Hb.
  unfold _generate_activity_cards_with_context, bind, lift, try_except, ret,
    _call_ollama, host.
  rewrite Hdir, Htr, Hfile, Hb.
  destruct (client (List.length w) (ContextActivityPrompt transcript))
    as [response|e]; [|reflexivity].
  destruct (_parse_json_from_response response (Some TList)) as [data|e];
    [|reflexivity].
  destruct (py_iter data) as [items|e]; [|reflexivity].
  destruct (exc_map card_of_data items); reflexivity.
Qed.

Lemma card_of_data_ok item card :
  card_of_data item = OK card ->
  py_getitem item "startTime" = OK (start_time card) /\
  py_getitem item "endTime" = OK (end_time card).
Proof.
  unfold card_of_data, exc_bind.
  destruct (py_getitem item "startTime"); [|discriminate].
  destruct (py_getitem item "endTime"); [|discriminate].
  destruct (py_getitem item "category"); [|discriminate].
  destruct (py_getitem item "title"); [|discriminate].
  destruct (py_getitem item "summary"); [|discriminate].
  intros H. inversion H. simpl. split; reflexivity.
Qed.

(** C6 (as amended). Let s be the formatted start of the first observation
    of the current chunk and t the formatted end of its last observation.
    Every card the generator without context returns runs from s to t, and so
    does the card of the fallback path of the generator with context,
    whatever the context; these are the earliest start and the latest end
    when the chunk is ordered by start and by end.  On the success path of
    the generator with context the cards and their time bounds are the
    startTime and endTime of the items of the response. *)
Theorem card_bounds_of_generators observations first last s t :
  first_item observations = OK first ->
  last_item observations = OK last ->
  local_clock (start_ts first) = OK s ->
  local_clock (end_ts last) = OK t ->
  (forall w cards w',
     _generate_activity_cards client observations w = (OK cards, w') ->
     exists card,
       cards = [card] /\ start_time card = PStr s /\ end_time card = PStr t /\
       (chronological observations = true ->
        ends_ordered observations = true ->
        bounds_of_chunk observations card)) /\
  (forall context_observations context_cards w cards w',
     _generate_activity_cards_with_context client observations
       context_observations context_cards w = (OK cards, w') ->
     cards = [mkActivityCard (PStr s) (PStr t) (PStr "Work")
                (PStr "Activity Session")
                (PStr "User engaged in various activities.")] \/
     exists transcript response cards_data items,
       context_transcript observations context_observations context_cards
         = OK transcript /\
       client (List.length w) (ContextActivityPrompt transcript)
         = Responds response /\
       _parse_json_from_response response (Some TList) = OK cards_data /\
       py_iter cards_data = OK items /\
       Forall2 (fun item card =>
                  py_getitem item "startTime" = OK (start_time card) /\
                  py_getitem item "endTime" = OK (end_time card))
         items cards).
Proof.
  intros Hfirst Hlast Hs Ht.
  assert (Hb : card_bounds observations = OK (s, t)).
  { unfold card_bounds, exc_bind. now rewrite Hfirst, Hs, Hlast, Ht. }
  split.
  - intros w cards w' H.
    destruct (transcript_of observations) as [transcript|e] eqn:Htr.
    + rewrite (generate_activity_cards_cases _ _ _ w Htr Hb) in H.
      assert (Hc : exists card, cards = [card] /\
                start_time card = PStr s /\ end_time card = PStr t).
      { inversion H as [[Hcards Hw]]. clear H Hw Hcards.
        destruct (client (List.length w) (ActivityPrompt transcript)); [|eexists; simpl; eauto].
        destruct (_parse_json_from_response _ _); [|eexists; simpl; eauto].
        destruct (py_get _ "title" _); [|eexists; simpl; eauto].
        destruct (py_get _ "summary" _); eexists; simpl; eauto. }
      destruct Hc as (card & -> & Hcs & Hce). exists card.
      repeat split; try assumption.
      intros Hchron Hends. exists s, t. repeat split; try assumption.
      * destruct observations as [|o rest]; [discriminate|].
        rewrite (earliest_start_first o rest Hchron).
        simpl in Hfirst. inversion Hfirst. now subst.
      * now rewrite (latest_end_last observations last Hends Hlast).
    + unfold _generate_activity_cards, bind, lift in H. rewrite Htr in H.
      discriminate.
  - intros co cc w cards w' H.
    destruct (host_run (List.length w) MakeDebugDir) as [[]|e] eqn:Hdir;
      [|unfold _generate_activity_cards_with_context, bind, host in H;
        rewrite Hdir in H; discriminate].
    destruct (context_transcript observations co cc) as [transcript|e] eqn:Htr.
    + destruct (host_run (List.length w) (WriteContext transcript))
        as [[]|e] eqn:Hfile;
        [|unfold _generate_activity_cards_with_context, bind, lift, host in H;
          rewrite Hdir, Htr, Hfile in H; discriminate].
      rewrite (generate_with_context_cases _ _ _ _ _ w Hdir Htr Hfile Hb) in H.
      inversion H as [[Hcards Hw]]. clear H Hw.
      destruct (client (List.length w) (ContextActivityPrompt transcript))
        as [response|e] eqn:Hc; [|now left].
      destruct (_parse_json_from_response response (Some TList))
        as [cards_data|e] eqn:Hparse; [|now left].
      destruct (py_iter cards_data) as [items|e] eqn:Hiter; [|now left].
      destruct (exc_map card_of_data items) as [cs|e] eqn:Hmap; [|now left].
      right. exists transcript, response, cards_data, items.
      repeat split; try assumption.
      apply exc_map_ok in Hmap. clear - Hmap.
      induction Hmap as [|x y l l' Hxy _ IH]; constructor.
      * now apply card_of_data_ok.
      * exact IH.
    + unfold _generate_activity_cards_with_context, bind, lift, host in H.
      rewrite Hdir, Htr in H. discriminate.
Qed.

End VideoProcessorProperties.

(** ** The consolidation engine *)

Section MergerProperties.
Context {F : PyFloat} {RT : PyRuntime} {HOST : PyHost}.
Variable client : nat -> prompt -> outcome.

Lemma py_add_str a b s :
  py_add a b = OK (PStr s) ->
  exists x y, a = PStr x /\ b = PStr y /\ s = (x ++ y)%string.
Proof.
  destruct a, b; simpl; try discriminate;
    try (destruct (float_add_int _ _); discriminate).
  intros H. inversion H. eauto.
Qed.

(** The combined text exists exactly when the four fields are texts. *)
Lemma combined_text_iff P N text :
  combined_text P N = OK text <->
  exists a b c d,
    title P = PStr a /\ summary P = PStr b /\
    title N = PStr c /\ summary N = PStr d /\
    text = str_lower (((a ++ b) ++ c) ++ d)%string.
Proof.
  unfold combined_text, exc_bind. split.
  - destruct (py_add (title P) (summary P)) as [t1|] eqn:H1; [|discriminate].
    destruct (py_add t1 (title N)) as [t2|] eqn:H2; [|discriminate].
    destruct (py_add t2 (summary N)) as [t3|] eqn:H3; [|discriminate].
    destruct t3; simpl; try discriminate. intros H. inversion H.
    apply py_add_str in H3. destruct H3 as (x3 & d & -> & Hd & ->).
    apply py_add_str in H2. destruct H2 as (x2 & c & -> & Hc & ->).
    apply py_add_str in H1. destruct H1 as (a & b & Ha & Hb & ->).
    exists a, b, c, d. repeat split; assumption.
  - intros (a & b & c & d & -> & -> & -> & -> & ->). reflexivity.
Qed.

Lemma keyword_found text keyword :
  In keyword distraction_keywords ->
  occurs_in keyword text ->
  existsb (fun k => str_in k text) distraction_keywords = true.
Proof.
  intros Hin Hocc. apply existsb_exists. exists keyword.
  split; [exact Hin | now apply str_in_iff].
Qed.

Lemma no_keyword_found text :
  (forall keyword, In keyword distraction_keywords -> ~ occurs_in keyword text) ->
  existsb (fun k => str_in k text) distraction_keywords = false.
Proof.
  intros H. destruct (existsb _ _) eqn:E; [|reflexivity].
  apply existsb_exists in E. destruct E as (k & Hin & Hk).
  apply str_in_iff in Hk. destruct (H k Hin Hk).
Qed.

(** C1. When the lowercase concatenation of the titles and summaries of two
    cards contains a keyword of the distraction list, [should_merge_cards]
    returns False and sends nothing to the inference service. *)
Theorem lexical_veto P N a b c d keyword w :
  title P = PStr a -> summary P = PStr b ->
  title N = PStr c -> summary N = PStr d ->
  In keyword distraction_keywords ->
  occurs_in keyword (str_lower (((a ++ b) ++ c) ++ d)%string) ->
  should_merge_cards client P N w = (OK (PBool false), w).
Proof.
  intros Ha Hb Hc Hd Hin Hocc.
  assert (Ht : combined_text P N = OK (str_lower (((a ++ b) ++ c) ++ d)%string)).
  { apply combined_text_iff. exists a, b, c, d. repeat split; assumption. }
  unfold should_merge_cards, bind, lift. rewrite Ht.
  now rewrite (keyword_found _ _ Hin Hocc).
Qed.

(** C2. Whatever the inference service does, [merge_two_cards] returns a card
    that starts when the first card starts, ends when the second card ends
    and has the category of the first card. *)
Theorem fusion_bounds P N w :
  exists card w',
    merge_two_cards client P N w = (OK card, w') /\
    start_time card = start_time P /\
    end_time card = end_time N /\
    category card = category P.
Proof.
  unfold merge_two_cards, bind, lift, try_except, ret, _call_ollama.
  destruct (client (List.length w) (FusionPrompt P N)) as [response|e].
  - destruct (_parse_json_from_response response (Some TDict)) as [result|e].
    + destruct (py_get result "title" _).
      * destruct (py_get result "summary" _); eexists; eexists; simpl; eauto.
      * eexists; eexists; simpl; eauto.
    + eexists; eexists; simpl; eauto.
  - eexists; eexists; simpl; eauto.
Qed.

Lemma should_merge_cards_cases P N text w :
  combined_text P N = OK text ->
  existsb (fun k => str_in k text) distraction_keywords = false ->
  should_merge_cards client P N w =
  (OK (match client (List.length w) (MergeCheckPrompt P N) with
       | Fails _ => PBool false
       | Responds response =>
           match _parse_json_from_response response (Some TDict) with
           | Raise _ => PBool false
           | OK result =>
               match py_get result "combine" (PBool false) with
               | OK should_combine => should_combine
               | Raise _ => PBool false
               end
           end
       end), w ++ [MergeCheckPrompt P N]).
Proof.
  intros Ht Hk.
  unfold should_merge_cards, bind, lift, try_except, ret, _call_ollama.
  rewrite Ht, Hk.
  destruct (client (List.length w) (MergeCheckPrompt P N)) as [response|e];
    [|reflexivity].
  destruct (_parse_json_from_response response (Some TDict)) as [result|e];
    [|reflexivity].
  destruct result; try reflexivity.
  simpl. destruct (assoc "combine" d); destruct (assoc "reason" d); reflexivity.
Qed.

(** C5. For two cards the lexical veto lets through, if the inference call of
    the merge decision raises or its response does not parse as an object,
    [should_merge_cards] returns False, and the driver appends the new card
    unchanged and makes it the previous card: so does the step that places
    the card, and so does the pass of the loop that generated it. *)
Theorem failed_merge_check_keeps_apart P N text w timeline :
  combined_text P N = OK text ->
  (forall keyword,
     In keyword distraction_keywords -> ~ occurs_in keyword text) ->
  call_or_parse_fails TDict (client (List.length w) (MergeCheckPrompt P N)) ->
  should_merge_cards client P N w =
    (OK (PBool false), w ++ [MergeCheckPrompt P N]) /\
  place_card client timeline (Some P) N w =
    (OK (timeline ++ [N], Some N), w ++ [MergeCheckPrompt P N]) /\
  (forall all_observations st w0 o selection rest,
     previous_card st = Some P ->
     chunk_of all_observations (chunk_start st) (chunk_start st + 15 * 60)
       = o :: selection ->
     _generate_activity_cards client (map to_observation (o :: selection)) w0
       = (OK (N :: rest), w) ->
     merging_iteration client all_observations st w0 =
       (OK (mkMergeState (chunk_start st + 15 * 60) (final_cards st ++ [N])
              (Some N)),
        w ++ [MergeCheckPrompt P N])).
Proof.
  intros Ht Hno Hfail.
  assert (H : should_merge_cards client P N w =
              (OK (PBool false), w ++ [MergeCheckPrompt P N])).
  { rewrite (should_merge_cards_cases P N text w Ht (no_keyword_found _ Hno)).
    destruct Hfail as [[e ->] | (response & e & -> & ->)]; reflexivity. }
  assert (Hplace : forall cards,
            place_card client cards (Some P) N w =
              (OK (cards ++ [N], Some N), w ++ [MergeCheckPrompt P N])).
  { intros cards. unfold place_card, bind. rewrite H. reflexivity. }
  split; [exact H|]. split; [apply Hplace|].
  intros all_observations st w0 o selection rest HP Hsel Hgen.
  unfold merging_iteration. change chunk_duration with (15 * 60).
  rewrite Hsel. unfold bind. rewrite Hgen, HP, Hplace. reflexivity.
Qed.

(** *** The chunk loop *)

(** The loop runs over the records in the order of their start times. *)
Lemma insert_by_start_perm x l : Permutation (x :: l) (insert_by_start x l).
Proof.
  induction l as [|y l IH]; simpl; [reflexivity|].
  destruct (rec_start_ts x <=? rec_start_ts y); [reflexivity|].
  rewrite perm_swap. now apply perm_skip.
Qed.

Lemma sort_by_start_perm l : Permutation l (sort_by_start l).
Proof.
  induction l as [|x l IH]; simpl; [reflexivity|].
  rewrite <- insert_by_start_perm. now apply perm_skip.
Qed.

Lemma insert_by_start_sorted x l :
  Sorted (fun a b => rec_start_ts a <= rec_start_ts b) l ->
  Sorted (fun a b => rec_start_ts a <= rec_start_ts b) (insert_by_start x l).
Proof.
  induction 1 as [|y l Hl IH Hy]; simpl.
  - repeat constructor.
  - destruct (rec_start_ts x <=? rec_start_ts y) eqn:E.
    + apply Z.leb_le in E. repeat constructor; assumption.
    + apply Z.leb_gt in E. constructor; [exact IH|].
      destruct l as [|z l]; simpl.
      * constructor. lia.
      * destruct (rec_start_ts x <=? rec_start_ts z); constructor.
        -- lia.
        -- now inversion Hy.
Qed.

Lemma sort_by_start_sorted l :
  Sorted (fun a b => rec_start_ts a <= rec_start_ts b) (sort_by_start l).
Proof.
  induction l as [|x l IH]; simpl; [constructor|].
  now apply insert_by_start_sorted.
Qed.

Lemma chunk_of_spec all_observations chunk_start chunk_end o :
  In o (chunk_of all_observations chunk_start chunk_end) <->
  In o all_observations /\
  rec_start_ts o < chunk_end /\ rec_end_ts o > chunk_start.
Proof.
  unfold chunk_of. rewrite filter_In, andb_true_iff, Z.ltb_lt, Z.gtb_gt.
  tauto.
Qed.

(** What the [print] of a window and the creation of the debug directory can
    do to a pass: nothing, or stop it before anything is sent. *)
Lemma report_chunk_cases a b w :
  report_chunk a b w = (OK tt, w) \/ exists e, report_chunk a b w = (Raise e, w).
Proof.
  unfold report_chunk, bind, lift, ret.
  destruct (window_clock a); [|eauto]. destruct (window_clock b); eauto.
Qed.

Lemma host_cases op w :
  host op w = (OK tt, w) \/ exists e, host op w = (Raise e, w).
Proof. unfold host. destruct (host_run _ op) as [[]|e]; eauto. Qed.

Lemma merging_pass_cases all_observations st w :
  merging_pass client all_observations st w
    = merging_iteration client all_observations st w \/
  exists e, merging_pass client all_observations st w = (Raise e, w).
Proof.
  unfold merging_pass.
  destruct (chunk_of all_observations (chunk_start st)
              (chunk_start st + chunk_duration)) as [|o sel] eqn:E.
  - left. unfold merging_iteration. now rewrite E.
  - unfold bind.
    destruct (report_chunk_cases (chunk_start st)
                (chunk_start st + chunk_duration) w) as [-> | [e ->]]; [|eauto].
    destruct (host_cases MakeDebugDir w) as [-> | [e ->]]; eauto.
Qed.

Lemma merging_pass_ok all_observations st w st' w' :
  merging_pass client all_observations st w = (OK st', w') ->
  merging_iteration client all_observations st w = (OK st', w').
Proof.
  destruct (merging_pass_cases all_observations st w) as [-> | [e ->]];
    [auto | discriminate].
Qed.

Lemma chunk_pass_cases observations chunk_minutes context_minutes st w :
  chunk_pass client observations chunk_minutes context_minutes st w
    = chunk_iteration client observations chunk_minutes context_minutes st w \/
  exists e,
    chunk_pass client observations chunk_minutes context_minutes st w
      = (Raise e, w).
Proof.
  unfold chunk_pass.
  destruct (chunk_of observations (cursor st)
              (cursor st + chunk_minutes * 60)) as [|o sel] eqn:E.
  - left. unfold chunk_iteration. now rewrite E.
  - unfold bind.
    destruct (report_chunk_cases (cursor st)
                (cursor st + chunk_minutes * 60) w) as [-> | [e ->]]; eauto.
Qed.

Lemma chunk_pass_ok observations chunk_minutes context_minutes st w st' w' :
  chunk_pass client observations chunk_minutes context_minutes st w
    = (OK st', w') ->
  chunk_iteration client observations chunk_minutes context_minutes st w
    = (OK st', w').
Proof.
  destruct (chunk_pass_cases observations chunk_minutes context_minutes st w)
    as [-> | [e ->]]; [auto | discriminate].
Qed.


(** *** The timeline *)

Lemma card_eqb_refl (c : ActivityCard) : card_eqb c c = true.
Proof. unfold card_eqb. destruct (card_eq_dec c c); congruence. Qed.

Lemma last_item_removelast {A} (l : list A) (x : A) :
  last_item l = OK x -> l = removelast l ++ [x].
Proof.
  induction l as [|y l IH]; [discriminate|].
  destruct l as [|z l].
  - simpl. intros H. now inversion H.
  - intros H. change (removelast (y :: z :: l)) with (y :: removelast (z :: l)).
    simpl app. f_equal. apply IH. exact H.
Qed.

(** Placing a card keeps [previous_card] the last card of the timeline. *)
Lemma place_card_keeps_last timeline previous N w timeline' previous' w' :
  place_card client timeline previous N w = (OK (timeline', previous'), w') ->
  exists c, previous' = Some c /\ last_item timeline' = OK c.
Proof.
  unfold place_card, bind, ret. destruct previous as [P|].
  - destruct (should_merge_cards client P N w) as [[decision|e] w1]; [|discriminate].
    destruct (py_truthy decision).
    + destruct (merge_two_cards client P N w1) as [[merged|e] w2]; [|discriminate].
      destruct (last_is timeline P); intros H; inversion H; subst;
        exists merged; split; auto using last_item_app.
    + intros H. inversion H. subst. exists N. split; auto using last_item_app.
  - intros H. inversion H. subst. exists N. split; auto using last_item_app.
Qed.

Lemma merging_iteration_keeps_last all_observations st w st' w' :
  previous_is_last st ->
  merging_iteration client all_observations st w = (OK st', w') ->
  previous_is_last st'.
Proof.
  intros Hinv. unfold merging_iteration, bind, ret.
  destruct (chunk_of _ _ _) as [|o sel].
  - intros H. inversion H. exact Hinv.
  - destruct (_generate_activity_cards client _ w) as [[cards|e] w1]; [|discriminate].
    destruct cards as [|new_card rest].
    + intros H. inversion H. exact Hinv.
    + destruct (place_card client (final_cards st) (previous_card st) new_card w1)
        as [[[timeline' previous']|e] w2] eqn:Hplace; [|discriminate].
      intros H. inversion H. subst.
      destruct (place_card_keeps_last _ _ _ _ _ _ _ Hplace) as (c & Hc & Hlast).
      unfold previous_is_last. simpl. now rewrite Hc.
Qed.

Lemma merging_iteration_advances all_observations st w st' w' :
  merging_iteration client all_observations st w = (OK st', w') ->
  chunk_start st' = chunk_start st + chunk_duration.
Proof.
  unfold merging_iteration, bind, ret.
  destruct (chunk_of _ _ _) as [|o sel].
  - intros H. now inversion H.
  - destruct (_generate_activity_cards client _ w) as [[cards|e] w1]; [|discriminate].
    destruct cards as [|new_card rest].
    + intros H. now inversion H.
    + destruct (place_card client _ _ new_card w1) as [[placed|e] w2]; [|discriminate].
      intros H. now inversion H.
Qed.

Lemma reached_previous_is_last all_observations start_time end_time w0 st w :
  reached client all_observations start_time end_time w0 st w ->
  previous_is_last st.
Proof.
  induction 1 as [|st w st' w' _ IH _ Hstep].
  - reflexivity.
  - exact (merging_iteration_keeps_last _ _ _ _ _ IH Hstep).
Qed.

(** The loop of [process_with_merging] ends in a state it reached by passes. *)
Lemma while_loop_reached all_observations start_time end_time w0 fuel :
  forall st w st' w',
    reached client all_observations start_time end_time w0 st w ->
    while_loop fuel (fun st => chunk_start st <? end_time)
      (merging_pass client all_observations) st w = (OK (Some st'), w') ->
    reached client all_observations start_time end_time w0 st' w'.
Proof.
  induction fuel as [|fuel IH]; intros st w st' w' Hr; simpl.
  - destruct (chunk_start st <? end_time); unfold ret; intros H; inversion H.
    now subst.
  - destruct (chunk_start st <? end_time) eqn:Hcond.
    + unfold bind.
      destruct (merging_pass client all_observations st w)
        as [[st1|e] w1] eqn:Hstep; [|discriminate].
      apply merging_pass_ok in Hstep.
      apply IH. eapply reached_pass; eassumption.
    + unfold ret. intros H. inversion H. now subst.
Qed.

(** C10. At the end of every pass of the loop of [process_with_merging],
    [previous_card] is the last card of [final_cards].  So when the merge
    decision is positive the test of the replacing branch is true: the fused
    card overwrites the previous card in its place at the end of the timeline
    (the appending branch is not taken), and the previous card does not stay
    next to the card fused from it. *)
Theorem previous_card_is_last all_observations start_time end_time w0 st w :
  reached client all_observations start_time end_time w0 st w ->
  previous_is_last st /\
  (forall P,
     previous_card st = Some P ->
     last_is (final_cards st) P = true /\
     final_cards st = removelast (final_cards st) ++ [P] /\
     forall N w1 decision w2 merged w3,
       should_merge_cards client P N w1 = (OK decision, w2) ->
       py_truthy decision = true ->
       merge_two_cards client P N w2 = (OK merged, w3) ->
       place_card client (final_cards st) (previous_card st) N w1 =
         (OK (removelast (final_cards st) ++ [merged], Some merged), w3)).
Proof.
  intros Hr. pose proof (reached_previous_is_last _ _ _ _ _ _ Hr) as Hinv.
  split; [exact Hinv|].
  intros P HP. unfold previous_is_last in Hinv. rewrite HP in Hinv.
  assert (Hlast : last_is (final_cards st) P = true).
  { unfold last_is. rewrite Hinv. apply card_eqb_refl. }
  split; [exact Hlast|]. split; [now apply last_item_removelast|].
  intros N w1 decision w2 merged w3 Hdecide Htrue Hmerge.
  unfold place_card, bind, ret. rewrite HP, Hdecide, Htrue, Hmerge, Hlast.
  reflexivity.
Qed.

(** *** Termination of the loops *)

(** A loop whose body moves the cursor forward by a fixed positive step ends
    within the passes it is given. *)
Lemma while_loop_finishes {S : Type} (pos : S -> Z) (end_time step : Z)
    (body : S -> M S) :
  0 < step ->
  (forall s w s' w', body s w = (OK s', w') -> pos s' = pos s + step) ->
  forall fuel s w,
    end_time - pos s <= Z.of_nat fuel * step ->
    fst (while_loop fuel (fun s => pos s <? end_time) body s w) <> OK None.
Proof.
  intros Hstep Hbody.
  induction fuel as [|fuel IH]; intros s w Hfuel; simpl.
  - destruct (pos s <? end_time) eqn:Hcond; [|discriminate].
    apply Z.ltb_lt in Hcond. lia.
  - destruct (pos s <? end_time) eqn:Hcond; [|discriminate].
    unfold bind.
    destruct (body s w) as [[s1|e] w1] eqn:Hpass; [|discriminate].
    apply IH. apply Hbody in Hpass. lia.
Qed.

Lemma passes_suffice (start_time end_time step : Z) :
  0 < step ->
  end_time - start_time <= Z.of_nat (passes start_time end_time step) * step.
Proof.
  intros Hstep. unfold passes.
  destruct (Z_le_gt_dec (end_time - start_time) 0) as [Hle|Hgt]; [nia|].
  rewrite Z2Nat.id by (apply Z.div_pos; lia).
  pose proof (Z.div_mod (end_time - start_time + step - 1) step).
  pose proof (Z.mod_pos_bound (end_time - start_time + step - 1) step).
  nia.
Qed.

Lemma chunk_iteration_advances observations chunk_minutes context_minutes
    st w st' w' :
  chunk_iteration client observations chunk_minutes context_minutes st w
    = (OK st', w') ->
  cursor st' = cursor st + chunk_minutes * 60.
Proof.
  unfold chunk_iteration, bind, ret.
  destruct (chunk_of _ _ _) as [|o sel].
  - intros H. now inversion H.
  - destruct (_generate_activity_cards_with_context client _ _ _ w)
      as [[cards|e] w1]; [|discriminate].
    intros H. now inversion H.
Qed.

(** [process_with_merging] always comes to an end: it returns the timeline or
    raises, and never runs out of passes. *)
Lemma process_with_merging_ends observations_file w :
  (exists timeline w',
     process_with_merging client observations_file w = (OK (Some timeline), w'))
  \/ (exists e w',
     process_with_merging client observations_file w = (Raise e, w')).
Proof.
  unfold process_with_merging, bind, lift, ret.
  destruct (first_item (sort_by_start observations_file)) as [first|e]; [|eauto].
  destruct (last_item (sort_by_start observations_file)) as [last|e]; [|eauto].
  assert (Hstep : 0 < chunk_duration) by reflexivity.
  pose proof (while_loop_finishes chunk_start (rec_end_ts last) chunk_duration
    (merging_pass client (sort_by_start observations_file))
    Hstep (fun st w st' w' Hpass =>
             merging_iteration_advances _ st w st' w'
               (merging_pass_ok _ st w st' w' Hpass))
    (passes (rec_start_ts first) (rec_end_ts last) chunk_duration)
    (mkMergeState (rec_start_ts first) [] None) w
    (passes_suffice _ _ _ Hstep)) as Hfin.
  destruct (while_loop _ _ _ _ w) as [[[final|]|e] w1]; simpl in *.
  - left. eauto.
  - congruence.
  - right. eauto.
Qed.

(** So does [process_observations_in_chunks] when the chunk length is
    positive. *)
Lemma process_observations_in_chunks_ends observations chunk_minutes
    context_minutes w :
  0 < chunk_minutes ->
  (exists cards w',
     process_observations_in_chunks client observations chunk_minutes
       context_minutes w = (OK (Some cards), w'))
  \/ (exists e w',
     process_observations_in_chunks client observations chunk_minutes
       context_minutes w = (Raise e, w')).
Proof.
  intros Hpos. assert (Hstep : 0 < chunk_minutes * 60) by lia.
  unfold process_observations_in_chunks, bind, lift, ret.
  destruct (first_item (sort_by_start observations)) as [first|e]; [|eauto].
  destruct (last_item (sort_by_start observations)) as [last|e]; [|eauto].
  pose proof (while_loop_finishes cursor (rec_end_ts last) (chunk_minutes * 60)
    (chunk_pass client (sort_by_start observations) chunk_minutes
       context_minutes)
    Hstep (fun st w st' w' Hpass =>
             chunk_iteration_advances _ _ _ st w st' w'
               (chunk_pass_ok _ _ _ st w st' w' Hpass))
    (passes (rec_start_ts first) (rec_end_ts last) (chunk_minutes * 60))
    (mkChunkState (rec_start_ts first) []) w
    (passes_suffice _ _ _ Hstep)) as Hfin.
  destruct (while_loop _ _ _ _ w) as [[[final|]|e] w1]; simpl in *.
  - left. eauto.
  - congruence.
  - right. eauto.
Qed.

End MergerProperties.

(** ** The response parser *)

Lemma length_append (a b : string) :
  String.length (a ++ b) = (String.length a + String.length b)%nat.
Proof. induction a as [|c a IH]; simpl; [reflexivity | now rewrite IH]. Qed.

Lemma free_find (c : ascii) (s : string) : free_of c s -> str_find c s = -1.
Proof.
  induction s as [|c' s IH]; simpl; [reflexivity|].
  intros [Hc Hs]. apply Ascii.eqb_neq in Hc. rewrite Hc, (IH Hs). reflexivity.
Qed.

Lemma free_rfind (c : ascii) (s : string) : free_of c s -> str_rfind c s = -1.
Proof.
  induction s as [|c' s IH]; simpl; [reflexivity|].
  intros [Hc Hs]. apply Ascii.eqb_neq in Hc. rewrite Hc, (IH Hs). reflexivity.
Qed.

Lemma str_find_first (c : ascii) (before rest : string) :
  free_of c before ->
  str_find c (before ++ String c rest) = Z.of_nat (String.length before).
Proof.
  induction before as [|c' before IH]; simpl.
  - intros _. now rewrite Ascii.eqb_refl.
  - intros [Hc Hs]. apply Ascii.eqb_neq in Hc. rewrite Hc, (IH Hs).
    destruct (Z.of_nat (String.length before) =? -1) eqn:E; lia.
Qed.

Lemma str_rfind_last (c : ascii) (s after : string) :
  free_of c after ->
  str_rfind c (s ++ String c after) = Z.of_nat (String.length s).
Proof.
  intros Hfree. induction s as [|c' s IH]; simpl.
  - now rewrite (free_rfind c after Hfree), Ascii.eqb_refl.
  - rewrite IH.
    destruct (Z.of_nat (String.length s) =? -1) eqn:E; lia.
Qed.

Lemma substring_prefix (mid after : string) :
  substring 0 (String.length mid) (mid ++ after) = mid.
Proof.
  induction mid as [|c mid IH]; simpl.
  - destruct after; reflexivity.
  - now rewrite IH.
Qed.

Lemma substring_middle (before mid after : string) :
  substring (String.length before) (String.length mid)
    (before ++ mid ++ after) = mid.
Proof.
  induction before as [|c before IH]; simpl; [apply substring_prefix | exact IH].
Qed.

(** The text from the first [open] to the last [close] of a response that
    has prose around it. *)
Lemma between_embedded (open close : ascii) (before body after : string) :
  free_of open before ->
  free_of close after ->
  between open close (before ++ String open (body ++ String close after)) =
  Some (String open (body ++ String close EmptyString)).
Proof.
  intros Hopen Hclose. unfold between.
  rewrite (str_find_first open before _ Hopen).
  replace (before ++ String open (body ++ String close after))%string
    with ((before ++ String open body) ++ String close after)%string
    by (rewrite append_assoc; reflexivity).
  rewrite (str_rfind_last close _ after Hclose).
  replace (negb _ && negb _) with true
    by (symmetry; apply andb_true_iff; split; apply negb_true_iff, Z.eqb_neq; lia).
  f_equal. unfold slice.
  rewrite Nat2Z.id, length_append. simpl String.length.
  replace (Z.to_nat (Z.of_nat (String.length before + S (String.length body)) + 1)
           - String.length before)%nat
    with (String.length (String open (body ++ String close EmptyString)))
    by (simpl; rewrite length_append; simpl; lia).
  replace ((before ++ String open body) ++ String close after)%string
    with (before ++ String open (body ++ String close EmptyString) ++ after)%string.
  - apply substring_middle.
  - rewrite !append_assoc. simpl. rewrite append_assoc. reflexivity.
Qed.

Section ParserProperties.
Context {F : PyFloat} {RT : PyRuntime} {HOST : PyHost}.

Lemma loads_or_pass_raises s e :
  loads_or_pass s = Raise e -> is_json_decode_error e = false.
Proof.
  unfold loads_or_pass. destruct (json_loads s) as [v|e0]; [discriminate|].
  destruct (is_json_decode_error e0) eqn:E; [discriminate|].
  intros H. inversion H. now subst.
Qed.

Lemma loads_or_pass_decode_error s e :
  json_loads s = Raise e -> is_json_decode_error e = true ->
  loads_or_pass s = OK None.
Proof. intros H E. unfold loads_or_pass. now rewrite H, E. Qed.

Lemma loads_or_pass_value s v : json_loads s = OK v -> loads_or_pass s = OK (Some v).
Proof. intros H. unfold loads_or_pass. now rewrite H. Qed.

(** X1. [_parse_json_from_response] never lets a [JSONDecodeError] out: what
    it raises is an exception of another class that [json.loads] raised, the
    error of an unexpected type or the error of a response without JSON,
    which carries the first 200 characters of the stripped response. *)
Theorem parser_never_raises_decode_error response expected_type e :
  _parse_json_from_response response expected_type = Raise e ->
  is_json_decode_error e = false /\
  ((exists s, json_loads s = Raise e) \/
   (exists t got, e = ExpectedType t got) \/
   e = CouldNotParseJSON (first_chars 200 (str_strip response))).
Proof.
  assert (Hl : forall s e0, loads_or_pass s = Raise e0 ->
            is_json_decode_error e0 = false /\ exists s', json_loads s' = Raise e0).
  { intros s e0 H. split; [exact (loads_or_pass_raises s e0 H)|].
    exists s. unfold loads_or_pass in H. destruct (json_loads s) as [v|e1]; [discriminate|].
    destruct (is_json_decode_error e1); [discriminate|]. now inversion H. }
  unfold _parse_json_from_response, exc_bind.
  destruct (loads_or_pass response) as [[data|]|e0] eqn:Hd.
  - destruct expected_type as [t|]; [|discriminate].
    destruct (negb (isinstance data t)); [|discriminate].
    intros H. inversion H. split; [reflexivity|]. right. left. eauto.
  - destruct (if expects_list expected_type then _ else _) as [[data|]|e1] eqn:Ha.
    + discriminate.
    + destruct (match between "{" "}" (str_strip response) with
                | Some json_str => loads_or_pass json_str
                | None => OK None
                end) as [[data|]|e2] eqn:Ho.
      * destruct (expects_list expected_type); discriminate.
      * intros H. inversion H. split; [reflexivity|]. right. right. reflexivity.
      * intros H. inversion H. subst e2.
        destruct (between "{" "}" (str_strip response)) as [js|]; [|discriminate].
        destruct (Hl js e Ho) as [H1 H2]. split; [exact H1 | left; exact H2].
    + intros H. inversion H. subst e1.
      destruct (expects_list expected_type); [|discriminate].
      destruct (between "[" "]" (str_strip response)) as [js|]; [|discriminate].
      destruct (Hl js e Ha) as [H1 H2]. split; [exact H1 | left; exact H2].
  - intros H. inversion H. subst e0.
    destruct (Hl response e Hd) as [H1 H2]. split; [exact H1 | left; exact H2].
Qed.

(** X2. A response that is not JSON as a whole but holds an array between
    prose is parsed as that array when a list is expected: the text from its
    first [[] to its last []] is handed to [json.loads] and the value is
    returned. *)
Theorem parser_extracts_embedded_array response e before body after v :
  json_loads response = Raise e ->
  is_json_decode_error e = true ->
  str_strip response = (before ++ "[" ++ body ++ "]" ++ after)%string ->
  free_of "[" before ->
  free_of "]" after ->
  json_loads ("[" ++ body ++ "]")%string = OK v ->
  _parse_json_from_response response (Some TList) = OK v.
Proof.
  intros Hraw Hdec Hstrip Hbefore Hafter Hjson.
  unfold _parse_json_from_response, exc_bind.
  rewrite (loads_or_pass_decode_error _ _ Hraw Hdec). simpl expects_list.
  rewrite Hstrip.
  change (before ++ "[" ++ body ++ "]" ++ after)%string
    with (before ++ String "[" (body ++ String "]" after))%string.
  rewrite (between_embedded "[" "]" before body after Hbefore Hafter).
  change (String "[" (body ++ String "]" EmptyString))
    with ("[" ++ body ++ "]")%string.
  now rewrite (loads_or_pass_value _ _ Hjson).
Qed.

(** X3. A response that is not JSON as a whole, has no [[] and holds an
    object between prose is parsed as that object when an object is expected,
    and as the list of that one object when a list is expected. *)
Theorem parser_extracts_embedded_object response e before body after v :
  json_loads response = Raise e ->
  is_json_decode_error e = true ->
  str_strip response = (before ++ "{" ++ body ++ "}" ++ after)%string ->
  free_of "{" before ->
  free_of "}" after ->
  free_of "[" (str_strip response) ->
  json_loads ("{" ++ body ++ "}")%string = OK v ->
  _parse_json_from_response response (Some TDict) = OK v /\
  _parse_json_from_response response (Some TList) = OK (PList [v]).
Proof.
  intros Hraw Hdec Hstrip Hbefore Hafter Hnoarray Hjson.
  assert (Hobj : match between "{" "}" (str_strip response) with
                 | Some json_str => loads_or_pass json_str
                 | None => OK None
                 end = OK (Some v)).
  { rewrite Hstrip.
    change (before ++ "{" ++ body ++ "}" ++ after)%string
      with (before ++ String "{" (body ++ String "}" after))%string.
    rewrite (between_embedded "{" "}" before body after Hbefore Hafter).
    change (String "{" (body ++ String "}" EmptyString))
      with ("{" ++ body ++ "}")%string.
    exact (loads_or_pass_value _ _ Hjson). }
  unfold _parse_json_from_response, exc_bind.
  rewrite (loads_or_pass_decode_error _ _ Hraw Hdec). simpl expects_list.
  split.
  - now rewrite Hobj.
  - unfold between at 1. rewrite (free_find "[" _ Hnoarray). simpl.
    now rewrite Hobj.
Qed.

(** X4. A response that is JSON as a whole but not of the expected type is
    rejected with the error of the unexpected type; no array or object is
    looked for in it, so an object that would be wrapped in a list when prose
    surrounds it is refused when it comes alone. *)
Theorem parser_rejects_unexpected_type response v t :
  json_loads response = OK v ->
  isinstance v t = false ->
  _parse_json_from_response response (Some t) =
    Raise (ExpectedType t (type_of v)).
Proof.
  intros Hjson Htype. unfold _parse_json_from_response, exc_bind.
  now rewrite (loads_or_pass_value _ _ Hjson), Htype.
Qed.

End ParserProperties.

(** ** Durations and timestamps *)

Lemma string_of_uint_free (d : Decimal.uint) :
  free_of ":" (NilEmpty.string_of_uint d).
Proof. induction d; simpl; try exact I; (split; [discriminate | assumption]). Qed.

Lemma string_of_int_free (d : Decimal.int) :
  free_of ":" (NilZero.string_of_int d).
Proof.
  assert (H : forall u, free_of ":" (NilZero.string_of_uint u)).
  { intros u. destruct u; try apply string_of_uint_free.
    simpl. split; [discriminate | exact I]. }
  destruct d; simpl; [apply H|]. split; [discriminate | apply H].
Qed.

Lemma pad2_free (z : Z) : free_of ":" (pad2 z).
Proof.
  unfold pad2. destruct ((0 <=? z) && (z <? 10)).
  - simpl. split; [discriminate | apply string_of_int_free].
  - apply string_of_int_free.
Qed.

Lemma free_of_app (c : ascii) (a b : string) :
  free_of c a -> free_of c b -> free_of c (a ++ b).
Proof. induction a as [|x a IH]; simpl; [auto|]. intros [Hx Ha] Hb. auto. Qed.

Section DurationProperties.
Context {F : PyFloat} {RT : PyRuntime} {HOST : PyHost}.

(** X5. A duration that [_format_duration] formats, with hours that are not
    negative, is a timestamp [_parse_timestamp] accepts, and it parses back to
    hours*3600 + minutes*60 + seconds (provided [int] reads back the three
    two-digit fields). *)
Theorem format_then_parse seconds hours minutes secs :
  int_of_float (float_floordiv seconds 3600) = OK hours ->
  int_of_float (float_floordiv (float_mod seconds 3600) 60) = OK minutes ->
  int_of_float (float_mod seconds 60) = OK secs ->
  0 <= hours ->
  int_of_str (pad2 hours) = OK hours ->
  int_of_str (pad2 minutes) = OK minutes ->
  int_of_str (pad2 secs) = OK secs ->
  exists text,
    _format_duration seconds = OK text /\
    _parse_timestamp (PStr text) = OK (hours * 3600 + minutes * 60 + secs).
Proof.
  intros Hh Hm Hs Hpos Ih Im Is.
  unfold _format_duration, exc_bind. rewrite Hh, Hm, Hs.
  destruct (0 <? hours) eqn:E.
  - eexists. split; [reflexivity|].
    apply parse_timestamp_three.
    exists (pad2 hours), (pad2 minutes), (pad2 secs).
    repeat split; auto using pad2_free.
  - apply Z.ltb_ge in E. assert (hours = 0) by lia. subst hours.
    eexists. split; [reflexivity|].
    change (0 * 3600 + minutes * 60 + secs) with (minutes * 60 + secs).
    apply parse_timestamp_two.
    exists (pad2 minutes), (pad2 secs).
    repeat split; auto using pad2_free.
Qed.

End DurationProperties.

(** ** The card generator on every response *)

Section GeneratorProperties.
Context {F : PyFloat} {RT : PyRuntime} {HOST : PyHost}.
Variable client : nat -> prompt -> outcome.

(** X12. For a non-empty chunk whose transcript is built the card generator
    raises nothing whatever the inference service and the dump of its
    response do: it sends exactly one prompt and returns exactly one card, of
    category Work; when the call answers, the dump of the response is written
    ([Responds]) and the response parses as an object, the title and the
    summary are its values for these keys, and the placeholders for a key it
    lacks. *)
Theorem card_generator_total observations transcript w :
  observations <> [] ->
  transcript_of observations = OK transcript ->
  exists card,
    _generate_activity_cards client observations w =
      (OK [card], w ++ [ActivityPrompt transcript]) /\
    category card = PStr "Work" /\
    (forall response d,
       client (List.length w) (ActivityPrompt transcript) = Responds response ->
       _parse_json_from_response response (Some TDict) = OK (PDict d) ->
       title card = match assoc "title" d with
                    | Some x => x
                    | None => PStr "Activity Session"
                    end /\
       summary card = match assoc "summary" d with
                      | Some x => x
                      | None => PStr "User engaged in various activities."
                      end).
Proof.
  intros Hne Htr.
  destruct (card_bounds_defined observations transcript Hne Htr)
    as (first & last & s & t & _ & _ & _ & _ & Hb).
  rewrite (generate_activity_cards_cases client _ _ _ w Htr Hb).
  destruct (client (List.length w) (ActivityPrompt transcript)) as [response|e].
  - destruct (_parse_json_from_response response (Some TDict)) as [data|e] eqn:Hp.
    + destruct data; simpl;
        try (eexists; split; [reflexivity|]; split; [reflexivity|];
             intros r d' Hr Hd; inversion Hr; subst; congruence).
      destruct (assoc "title" d) eqn:Et, (assoc "summary" d) eqn:Es;
        (eexists; split; [reflexivity|]; split; [reflexivity|];
         intros r d' Hr Hd; inversion Hr; subst r; rewrite Hp in Hd;
         inversion Hd; subst d'; rewrite Et, Es; split; reflexivity).
    + eexists. split; [reflexivity|]. split; [reflexivity|].
      intros r d Hr Hd. inversion Hr. subst. congruence.
  - eexists. split; [reflexivity|]. split; [reflexivity|].
    intros r d Hr. discriminate.
Qed.

(** X13. On an empty list of observations the card generator sends its
    prompt and then raises IndexError, whatever the inference service
    answers: both the card and the fallback card need a first and a last
    observation.  This is what a batch merged into no observation runs
    into. *)
Theorem card_generator_needs_an_observation w :
  _generate_activity_cards client [] w =
    (Raise (Raised IndexError "list index out of range"),
     w ++ [ActivityPrompt []]).
Proof.
  unfold _generate_activity_cards, bind, lift, try_except, ret, _call_ollama.
  unfold transcript_of. cbn [exc_map].
  destruct (client (List.length w) (ActivityPrompt [])) as [response|e];
    [|reflexivity].
  destruct (_parse_json_from_response response (Some TDict)); reflexivity.
Qed.

(** X14. On an empty list of records both drivers raise IndexError before
    anything is sent to the inference service. *)
Theorem drivers_need_a_record chunk_minutes context_minutes w :
  process_with_merging client [] w =
    (Raise (Raised IndexError "list index out of range"), w) /\
  process_observations_in_chunks client [] chunk_minutes context_minutes w =
    (Raise (Raised IndexError "list index out of range"), w).
Proof. split; reflexivity. Qed.

End GeneratorProperties.

(** ** Decisions, fusion and the prompts of a pass *)

Section ConsolidationProperties.
Context {F : PyFloat} {RT : PyRuntime} {HOST : PyHost}.
Variable client : nat -> prompt -> outcome.

Lemma merge_two_cards_cases P N w :
  merge_two_cards client P N w =
  (OK (match client (List.length w) (FusionPrompt P N) with
       | Fails _ => continued_card P N
       | Responds response =>
           match _parse_json_from_response response (Some TDict) with
           | Raise _ => continued_card P N
           | OK result =>
               match py_get result "title"
                       (PStr (py_format (title P) ++ " and "
                              ++ py_format (title N))%string),
                     py_get result "summary"
                       (PStr (py_format (summary P) ++ " "
                              ++ py_format (summary N))%string) with
               | OK merged_title, OK merged_summary =>
                   mkActivityCard (start_time P) (end_time N) (category P)
                     merged_title merged_summary
               | _, _ => continued_card P N
               end
           end
       end), w ++ [FusionPrompt P N]).
Proof.
  unfold merge_two_cards, bind, lift, try_except, ret, _call_ollama.
  destruct (client (List.length w) (FusionPrompt P N)) as [response|e];
    [|reflexivity].
  destruct (_parse_json_from_response response (Some TDict)) as [result|e];
    [|reflexivity].
  destruct (py_get result "title" _); [|reflexivity].
  destruct (py_get result "summary" _); reflexivity.
Qed.

Lemma merge_two_cards_fields P N w merged w' :
  merge_two_cards client P N w = (OK merged, w') ->
  start_time merged = start_time P /\ end_time merged = end_time N /\
  category merged = category P /\ w' = w ++ [FusionPrompt P N].
Proof.
  rewrite merge_two_cards_cases. intros H. inversion H. clear H.
  destruct (client (List.length w) (FusionPrompt P N)); [|now repeat split].
  destruct (_parse_json_from_response _ _); [|now repeat split].
  destruct (py_get _ "title" _); [|now repeat split].
  destruct (py_get _ "summary" _); now repeat split.
Qed.

(** X7. When the inference call of the fusion raises or its response does
    not parse as an object, [merge_two_cards] returns the first card extended
    to the end of the second, with the title of the first and the summary
    "first Continued with second"; when the response parses as an object the
    title and summary are its values for these keys, and "first and second",
    "first second" for a key it lacks.  In both cases exactly one prompt is
    sent. *)
Theorem fusion_contents P N w :
  (call_or_parse_fails TDict (client (List.length w) (FusionPrompt P N)) ->
   merge_two_cards client P N w =
     (OK (continued_card P N), w ++ [FusionPrompt P N])) /\
  (forall response d,
     client (List.length w) (FusionPrompt P N) = Responds response ->
     _parse_json_from_response response (Some TDict) = OK (PDict d) ->
     merge_two_cards client P N w =
       (OK (mkActivityCard (start_time P) (end_time N) (category P)
              (value_or "title"
                 (PStr (py_format (title P) ++ " and "
                        ++ py_format (title N))%string) d)
              (value_or "summary"
                 (PStr (py_format (summary P) ++ " "
                        ++ py_format (summary N))%string) d)),
        w ++ [FusionPrompt P N])).
Proof.
  split.
  - intros Hfail. rewrite merge_two_cards_cases.
    destruct Hfail as [[e ->] | (response & e & -> & ->)]; reflexivity.
  - intros response d Hc Hp. rewrite merge_two_cards_cases, Hc, Hp.
    unfold value_or. simpl.
    destruct (assoc "title" d), (assoc "summary" d); reflexivity.
Qed.


(** *** The prompts a pass sends *)

Lemma should_merge_cards_log P N w r w' :
  should_merge_cards client P N w = (r, w') ->
  (w' = w /\ (r = OK (PBool false) \/ exists e, r = Raise e)) \/
  w' = w ++ [MergeCheckPrompt P N].
Proof.
  unfold should_merge_cards, bind, lift, try_except, ret, _call_ollama.
  destruct (combined_text P N) as [text|e];
    [|intros H; inversion H; left; eauto].
  destruct (existsb _ _); [intros H; inversion H; left; eauto|].
  intros H. right.
  destruct (client (List.length w) (MergeCheckPrompt P N)) as [response|e];
    [|now inversion H].
  destruct (_parse_json_from_response response (Some TDict)) as [result|e];
    [|now inversion H].
  destruct (py_get result "combine" _); [|now inversion H].
  destruct (py_get result "reason" _); now inversion H.
Qed.

Lemma generate_activity_cards_log observations w r w' :
  _generate_activity_cards client observations w = (r, w') ->
  w' = w \/ exists transcript, w' = w ++ [ActivityPrompt transcript].
Proof.
  unfold _generate_activity_cards, bind, lift, try_except, ret, _call_ollama.
  destruct (transcript_of observations) as [transcript|e];
    [|intros H; inversion H; now left].
  intros H. right. exists transcript.
  destruct (client (List.length w) (ActivityPrompt transcript)) as [response|e].
  - destruct (_parse_json_from_response response (Some TDict)) as [result|e].
    + destruct (card_bounds observations); [|now inversion H].
      destruct (py_get result "title" _); [|now inversion H].
      destruct (py_get result "summary" _); now inversion H.
    + destruct (card_bounds observations); now inversion H.
  - destruct (card_bounds observations); now inversion H.
Qed.

Lemma place_card_log timeline previous N w r w' :
  place_card client timeline previous N w = (r, w') ->
  w' = w \/
  exists P, previous = Some P /\
    (w' = w ++ [MergeCheckPrompt P N] \/
     w' = w ++ [MergeCheckPrompt P N; FusionPrompt P N]).
Proof.
  unfold place_card, bind, ret. destruct previous as [P|];
    [|intros H; inversion H; now left].
  destruct (should_merge_cards client P N w) as [r1 w1] eqn:Hd.
  destruct (should_merge_cards_log _ _ _ _ _ Hd)
    as [[-> [-> | [e ->]]] | ->].
  - (* the veto *)
    simpl. intros H. inversion H. now left.
  - intros H. inversion H. now left.
  - destruct r1 as [decision|e].
    + destruct (py_truthy decision).
      * destruct (merge_two_cards client P N (w ++ [MergeCheckPrompt P N]))
          as [[merged|e] w2] eqn:Hm.
        -- destruct (merge_two_cards_fields _ _ _ _ _ Hm) as (_ & _ & _ & ->).
           intros H. right. exists P. split; [reflexivity|]. right.
           destruct (last_is timeline P); inversion H;
             rewrite <- app_assoc; reflexivity.
        -- rewrite merge_two_cards_cases in Hm. discriminate.
      * intros H. inversion H. right. exists P. split; [reflexivity|]. now left.
    + intros H. inversion H. right. exists P. split; [reflexivity|]. now left.
Qed.

(** X8. A pass of the loop of [process_with_merging] sends at most three
    prompts, added at the end of what was sent before and in this order: the
    prompt of the card generator, then at most one merge decision on the
    previous card and the new one, then at most one fusion of the same two
    cards; a fusion is never asked for without a decision. *)
Theorem prompts_of_a_pass all_observations st w r w' :
  merging_iteration client all_observations st w = (r, w') ->
  w' = w \/
  exists transcript,
    w' = w ++ [ActivityPrompt transcript] \/
    exists P N,
      previous_card st = Some P /\
      (w' = w ++ [ActivityPrompt transcript; MergeCheckPrompt P N] \/
       w' = w ++ [ActivityPrompt transcript; MergeCheckPrompt P N;
                  FusionPrompt P N]).
Proof.
  unfold merging_iteration, bind, ret.
  destruct (chunk_of _ _ _) as [|o sel]; [intros H; inversion H; now left|].
  destruct (_generate_activity_cards client _ w) as [[cards|e] w1] eqn:Hg.
  - destruct (generate_activity_cards_log _ _ _ _ Hg) as [-> | [transcript ->]].
    + (* a card list without a call cannot be *)
      exfalso. unfold _generate_activity_cards, bind, lift, try_except, ret,
        _call_ollama in Hg.
      destruct (transcript_of _) as [transcript|]; [|discriminate].
      assert (Hlen : forall (x : exc (list ActivityCard)),
                (x, w ++ [ActivityPrompt transcript]) <> (OK cards, w)).
      { intros x H. inversion H as [[H1 H2]].
        apply (f_equal (@List.length prompt)) in H2.
        rewrite length_app in H2. simpl in H2. lia. }
      destruct (client (List.length w) (ActivityPrompt transcript)).
      * destruct (_parse_json_from_response _ _).
        -- destruct (card_bounds _); [|exact (Hlen _ Hg)].
           destruct (py_get _ "title" _); [|exact (Hlen _ Hg)].
           destruct (py_get _ "summary" _); exact (Hlen _ Hg).
        -- destruct (card_bounds _); exact (Hlen _ Hg).
      * destruct (card_bounds _); exact (Hlen _ Hg).
    + destruct cards as [|new_card rest].
      * intros H. inversion H. right. exists transcript. now left.
      * destruct (place_card client (final_cards st) (previous_card st) new_card
                    (w ++ [ActivityPrompt transcript])) as [placed w2] eqn:Hp.
        destruct (place_card_log _ _ _ _ _ _ Hp)
          as [-> | (P & HP & [-> | ->])];
          intros H; right; exists transcript.
        -- left. destruct placed; now inversion H.
        -- right. exists P, new_card. split; [exact HP|]. left.
           destruct placed; inversion H; rewrite <- app_assoc; reflexivity.
        -- right. exists P, new_card. split; [exact HP|]. right.
           destruct placed; inversion H; rewrite <- app_assoc; reflexivity.
  - intros H. inversion H. subst.
    destruct (generate_activity_cards_log _ _ _ _ Hg) as [-> | [transcript ->]];
      [now left | right; exists transcript; now left].
Qed.

End ConsolidationProperties.

(** ** How the timeline changes *)

Section TimelineProperties.
Context {F : PyFloat} {RT : PyRuntime} {HOST : PyHost}.
Variable client : nat -> prompt -> outcome.

(** What placing a card does to the timeline. *)
Lemma place_card_shape timeline previous N w timeline' previous' w' :
  place_card client timeline previous N w = (OK (timeline', previous'), w') ->
  (timeline' = timeline ++ [N] /\ previous' = Some N) \/
  exists P merged,
    previous = Some P /\ previous' = Some merged /\
    start_time merged = start_time P /\ category merged = category P /\
    end_time merged = end_time N /\
    timeline' = (if last_is timeline P then removelast timeline else timeline)
                ++ [merged].
Proof.
  unfold place_card, bind, ret. destruct previous as [P|].
  - destruct (should_merge_cards client P N w) as [[decision|e] w1];
      [|discriminate].
    destruct (py_truthy decision).
    + destruct (merge_two_cards client P N w1) as [[merged|e] w2] eqn:Hm;
        [|discriminate].
      destruct (merge_two_cards_fields client _ _ _ _ _ Hm) as (Hs & He & Hc & _).
      intros H. right. exists P, merged.
      destruct (last_is timeline P); inversion H; subst; repeat split; assumption.
    + intros H. inversion H. now left.
  - intros H. inversion H. now left.
Qed.

(** X15. Once a card is placed, the last card of the timeline is the previous
    card of the next pass and ends when the new card ends, whether the new
    card was appended or fused into the card before it. *)
Theorem timeline_ends_with_the_new_card timeline previous N w
    timeline' previous' w' :
  place_card client timeline previous N w = (OK (timeline', previous'), w') ->
  exists c,
    last_item timeline' = OK c /\ previous' = Some c /\
    end_time c = end_time N.
Proof.
  intros H. destruct (place_card_shape _ _ _ _ _ _ _ H)
    as [[-> ->] | (P & merged & _ & -> & _ & _ & He & ->)].
  - exists N. repeat split. apply last_item_app.
  - exists merged. repeat split; [apply last_item_app | exact He].
Qed.

(** X9. A pass of the loop of [process_with_merging] changes the timeline
    only at its end: it leaves it as it is, or appends one card, or replaces
    the last card by a card with the same start time and the same category.
    The cards in front of the last one are never touched, and the timeline
    never gets shorter. *)
Theorem timeline_changes_at_its_end all_observations start_time0 end_time0 w0
    st w st' w' :
  reached client all_observations start_time0 end_time0 w0 st w ->
  merging_iteration client all_observations st w = (OK st', w') ->
  final_cards st' = final_cards st \/
  (exists c, final_cards st' = final_cards st ++ [c]) \/
  (exists P c,
     final_cards st = removelast (final_cards st) ++ [P] /\
     final_cards st' = removelast (final_cards st) ++ [c] /\
     start_time c = start_time P /\ category c = category P).
Proof.
  intros Hr. pose proof (reached_previous_is_last client _ _ _ _ _ _ Hr) as Hinv.
  unfold merging_iteration, bind, ret.
  destruct (chunk_of _ _ _) as [|o sel]; [intros H; inversion H; now left|].
  destruct (_generate_activity_cards client _ w) as [[cards|e] w1];
    [|discriminate].
  destruct cards as [|new_card rest]; [intros H; inversion H; now left|].
  destruct (place_card client (final_cards st) (previous_card st) new_card w1)
    as [[[timeline' previous']|e] w2] eqn:Hp; [|discriminate].
  intros H. inversion H. subst. simpl.
  destruct (place_card_shape _ _ _ _ _ _ _ Hp)
    as [[-> _] | (P & merged & HP & _ & Hs & Hc & _ & ->)].
  - right. left. eauto.
  - right. right. exists P, merged.
    unfold previous_is_last in Hinv. rewrite HP in Hinv.
    unfold last_is. rewrite Hinv, card_eqb_refl.
    repeat split; try assumption. now apply last_item_removelast.
Qed.

End TimelineProperties.

(** ** What the chunk loops select *)

Section SchedulerProperties.
Context {F : PyFloat} {RT : PyRuntime} {HOST : PyHost}.
Variable client : nat -> prompt -> outcome.

Lemma sorted_by_start_bounds (l : list observation_record) first last o :
  Sorted (fun a b => rec_start_ts a <= rec_start_ts b) l ->
  first_item l = OK first ->
  last_item l = OK last ->
  In o l ->
  rec_start_ts first <= rec_start_ts o <= rec_start_ts last.
Proof.
  intros Hs. apply Sorted_StronglySorted in Hs; [|intros x y z; lia].
  revert first. induction Hs as [|a l Hl IH Ha]; intros first Hfirst Hlast Hin.
  - contradiction.
  - simpl in Hfirst. inversion Hfirst. subst first.
    rewrite Forall_forall in Ha.
    destruct l as [|b l].
    + simpl in Hlast. inversion Hlast. subst last.
      destruct Hin as [<- | []]. lia.
    + assert (Hlast' : last_item (b :: l) = OK last) by exact Hlast.
      pose proof (Ha last (last_item_in _ _ Hlast')) as Hal.
      destruct Hin as [<- | Hin]; [lia|].
      pose proof (Ha o Hin).
      destruct (IH b eq_refl Hlast' Hin). lia.
Qed.

(** X10. No observation is left out by the chunk loop: when the last record
    (by start time) ends after it starts, every record of the file that ends
    after it starts is selected in the window that holds its start, and
    this window is one the loop runs, its cursor being the start of the
    first record plus a multiple of fifteen minutes and before the end time. *)
Theorem every_observation_is_scheduled observations_file first last o :
  first_item (sort_by_start observations_file) = OK first ->
  last_item (sort_by_start observations_file) = OK last ->
  rec_start_ts last < rec_end_ts last ->
  In o observations_file ->
  rec_start_ts o < rec_end_ts o ->
  exists k,
    0 <= k /\
    rec_start_ts first + k * (15 * 60) < rec_end_ts last /\
    In o (chunk_of (sort_by_start observations_file)
            (rec_start_ts first + k * (15 * 60))
            (rec_start_ts first + k * (15 * 60) + 15 * 60)).
Proof.
  intros Hfirst Hlast Hlastpos Hin Hpos.
  assert (Hin' : In o (sort_by_start observations_file)).
  { eapply Permutation_in; [apply sort_by_start_perm | exact Hin]. }
  pose proof (sorted_by_start_bounds _ first last o
                (sort_by_start_sorted _) Hfirst Hlast Hin') as [Hlo Hhi].
  exists ((rec_start_ts o - rec_start_ts first) / (15 * 60)).
  pose proof (Z.div_mod (rec_start_ts o - rec_start_ts first) (15 * 60)).
  pose proof (Z.mod_pos_bound (rec_start_ts o - rec_start_ts first) (15 * 60)).
  assert (0 <= (rec_start_ts o - rec_start_ts first) / (15 * 60))
    by (apply Z.div_pos; lia).
  split; [assumption|]. split; [lia|].
  apply chunk_of_spec. split; [exact Hin'|]. lia.
Qed.

(** X11. In a pass of [process_observations_in_chunks] over a window that
    selects something, the generator gets the selected observations as the
    current chunk and, as context, the records that lie between
    [context_start] and [chunk_start]; no record is on both sides, since a
    context record ends at or before [chunk_start] and a selected one after
    it. *)
Theorem context_is_apart_from_the_chunk observations chunk_minutes
    context_minutes st w o selection :
  chunk_of observations (cursor st) (cursor st + chunk_minutes * 60)
    = o :: selection ->
  chunk_iteration client observations chunk_minutes context_minutes st w =
    bind (_generate_activity_cards_with_context client
            (map to_observation (o :: selection))
            (context_of observations (cursor st - context_minutes * 60)
               (cursor st))
            (filter (fun card => py_truthy (start_time card)) (all_cards st)))
         (fun cards =>
            ret (mkChunkState (cursor st + chunk_minutes * 60)
                   (all_cards st ++ cards))) w /\
  (forall x,
     In x (context_of observations (cursor st - context_minutes * 60)
             (cursor st)) ->
     rec_end_ts x <= cursor st /\ ~ In x (o :: selection)).
Proof.
  intros Hsel. split.
  - unfold chunk_iteration. rewrite Hsel. reflexivity.
  - intros x Hx. unfold context_of in Hx. apply filter_In in Hx.
    destruct Hx as [_ Hx]. apply andb_true_iff in Hx. destruct Hx as [_ Hend].
    apply Z.leb_le in Hend. split; [exact Hend|].
    rewrite <- Hsel. intros Hin. apply chunk_of_spec in Hin. lia.
Qed.

(** Two sorted lists with the same records and no start time twice are the
    same list. *)
Lemma sorted_by_start_unique (l1 l2 : list observation_record) :
  Sorted (fun a b => rec_start_ts a <= rec_start_ts b) l1 ->
  Sorted (fun a b => rec_start_ts a <= rec_start_ts b) l2 ->
  Permutation l1 l2 ->
  NoDup (map rec_start_ts l1) ->
  l1 = l2.
Proof.
  intros H1 H2.
  apply Sorted_StronglySorted in H1; [|intros x y z; lia].
  apply Sorted_StronglySorted in H2; [|intros x y z; lia].
  revert l2 H2. induction H1 as [|a l1 Hl1 IH Ha]; intros l2 H2 Hperm Hnd.
  - apply Permutation_nil in Hperm. now subst.
  - destruct l2 as [|b l2].
    + apply Permutation_sym, Permutation_nil in Hperm. discriminate.
    + inversion H2 as [|? ? Hl2 Hb]. subst.
      rewrite Forall_forall in Ha, Hb.
      assert (Hab : a = b).
      { assert (Hina : In a (b :: l2))
          by (eapply Permutation_in; [exact Hperm | now left]).
        assert (Hinb : In b (a :: l1))
          by (eapply Permutation_in; [apply Permutation_sym; exact Hperm | now left]).
        destruct Hina as [Hba | Hina]; [now subst|].
        destruct Hinb as [Hab | Hinb]; [exact Hab|].
        pose proof (Hb a Hina). pose proof (Ha b Hinb).
        exfalso. simpl in Hnd. inversion Hnd as [|? ? Hnotin _]. apply Hnotin.
        replace (rec_start_ts a) with (rec_start_ts b) by lia.
        now apply in_map. }
      subst b. f_equal. apply IH.
      * exact Hl2.
      * now apply Permutation_cons_inv in Hperm.
      * simpl in Hnd. now inversion Hnd.
Qed.

(** X16. The order of the records in the observations file does not matter
    when no two records start at the same time: both drivers do the same on
    two files that hold the same records. *)
Theorem record_order_is_irrelevant file1 file2 chunk_minutes context_minutes w :
  Permutation file1 file2 ->
  NoDup (map rec_start_ts file1) ->
  process_with_merging client file1 w = process_with_merging client file2 w /\
  process_observations_in_chunks client file1 chunk_minutes context_minutes w =
  process_observations_in_chunks client file2 chunk_minutes context_minutes w.
Proof.
  intros Hperm Hnd.
  assert (Hsort : sort_by_start file1 = sort_by_start file2).
  { apply sorted_by_start_unique; try apply sort_by_start_sorted.
    - rewrite <- (sort_by_start_perm file1), <- (sort_by_start_perm file2).
      exact Hperm.
    - eapply Permutation_NoDup; [|exact Hnd].
      apply Permutation_map, sort_by_start_perm. }
  unfold process_with_merging, process_observations_in_chunks.
  rewrite Hsort. split; reflexivity.
Qed.

End SchedulerProperties.

(** ** Responses with several cards, fields that are not texts, a service
    that is down *)

Section RobustnessProperties.
Context {F : PyFloat} {RT : PyRuntime} {HOST : PyHost}.
Variable client : nat -> prompt -> outcome.

Lemma card_of_data_needs_keys item key e :
  In key card_keys ->
  py_getitem item key = Raise e ->
  exists e', card_of_data item = Raise e'.
Proof.
  unfold card_keys, card_of_data, exc_bind. simpl.
  intros [<- | [<- | [<- | [<- | [<- | []]]]]] H;
    repeat match goal with
           | |- context [py_getitem item ?k] =>
               destruct (py_getitem item k) eqn:?; try discriminate; eauto
           end.
Qed.

Lemma exc_map_length {A B} (f : A -> exc B) l r :
  exc_map f l = OK r -> List.length r = List.length l.
Proof.
  intros H. apply exc_map_ok in H. induction H; simpl; congruence.
Qed.

(** X17. Once the debug directory is there and the context file is written,
    when the call of the context-aware generator answers, the response
    parses as a list and its dump is written, the cards are all or nothing:
    if every item yields a card, the generator returns one card per item in
    the order of the response (none for an empty list); if a single item
    lacks one of the five keys, all items are dropped and the one fallback
    card is returned. *)
Theorem context_cards_all_or_nothing observations context_observations
    context_cards transcript bounds w response items :
  host_run (List.length w) MakeDebugDir = OK tt ->
  context_transcript observations context_observations context_cards
    = OK transcript ->
  host_run (List.length w) (WriteContext transcript) = OK tt ->
  card_bounds observations = OK bounds ->
  client (List.length w) (ContextActivityPrompt transcript)
    = Responds response ->
  _parse_json_from_response response (Some TList) = OK (PList items) ->
  (forall cards,
     exc_map card_of_data items = OK cards ->
     _generate_activity_cards_with_context client observations
       context_observations context_cards w =
       (OK cards, w ++ [ContextActivityPrompt transcript]) /\
     List.length cards = List.length items) /\
  (forall item key e,
     In item items -> In key card_keys -> py_getitem item key = Raise e ->
     _generate_activity_cards_with_context client observations
       context_observations context_cards w =
       (OK [fallback_card bounds], w ++ [ContextActivityPrompt transcript])).
Proof.
  intros Hdir Htr Hfile Hb Hc Hp.
  rewrite (generate_with_context_cases client _ _ _ _ _ w Hdir Htr Hfile Hb),
    Hc, Hp.
  simpl py_iter. cbv iota. split.
  - intros cards Hm. rewrite Hm. split; [reflexivity|].
    exact (exc_map_length _ _ _ Hm).
  - intros item key e Hin Hkey Hget.
    destruct (card_of_data_needs_keys item key e Hkey Hget) as [e1 H1].
    destruct (exc_map_raises _ _ _ _ Hin H1) as [e2 ->]. reflexivity.
Qed.

(** X18. When one of the titles and summaries of the two cards is not a
    text (the card generator stores the title and the summary of a response
    as they come), [should_merge_cards] raises before the veto and before any
    call, and nothing catches it: the step that places the card raises, and
    so does the pass of the loop of [process_with_merging]. *)
Theorem fields_that_are_not_texts_stop_the_driver P N w :
  (forall a b c d,
     ~ (title P = PStr a /\ summary P = PStr b /\
        title N = PStr c /\ summary N = PStr d)) ->
  exists e,
    should_merge_cards client P N w = (Raise e, w) /\
    (forall timeline,
       place_card client timeline (Some P) N w = (Raise e, w)) /\
    (forall all_observations st w0 o selection rest,
       previous_card st = Some P ->
       chunk_of all_observations (chunk_start st) (chunk_start st + 15 * 60)
         = o :: selection ->
       _generate_activity_cards client (map to_observation (o :: selection)) w0
         = (OK (N :: rest), w) ->
       merging_iteration client all_observations st w0 = (Raise e, w)).
Proof.
  intros Hnot.
  destruct (combined_text P N) as [text|e] eqn:Ht.
  - exfalso. apply combined_text_iff in Ht.
    destruct Ht as (a & b & c & d & Ha & Hb & Hc & Hd & _).
    apply (Hnot a b c d). repeat split; assumption.
  - exists e.
    assert (Hs : should_merge_cards client P N w = (Raise e, w)).
    { unfold should_merge_cards, bind, lift. now rewrite Ht. }
    assert (Hplace : forall timeline,
              place_card client timeline (Some P) N w = (Raise e, w)).
    { intros timeline. unfold place_card, bind. now rewrite Hs. }
    split; [exact Hs|]. split; [exact Hplace|].
    intros all_observations st w0 o selection rest HP Hsel Hgen.
    unfold merging_iteration. change chunk_duration with (15 * 60).
    rewrite Hsel. unfold bind. now rewrite Hgen, HP, Hplace.
Qed.

(** *** A run with the service down *)

Lemma transcript_defined observations :
  (forall o, In o observations ->
     (exists s, local_clock (start_ts o) = OK s) /\
     (exists t, local_clock (end_ts o) = OK t)) ->
  exists transcript, transcript_of observations = OK transcript.
Proof.
  unfold transcript_of. induction observations as [|x l IH]; intros H.
  - simpl. eauto.
  - destruct (H x (or_introl eq_refl)) as [[s Hs] [t Ht]].
    destruct IH as [rest Hrest]; [intros o Ho; apply H; now right|].
    simpl. unfold exc_bind at 1. rewrite Hs. unfold exc_bind at 1.
    rewrite Ht, Hrest. eauto.
Qed.

Lemma fallback_card_is_fallback bounds : is_fallback_card (fallback_card bounds).
Proof. unfold is_fallback_card, fallback_card. simpl. repeat split; eauto. Qed.

Lemma generator_down observations w :
  service_down client ->
  observations <> [] ->
  (forall o, In o observations ->
     (exists s, local_clock (start_ts o) = OK s) /\
     (exists t, local_clock (end_ts o) = OK t)) ->
  exists bounds w',
    _generate_activity_cards client observations w
      = (OK [fallback_card bounds], w').
Proof.
  intros Hdown Hne Hclk.
  destruct (transcript_defined observations Hclk) as [tr Htr].
  destruct (card_bounds_defined observations tr Hne Htr)
    as (first & last & s & t & _ & _ & _ & _ & Hb).
  rewrite (generate_activity_cards_cases client _ _ _ w Htr Hb).
  destruct (Hdown (List.length w) (ActivityPrompt tr)) as [e ->]. eauto.
Qed.

Lemma should_merge_down P N w :
  service_down client ->
  is_fallback_card P -> is_fallback_card N ->
  exists w', should_merge_cards client P N w = (OK (PBool false), w').
Proof.
  intros Hdown (_ & HPt & HPs & _) (_ & HNt & HNs & _).
  destruct (combined_text P N) as [text|e] eqn:Ht.
  - destruct (existsb (fun k => str_in k text) distraction_keywords) eqn:Hk.
    + exists w. unfold should_merge_cards, bind, lift, ret. now rewrite Ht, Hk.
    + rewrite (should_merge_cards_cases client P N text w Ht Hk).
      destruct (Hdown (List.length w) (MergeCheckPrompt P N)) as [e ->]. eauto.
  - assert (H : exists text, combined_text P N = OK text).
    { eexists. apply combined_text_iff. repeat eexists; eassumption. }
    destruct H as [text H]. congruence.
Qed.

Lemma merging_iteration_down all_observations st w :
  service_down client ->
  clocks_defined all_observations ->
  only_fallback_cards st ->
  exists st' w',
    merging_iteration client all_observations st w = (OK st', w') /\
    only_fallback_cards st'.
Proof.
  intros Hdown Hclk [Hcards Hprev]. unfold merging_iteration, bind, ret.
  destruct (chunk_of all_observations (chunk_start st)
              (chunk_start st + chunk_duration)) as [|o sel] eqn:Hsel.
  - eexists; eexists. split; [reflexivity|]. split; assumption.
  - destruct (generator_down (map to_observation (o :: sel)) w Hdown)
      as (bounds & w1 & ->); [discriminate| |].
    { intros x Hx. apply in_map_iff in Hx. destruct Hx as (r & <- & Hr).
      apply Hclk. rewrite <- Hsel in Hr. now apply chunk_of_spec in Hr. }
    assert (Hplace : exists w2,
              place_card client (final_cards st) (previous_card st)
                (fallback_card bounds) w1 =
              (OK (final_cards st ++ [fallback_card bounds],
                   Some (fallback_card bounds)), w2)).
    { unfold place_card, bind, ret.
      destruct (previous_card st) as [P|]; [|eauto].
      destruct (should_merge_down P (fallback_card bounds) w1 Hdown
                  (Hprev P eq_refl) (fallback_card_is_fallback bounds))
        as [w2 ->]. simpl. eauto. }
    destruct Hplace as [w2 ->]. eexists; eexists. split; [reflexivity|].
    split; simpl.
    + apply Forall_app. split; [exact Hcards|].
      constructor; [apply fallback_card_is_fallback | constructor].
    + intros P HP. inversion HP. apply fallback_card_is_fallback.
Qed.

Lemma while_loop_keeps {S : Type} (keeps : S -> Prop) (cond : S -> bool)
    (body : S -> M S) :
  (forall s w, keeps s -> cond s = true ->
     exists s' w', body s w = (OK s', w') /\ keeps s') ->
  forall fuel s w,
    keeps s ->
    exists r w',
      while_loop fuel cond body s w = (OK r, w') /\
      forall s', r = Some s' -> keeps s'.
Proof.
  intros Hbody. induction fuel as [|fuel IH]; intros s w Hs; simpl.
  - destruct (cond s); unfold ret; eexists; eexists;
      (split; [reflexivity|]); intros s' H; inversion H; now subst.
  - destruct (cond s) eqn:Hcond.
    + destruct (Hbody s w Hs Hcond) as (s1 & w1 & Hstep & Hs1).
      unfold bind. rewrite Hstep. apply IH. exact Hs1.
    + unfold ret. eexists; eexists. split; [reflexivity|].
      intros s' H. inversion H. now subst.
Qed.

Lemma report_chunk_printed start_time end_time step t w :
  windows_printed start_time end_time step ->
  0 < step -> start_time <= t -> t < end_time ->
  report_chunk t (t + step) w = (OK tt, w).
Proof.
  intros Hprint Hstep Hlo Hhi. unfold report_chunk, bind, lift, ret.
  destruct (Hprint t) as [s ->]; [lia|].
  destruct (Hprint (t + step)) as [s' ->]; [lia|]. reflexivity.
Qed.

Lemma merging_pass_down all_observations start_time end_time st w :
  service_down client ->
  clocks_defined all_observations ->
  windows_printed start_time end_time chunk_duration ->
  debug_dir_made ->
  only_fallback_cards st /\ start_time <= chunk_start st ->
  (chunk_start st <? end_time) = true ->
  exists st' w',
    merging_pass client all_observations st w = (OK st', w') /\
    (only_fallback_cards st' /\ start_time <= chunk_start st').
Proof.
  intros Hdown Hclk Hprint Hdir [Hinv Hlo] Hcond. apply Z.ltb_lt in Hcond.
  destruct (merging_iteration_down all_observations st w Hdown Hclk Hinv)
    as (st' & w' & Hstep & Hinv').
  exists st', w'. split.
  - rewrite <- Hstep. unfold merging_pass, merging_iteration.
    destruct (chunk_of all_observations (chunk_start st)
                (chunk_start st + chunk_duration)); [reflexivity|].
    unfold bind at 1.
    rewrite (report_chunk_printed start_time end_time chunk_duration
               (chunk_start st) w Hprint eq_refl Hlo Hcond).
    unfold bind at 1, host. rewrite Hdir. reflexivity.
  - split; [exact Hinv'|].
    rewrite (merging_iteration_advances client _ _ _ _ _ Hstep).
    unfold chunk_duration. lia.
Qed.

(** X19. With the inference service down for a whole run, on a file that is
    not empty and whose bounds the clock formats, and on a host that prints
    the windows of the run and creates the debug directory,
    [process_with_merging] raises nothing and ends with a timeline: every
    card of it is a fallback card (Work, Activity Session), none is fused. *)
Theorem run_with_the_service_down observations_file first last w :
  service_down client ->
  first_item (sort_by_start observations_file) = OK first ->
  last_item (sort_by_start observations_file) = OK last ->
  clocks_defined observations_file ->
  windows_printed (rec_start_ts first) (rec_end_ts last) chunk_duration ->
  debug_dir_made ->
  exists timeline w',
    process_with_merging client observations_file w
      = (OK (Some timeline), w') /\
    Forall is_fallback_card timeline.
Proof.
  intros Hdown Hfirst Hlast Hclk Hprint Hdir.
  assert (Hclk' : clocks_defined (sort_by_start observations_file)).
  { intros o Ho. apply Hclk.
    eapply Permutation_in; [apply Permutation_sym, sort_by_start_perm | exact Ho]. }
  pose proof (process_with_merging_ends client observations_file w) as Hends.
  unfold process_with_merging, bind, lift, ret in *.
  rewrite Hfirst, Hlast in *.
  destruct (while_loop_keeps
              (fun st => only_fallback_cards st /\
                         rec_start_ts first <= chunk_start st)
              (fun st => chunk_start st <? rec_end_ts last)
              (merging_pass client (sort_by_start observations_file))
              (fun st w0 Hst Hcond =>
                 merging_pass_down _ _ _ st w0 Hdown Hclk' Hprint Hdir Hst Hcond)
              (passes (rec_start_ts first) (rec_end_ts last) chunk_duration)
              (mkMergeState (rec_start_ts first) [] None) w)
    as (r & w1 & Hloop & Hkeeps).
  { split; [split; [constructor | discriminate] | simpl; lia]. }
  rewrite Hloop in *. destruct r as [final|].
  - exists (final_cards final), w1. split; [reflexivity|].
    exact (proj1 (proj1 (Hkeeps final eq_refl))).
  - exfalso. destruct Hends as [(cards & w' & E) | (e & w' & E)]; discriminate.
Qed.

End RobustnessProperties.

(** ** Stages one after the other, and the other driver with the service
    down *)

Section CompositionProperties.
Context {F : PyFloat} {RT : PyRuntime} {HOST : PyHost}.
Variable client : nat -> prompt -> outcome.

Lemma generate_on_no_observation w :
  _generate_activity_cards client [] w =
    (Raise (Raised IndexError "list index out of range"),
     w ++ [ActivityPrompt []]).
Proof.
  unfold _generate_activity_cards, bind, lift, try_except, ret, _call_ollama.
  unfold transcript_of. cbn [exc_map].
  destruct (client (List.length w) (ActivityPrompt [])) as [response|e];
    [|reflexivity].
  destruct (_parse_json_from_response response (Some TDict)); reflexivity.
Qed.

(** X21. Merging and then generating, as [process_single_video] does, with
    the inference service down: once the prompt of the merger is built and
    the clock formats int(T0) and int(T0 + D), the two stages raise nothing,
    send two prompts and give one sentinel observation over the whole video
    and one fallback card over the same span. *)
Theorem stages_with_the_service_down fds T0 D w p start stop s t :
  service_down client ->
  segment_prompt fds D = OK p ->
  int_of_float T0 = OK start ->
  int_of_float (float_add T0 D) = OK stop ->
  local_clock start = OK s ->
  local_clock stop = OK t ->
  exists e,
    bind (_merge_frame_descriptions client fds T0 D)
      (fun observations =>
         bind (_generate_activity_cards client observations)
           (fun activity_cards => ret (observations, activity_cards))) w =
    (OK ([failed_merge start stop e], [fallback_card (s, t)]),
     w ++ [p; ActivityPrompt
                [LineObservation s t
                   (PStr "Failed to merge frame descriptions")]]).
Proof.
  intros Hdown Hp Hstart Hstop Hs Ht.
  destruct (Hdown (List.length w) p) as [e He]. exists e.
  unfold bind at 1.
  rewrite (merge_frame_descriptions_cases client fds T0 D w p start stop
             Hp Hstart Hstop), He.
  unfold bind, ret.
  assert (Htr : transcript_of [failed_merge start stop e] =
                OK [LineObservation s t
                      (PStr "Failed to merge frame descriptions")]).
  { unfold transcript_of. simpl. unfold exc_bind. now rewrite Hs, Ht. }
  assert (Hb : card_bounds [failed_merge start stop e] = OK (s, t)).
  { unfold card_bounds, exc_bind. simpl. now rewrite Hs, Ht. }
  rewrite (generate_activity_cards_cases client _ _ _ (w ++ [p]) Htr Hb).
  destruct (Hdown (List.length (w ++ [p]))
              (ActivityPrompt
                 [LineObservation s t
                    (PStr "Failed to merge frame descriptions")])) as [e' ->].
  now rewrite <- app_assoc.
Qed.

(** X22. Merging and then generating when the call of the merger answers,
    the dump of the response is written ([Responds]) and the response is an
    empty array: the merger returns no observation and the card generator,
    having sent its prompt, raises IndexError; nothing of the two stages
    catches it. *)
Theorem empty_segments_stop_the_cards fds T0 D w p start stop response :
  segment_prompt fds D = OK p ->
  int_of_float T0 = OK start ->
  int_of_float (float_add T0 D) = OK stop ->
  client (List.length w) p = Responds response ->
  _parse_json_from_response response (Some TList) = OK (PList []) ->
  _merge_frame_descriptions client fds T0 D w = (OK [], w ++ [p]) /\
  bind (_merge_frame_descriptions client fds T0 D)
    (fun observations =>
       bind (_generate_activity_cards client observations)
         (fun activity_cards => ret (observations, activity_cards))) w =
  (Raise (Raised IndexError "list index out of range"),
   w ++ [p; ActivityPrompt []]).
Proof.
  intros Hp Hstart Hstop Hc Hparse.
  assert (Hm : _merge_frame_descriptions client fds T0 D w = (OK [], w ++ [p])).
  { rewrite (merge_frame_descriptions_cases client fds T0 D w p start stop
               Hp Hstart Hstop), Hc, Hparse. reflexivity. }
  split; [exact Hm|].
  unfold bind at 1. rewrite Hm. unfold bind.
  rewrite generate_on_no_observation. now rewrite <- app_assoc.
Qed.

(** *** [process_observations_in_chunks] with the service down *)

Lemma context_transcript_defined observations context_observations
    context_cards :
  (forall o, In o observations ->
     (exists s, local_clock (start_ts o) = OK s) /\
     (exists t, local_clock (end_ts o) = OK t)) ->
  clocks_defined context_observations ->
  exists transcript,
    context_transcript observations context_observations context_cards
      = OK transcript.
Proof.
  intros Hobs Hctx.
  destruct (transcript_defined observations Hobs) as [current Hcur].
  assert (Hlines : exists lines,
    exc_map (fun obs =>
      (start_str <- local_clock (rec_start_ts obs) ;;
       end_str <- local_clock (rec_end_ts obs) ;;
       OK (LineObservation start_str end_str (rec_observation obs)))%exc)
      context_observations = OK lines).
  { clear - Hctx. induction context_observations as [|x l IH].
    - simpl. eauto.
    - destruct (Hctx x (or_introl eq_refl)) as [[s Hs] [t Ht]].
      destruct IH as [rest Hrest]; [intros o Ho; apply Hctx; now right|].
      simpl. unfold exc_bind at 1. rewrite Hs. unfold exc_bind at 1.
      rewrite Ht, Hrest. eauto. }
  destruct Hlines as [lines Hlines].
  unfold context_transcript.
  destruct context_observations as [|x l].
  - destruct context_cards; unfold exc_bind; simpl; rewrite Hcur; eauto.
  - unfold exc_bind at 1. unfold exc_bind at 1. unfold exc_bind at 1.
    rewrite Hlines. unfold exc_bind. rewrite Hcur. eauto.
Qed.

Lemma chunk_iteration_down observations chunk_minutes context_minutes st w :
  service_down client ->
  clocks_defined observations ->
  debug_dir_made ->
  context_files_written ->
  Forall is_fallback_card (all_cards st) ->
  exists st' w',
    chunk_iteration client observations chunk_minutes context_minutes st w
      = (OK st', w') /\
    Forall is_fallback_card (all_cards st').
Proof.
  intros Hdown Hclk Hdir Hfile Hcards. unfold chunk_iteration, bind, ret.
  destruct (chunk_of observations (cursor st)
              (cursor st + chunk_minutes * 60)) as [|o sel] eqn:Hsel.
  - eexists; eexists. split; [reflexivity | exact Hcards].
  - set (chunk := map to_observation (o :: sel)).
    set (context := filter _ observations).
    set (cards := filter _ (all_cards st)).
    assert (Hchunk : forall x, In x chunk ->
              (exists s, local_clock (start_ts x) = OK s) /\
              (exists t, local_clock (end_ts x) = OK t)).
    { intros x Hx. apply in_map_iff in Hx. destruct Hx as (r & <- & Hr).
      apply Hclk. rewrite <- Hsel in Hr. now apply chunk_of_spec in Hr. }
    assert (Hcontext : clocks_defined context).
    { intros x Hx. apply Hclk. unfold context in Hx.
      now apply filter_In in Hx. }
    destruct (context_transcript_defined chunk context cards Hchunk Hcontext)
      as [transcript Htr].
    destruct (context_transcript_current _ _ _ _ Htr) as [current Hcur].
    destruct (card_bounds_defined chunk current) as
      (first & last & s & t & _ & _ & _ & _ & Hb);
      [discriminate | exact Hcur |].
    rewrite (generate_with_context_cases client _ _ _ _ _ w
               (Hdir _) Htr (Hfile _ _) Hb).
    destruct (Hdown (List.length w) (ContextActivityPrompt transcript))
      as [e ->].
    eexists; eexists. split; [reflexivity|]. simpl.
    apply Forall_app. split; [exact Hcards|].
    constructor; [apply fallback_card_is_fallback | constructor].
Qed.

Lemma chunk_pass_down observations chunk_minutes context_minutes
    start_time end_time st w :
  service_down client ->
  clocks_defined observations ->
  0 < chunk_minutes ->
  windows_printed start_time end_time (chunk_minutes * 60) ->
  debug_dir_made ->
  context_files_written ->
  Forall is_fallback_card (all_cards st) /\ start_time <= cursor st ->
  (cursor st <? end_time) = true ->
  exists st' w',
    chunk_pass client observations chunk_minutes context_minutes st w
      = (OK st', w') /\
    (Forall is_fallback_card (all_cards st') /\ start_time <= cursor st').
Proof.
  intros Hdown Hclk Hpos Hprint Hdir Hfile [Hinv Hlo] Hcond.
  apply Z.ltb_lt in Hcond.
  destruct (chunk_iteration_down observations chunk_minutes context_minutes
              st w Hdown Hclk Hdir Hfile Hinv) as (st' & w' & Hstep & Hinv').
  exists st', w'. split.
  - rewrite <- Hstep. unfold chunk_pass, chunk_iteration.
    destruct (chunk_of observations (cursor st)
                (cursor st + chunk_minutes * 60)); [reflexivity|].
    unfold bind at 1.
    rewrite (report_chunk_printed start_time end_time (chunk_minutes * 60)
               (cursor st) w Hprint ltac:(lia) Hlo Hcond).
    reflexivity.
  - split; [exact Hinv'|].
    rewrite (chunk_iteration_advances client _ _ _ _ _ _ _ Hstep). lia.
Qed.

(** X20. With the inference service down for a whole run, on a list of
    records that is not empty and whose bounds the clock formats, with a
    positive chunk length and on a host that prints the windows of the run,
    creates the debug directory and writes the context files,
    [process_observations_in_chunks] raises nothing and returns cards that
    are all fallback cards. *)
Theorem chunks_with_the_service_down observations first last chunk_minutes
    context_minutes w :
  service_down client ->
  first_item (sort_by_start observations) = OK first ->
  last_item (sort_by_start observations) = OK last ->
  clocks_defined observations ->
  0 < chunk_minutes ->
  windows_printed (rec_start_ts first) (rec_end_ts last) (chunk_minutes * 60) ->
  debug_dir_made ->
  context_files_written ->
  exists cards w',
    process_observations_in_chunks client observations chunk_minutes
      context_minutes w = (OK (Some cards), w') /\
    Forall is_fallback_card cards.
Proof.
  intros Hdown Hfirst Hlast Hclk Hpos Hprint Hdir Hfile.
  assert (Hclk' : clocks_defined (sort_by_start observations)).
  { intros o Ho. apply Hclk.
    eapply Permutation_in; [apply Permutation_sym, sort_by_start_perm | exact Ho]. }
  pose proof (process_observations_in_chunks_ends client observations
                chunk_minutes context_minutes w Hpos) as Hends.
  unfold process_observations_in_chunks, bind, lift, ret in *.
  rewrite Hfirst, Hlast in *.
  destruct (while_loop_keeps
              (fun st => Forall is_fallback_card (all_cards st) /\
                         rec_start_ts first <= cursor st)
              (fun st => cursor st <? rec_end_ts last)
              (chunk_pass client (sort_by_start observations) chunk_minutes
                 context_minutes)
              (fun st w0 Hst Hcond =>
                 chunk_pass_down _ _ _ _ _ st w0 Hdown Hclk' Hpos Hprint Hdir
                   Hfile Hst Hcond)
              (passes (rec_start_ts first) (rec_end_ts last) (chunk_minutes * 60))
              (mkChunkState (rec_start_ts first) []) w)
    as (r & w1 & Hloop & Hkeeps).
  { split; [constructor | simpl; lia]. }
  rewrite Hloop in *. destruct r as [final|].
  - exists (all_cards final), w1. split; [reflexivity|].
    exact (proj1 (Hkeeps final eq_refl)).
  - exfalso. destruct Hends as [(cards & w' & E) | (e & w' & E)]; discriminate.
Qed.

End CompositionProperties.

(** ** Frames and their captions *)

Lemma sorted_snoc {A} (R : A -> A -> Prop) (l : list A) (a : A) :
  StronglySorted R l -> Forall (fun x => R x a) l ->
  StronglySorted R (l ++ [a]).
Proof.
  induction 1 as [|x l Hl IH Hx]; intros Ha; simpl.
  - constructor; constructor.
  - inversion Ha; subst. constructor; [auto|].
    apply Forall_app. split; [assumption | constructor; [assumption | constructor]].
Qed.

Section FrameProperties.
Context {F : PyFloat} {RT : PyRuntime} {HOST : PyHost}.
Variable ffprobe : exc pyfloat.
Variable int_lt_float : Z -> pyfloat -> bool.
Variable ffmpeg : Z -> Z -> extraction.
Variable vision : nat -> FrameData -> outcome.

Lemma next_pass (k : nat) :
  Z.of_nat k * FRAME_EXTRACTION_INTERVAL + FRAME_EXTRACTION_INTERVAL
    = Z.of_nat (S k) * FRAME_EXTRACTION_INTERVAL /\
  Z.of_nat k + 1 = Z.of_nat (S k).
Proof. unfold FRAME_EXTRACTION_INTERVAL. lia. Qed.

(** The loop from the pass [m] on, when it makes [m + d] passes in all and
    nothing but [CalledProcessError] is raised. *)
Lemma extraction_loop_passes duration (d : nat) :
  forall (m fuel : nat) frames,
    passes_on int_lt_float duration (m + d) ->
    (forall k e, (m <= k < m + d)%nat -> extraction_at ffmpeg k <> Aborted e) ->
    (d <= fuel)%nat ->
    extraction_loop int_lt_float ffmpeg fuel duration frames
      (Z.of_nat m * FRAME_EXTRACTION_INTERVAL) (Z.of_nat m)
    = Some (OK (frames ++ flat_map (frame_at ffmpeg) (seq m d))).
Proof.
  induction d as [|d IH]; intros m fuel frames Hn Hok Hfuel.
  - assert (E : int_lt_float (Z.of_nat m * FRAME_EXTRACTION_INTERVAL) duration
                = false).
    { destruct (int_lt_float _ duration) eqn:E; [|reflexivity].
      apply Hn in E. lia. }
    destruct fuel; simpl; rewrite E, app_nil_r; reflexivity.
  - assert (E : int_lt_float (Z.of_nat m * FRAME_EXTRACTION_INTERVAL) duration
                = true) by (apply Hn; lia).
    destruct fuel as [|fuel]; [lia|].
    cbn [extraction_loop seq flat_map]. rewrite E.
    destruct (next_pass m) as [-> ->].
    assert (Hn' : passes_on int_lt_float duration (S m + d)).
    { replace (S m + d)%nat with (m + S d)%nat by lia. exact Hn. }
    assert (Hok' : forall k e, (S m <= k < S m + d)%nat ->
                     extraction_at ffmpeg k <> Aborted e).
    { intros k e Hk. apply Hok. lia. }
    unfold frame_at at 1.
    pose proof (Hok m) as Hm. unfold extraction_at in *.
    destruct (ffmpeg (Z.of_nat m * FRAME_EXTRACTION_INTERVAL) (Z.of_nat m))
      as [image| |e] eqn:Em.
    + rewrite (IH (S m) fuel _ Hn' Hok') by lia.
      now rewrite <- app_assoc.
    + rewrite (IH (S m) fuel _ Hn' Hok') by lia. reflexivity.
    + exfalso. apply (Hm e); [lia | reflexivity].
Qed.

(** X23. When ffprobe gives a duration on which the loop makes [n] passes,
    the frames directory is created and no exception leaves a pass (ffmpeg
    writes the frame, or exits with an error that the handler logs),
    [_extract_frames] ends and returns, in the order of the passes, one frame
    for each pass in which ffmpeg succeeded: the frame of the pass [k] has
    the timestamp [30 * k] and the number [k], so a pass that fails leaves a
    gap in the numbers. *)
Theorem frames_of_a_video duration (n fuel : nat) :
  ffprobe = OK duration ->
  host_run 0 MakeFramesDir = OK tt ->
  passes_on int_lt_float duration n ->
  (forall k e, (k < n)%nat -> extraction_at ffmpeg k <> Aborted e) ->
  (n <= fuel)%nat ->
  _extract_frames ffprobe int_lt_float ffmpeg fuel
    = Some (OK (flat_map (frame_at ffmpeg) (seq 0 n))).
Proof.
  intros Hprobe Hdir Hn Hok Hfuel.
  unfold _extract_frames, _get_video_duration. rewrite Hprobe, Hdir.
  apply (extraction_loop_passes duration n 0 fuel []); auto.
  intros k e Hk. apply Hok. lia.
Qed.

(** The loop from the pass [m] on, when the pass [m + d] is the first in
    which something else than [CalledProcessError] is raised. *)
Lemma extraction_loop_aborts duration (n : nat) e (d : nat) :
  forall (m fuel : nat) frames,
    passes_on int_lt_float duration n ->
    (m + d < n)%nat ->
    extraction_at ffmpeg (m + d) = Aborted e ->
    (forall k e', (m <= k < m + d)%nat ->
       extraction_at ffmpeg k <> Aborted e') ->
    (d < fuel)%nat ->
    extraction_loop int_lt_float ffmpeg fuel duration frames
      (Z.of_nat m * FRAME_EXTRACTION_INTERVAL) (Z.of_nat m)
    = Some (Raise e).
Proof.
  induction d as [|d IH]; intros m fuel frames Hn Hlt Hab Hok Hfuel;
    (destruct fuel as [|fuel]; [lia|]);
    assert (E : int_lt_float (Z.of_nat m * FRAME_EXTRACTION_INTERVAL) duration
                = true) by (apply Hn; lia);
    cbn [extraction_loop]; rewrite E.
  - replace (m + 0)%nat with m in Hab by lia.
    unfold extraction_at in Hab. rewrite Hab. reflexivity.
  - destruct (next_pass m) as [-> ->].
    assert (Hab' : extraction_at ffmpeg (S m + d) = Aborted e).
    { replace (S m + d)%nat with (m + S d)%nat by lia. exact Hab. }
    assert (Hok' : forall k e', (S m <= k < S m + d)%nat ->
                     extraction_at ffmpeg k <> Aborted e').
    { intros k e' Hk. apply Hok. lia. }
    pose proof (Hok m) as Hm. unfold extraction_at in Hm.
    destruct (ffmpeg (Z.of_nat m * FRAME_EXTRACTION_INTERVAL) (Z.of_nat m))
      as [image| |e'] eqn:Em.
    + apply IH; auto; lia.
    + apply IH; auto; lia.
    + exfalso. apply (Hm e'); [lia | reflexivity].
Qed.

(** X24. An exception of ffprobe is the exception of [_extract_frames]; so
    is, after it, an exception of the creation of the frames directory; and
    so is the first exception that leaves a pass (ffmpeg missing, a frame
    that cannot be read back, a handler that cannot decode the error output
    of ffmpeg): the loop stops there and the frames extracted in the passes
    before are not returned. *)
Theorem one_frame_stops_the_extraction duration (n k fuel : nat) e :
  (ffprobe = Raise e ->
   _extract_frames ffprobe int_lt_float ffmpeg fuel = Some (Raise e)) /\
  (ffprobe = OK duration ->
   host_run 0 MakeFramesDir = Raise e ->
   _extract_frames ffprobe int_lt_float ffmpeg fuel = Some (Raise e)) /\
  (ffprobe = OK duration ->
   host_run 0 MakeFramesDir = OK tt ->
   passes_on int_lt_float duration n ->
   (k < n)%nat ->
   extraction_at ffmpeg k = Aborted e ->
   (forall j e', (j < k)%nat -> extraction_at ffmpeg j <> Aborted e') ->
   (k < fuel)%nat ->
   _extract_frames ffprobe int_lt_float ffmpeg fuel = Some (Raise e)).
Proof.
  unfold _extract_frames, _get_video_duration. split; [|split].
  - intros ->. reflexivity.
  - intros -> ->. reflexivity.
  - intros -> -> Hn Hk Hab Hok Hfuel.
    apply (extraction_loop_aborts duration n e k 0 fuel []); auto.
    intros j e' Hj. apply Hok. lia.
Qed.

Lemma extraction_loop_clock duration (fuel : nat) :
  forall frames current_time number result,
    extraction_loop int_lt_float ffmpeg fuel duration frames current_time number
      = Some (OK result) ->
    0 <= number ->
    current_time = number * FRAME_EXTRACTION_INTERVAL ->
    Forall (fun frame => on_the_clock int_lt_float duration frame /\
                         frame_number frame < number) frames ->
    StronglySorted numbered_before frames ->
    Forall (on_the_clock int_lt_float duration) result /\
    StronglySorted numbered_before result.
Proof.
  induction fuel as [|fuel IH];
    intros frames current_time number result Hrun Hpos Hclock Hall Hsorted;
    cbn [extraction_loop] in Hrun;
    destruct (int_lt_float current_time duration) eqn:E.
  - discriminate.
  - injection Hrun as <-. split; [|assumption].
    eapply Forall_impl; [|exact Hall]. now intros frame [H _].
  - assert (Hnext : current_time + FRAME_EXTRACTION_INTERVAL
                    = (number + 1) * FRAME_EXTRACTION_INTERVAL)
      by (subst current_time; unfold FRAME_EXTRACTION_INTERVAL; lia).
    assert (Hall' : Forall (fun frame => on_the_clock int_lt_float duration frame
                               /\ frame_number frame < number + 1) frames).
    { eapply Forall_impl; [|exact Hall]. intros frame [H Hlt]. split; [exact H | lia]. }
    destruct (ffmpeg current_time number) as [image| |e].
    + apply IH in Hrun; auto; try lia.
      * apply Forall_app. split; [exact Hall'|].
        constructor; [|constructor]. split; [|simpl; lia].
        unfold on_the_clock. simpl. auto.
      * apply sorted_snoc; [assumption|].
        eapply Forall_impl; [|exact Hall]. now intros frame [_ H].
    + apply IH in Hrun; auto; lia.
    + discriminate.
  - injection Hrun as <-. split; [|assumption].
    eapply Forall_impl; [|exact Hall]. now intros frame [H _].
Qed.

(** X25. Whatever ffprobe, ffmpeg and the comparison do, the frames
    [_extract_frames] returns are on the clock of the loop: a frame with the
    number [k] has the timestamp [30 * k], which is below the duration
    ffprobe gave, and the frames come with strictly increasing numbers (no
    number is used twice, and none is given again after a failure). *)
Theorem frame_numbers_follow_the_clock (fuel : nat) frames :
  _extract_frames ffprobe int_lt_float ffmpeg fuel = Some (OK frames) ->
  exists duration,
    ffprobe = OK duration /\
    Forall (on_the_clock int_lt_float duration) frames /\
    StronglySorted numbered_before frames.
Proof.
  unfold _extract_frames, _get_video_duration.
  destruct ffprobe as [duration|e]; [|discriminate].
  destruct (host_run 0 MakeFramesDir); [|discriminate].
  intros Hrun. exists duration. split; [reflexivity|].
  apply (extraction_loop_clock duration fuel [] 0 0 frames Hrun);
    [lia | reflexivity | constructor | constructor].
Qed.

(** X26. [_format_duration] on an [int] and [_parse_timestamp]: a number of
    seconds that is not negative is read back as it was, with or without
    hours; a negative one loses its hours and is read back modulo 3600
    (provided [int] reads back the two-digit fields). *)
Theorem whole_seconds_round_trip (seconds : Z) :
  (0 < seconds / 3600 ->
   int_of_str (pad2 (seconds / 3600)) = OK (seconds / 3600)) ->
  int_of_str (pad2 (seconds mod 3600 / 60)) = OK (seconds mod 3600 / 60) ->
  int_of_str (pad2 (seconds mod 60)) = OK (seconds mod 60) ->
  _parse_timestamp (PStr (_format_duration_int seconds)) =
    OK (if 0 <=? seconds then seconds else seconds mod 3600).
Proof.
  intros Ih Im Is. unfold _format_duration_int.
  assert (Hs : (seconds mod 3600) mod 60 = seconds mod 60).
  { apply Z.mod_mod_divide. exists 60. reflexivity. }
  pose proof (Z.div_mod seconds 3600 ltac:(lia)) as H1.
  pose proof (Z.div_mod (seconds mod 3600) 60 ltac:(lia)) as H2.
  pose proof (Z.mod_pos_bound seconds 3600 ltac:(lia)) as H3.
  rewrite Hs in H2.
  destruct (0 <? seconds / 3600) eqn:E.
  - apply Z.ltb_lt in E.
    replace (if 0 <=? seconds then seconds else seconds mod 3600)
      with (seconds / 3600 * 3600 + seconds mod 3600 / 60 * 60 + seconds mod 60).
    + apply parse_timestamp_three.
      exists (pad2 (seconds / 3600)), (pad2 (seconds mod 3600 / 60)),
        (pad2 (seconds mod 60)).
      repeat split; auto using pad2_free.
    + destruct (0 <=? seconds) eqn:E'; [lia|].
      apply Z.leb_gt in E'. lia.
  - apply Z.ltb_ge in E.
    replace (if 0 <=? seconds then seconds else seconds mod 3600)
      with (seconds mod 3600 / 60 * 60 + seconds mod 60).
    + apply parse_timestamp_two.
      exists (pad2 (seconds mod 3600 / 60)), (pad2 (seconds mod 60)).
      repeat split; auto using pad2_free.
    + destruct (0 <=? seconds) eqn:E'; [|lia].
      apply Z.leb_le in E'.
      assert (seconds / 3600 = 0).
      { pose proof (Z.div_pos seconds 3600 E' ltac:(lia)). lia. }
      lia.
Qed.

(** X27. Stage 2 of [process_single_video] drops no frame and raises
    nothing: it gives one caption per frame, in the order of the frames and
    with the timestamp of the frame, the i-th one from the i-th vision call;
    where that call raises, the caption is the error text with the formatted
    timestamp of the frame, so with the vision service down every frame still
    has its caption. *)
Theorem captions_follow_the_frames (calls : nat) frames :
  map fst (frame_descriptions_of vision calls frames) = map timestamp frames /\
  (forall i frame,
     nth_error frames i = Some frame ->
     nth_error (frame_descriptions_of vision calls frames) i =
       Some (timestamp frame,
             match vision (calls + i) frame with
             | Responds response => str_strip response
             | Fails _ => frame_error frame
             end)) /\
  ((forall n frame, exists e, vision n frame = Fails e) ->
   frame_descriptions_of vision calls frames =
     map (fun frame => (timestamp frame, frame_error frame)) frames).
Proof.
  revert calls. induction frames as [|frame frames IH]; intros calls.
  - repeat split; try reflexivity. intros [|i] f H; discriminate H.
  - destruct (IH (S calls)) as (Hfst & Hnth & Hdown).
    cbn [frame_descriptions_of map]. repeat split.
    + simpl. now rewrite Hfst.
    + intros [|i] f H; simpl in H.
      * injection H as <-. simpl. unfold _get_frame_description.
        now rewrite Nat.add_0_r.
      * simpl. rewrite (Hnth i f H).
        now replace (S calls + i)%nat with (calls + S i)%nat by lia.
    + intros Hall. rewrite (Hdown Hall). f_equal.
      unfold _get_frame_description.
      destruct (Hall calls frame) as [e ->]. reflexivity.
Qed.

End FrameProperties.

(** * The properties on concrete runs *)

Import Fixture.

(** Scenario B: the second card mentions YouTube; no call is made. *)
Lemma lexical_veto_witness :
  should_merge_cards unreachable_service
    (card "9:00 AM" "9:15 AM" "Parser work" "Fixed the tokenizer.")
    (card "9:15 AM" "9:30 AM" "Watched YouTube" "Cat clips.") [] =
  (OK (PBool false), []).
Proof.
  apply (lexical_veto unreachable_service _ _
           "Parser work" "Fixed the tokenizer." "Watched YouTube" "Cat clips."
           "youtube"); try reflexivity.
  - simpl. tauto.
  - apply str_in_iff. vm_compute. reflexivity.
Defined.

(** The inference service is down while a batch of two snapshots is merged. *)
Lemma segment_merger_falls_back_witness :
  exists e,
    _merge_frame_descriptions unreachable_service
      [(0, "Editing code"); (30, "Reading mail")] 1700000000 900 [] =
      (OK [mkObservation 1700000000 1700000900
             (PStr "Failed to merge frame descriptions")
             (PDict [("error", PStr (exn_str e))])],
       [] ++ [SegmentPrompt 2 "15:00"
                [("00:00", "Editing code"); ("00:30", "Reading mail")]]) /\
    (forall e0,
       unreachable_service (List.length (@nil prompt))
         (SegmentPrompt 2 "15:00"
            [("00:00", "Editing code"); ("00:30", "Reading mail")])
       = Fails e0 -> e = e0) /\
    (forall response e0,
       unreachable_service (List.length (@nil prompt))
         (SegmentPrompt 2 "15:00"
            [("00:00", "Editing code"); ("00:30", "Reading mail")])
       = Responds response ->
       _parse_json_from_response response (Some TList) = Raise e0 -> e = e0).
Proof.
  apply (segment_merger_falls_back unreachable_service
           [(0, "Editing code"); (30, "Reading mail")] 1700000000 900 []).
  - vm_compute. reflexivity.
  - reflexivity.
  - reflexivity.
  - left. eexists. reflexivity.
Defined.

(** Scenario D: the service is down while a card is generated. *)
Lemma card_generator_falls_back_witness :
  exists first last s t,
    first_item [obs 0 600 "Editing code"; obs 600 900 "Reading mail"]
      = OK first /\
    last_item [obs 0 600 "Editing code"; obs 600 900 "Reading mail"]
      = OK last /\
    local_clock (start_ts first) = OK s /\
    local_clock (end_ts last) = OK t /\
    _generate_activity_cards unreachable_service
      [obs 0 600 "Editing code"; obs 600 900 "Reading mail"] [] =
      (OK [mkActivityCard (PStr s) (PStr t) (PStr "Work")
             (PStr "Activity Session")
             (PStr "User engaged in various activities.")],
       [] ++ [ActivityPrompt
                [LineObservation "12:00 AM" "12:10 AM" (PStr "Editing code");
                 LineObservation "12:10 AM" "12:15 AM" (PStr "Reading mail")]]).
Proof.
  apply (card_generator_falls_back unreachable_service).
  - discriminate.
  - vm_compute. reflexivity.
  - left. eexists. reflexivity.
Defined.

(** The service is down while two cards about one task are compared. *)
Lemma failed_merge_check_keeps_apart_witness :
  should_merge_cards unreachable_service
    (card "9:00 AM" "9:15 AM" "Parser work" "Fixed the tokenizer.")
    (card "9:15 AM" "9:30 AM" "Parser work" "Added tests.") [] =
    (OK (PBool false),
     [] ++ [MergeCheckPrompt
              (card "9:00 AM" "9:15 AM" "Parser work" "Fixed the tokenizer.")
              (card "9:15 AM" "9:30 AM" "Parser work" "Added tests.")]) /\
  place_card unreachable_service
    [card "9:00 AM" "9:15 AM" "Parser work" "Fixed the tokenizer."]
    (Some (card "9:00 AM" "9:15 AM" "Parser work" "Fixed the tokenizer."))
    (card "9:15 AM" "9:30 AM" "Parser work" "Added tests.") [] =
    (OK ([card "9:00 AM" "9:15 AM" "Parser work" "Fixed the tokenizer."]
         ++ [card "9:15 AM" "9:30 AM" "Parser work" "Added tests."],
         Some (card "9:15 AM" "9:30 AM" "Parser work" "Added tests.")),
     [] ++ [MergeCheckPrompt
              (card "9:00 AM" "9:15 AM" "Parser work" "Fixed the tokenizer.")
              (card "9:15 AM" "9:30 AM" "Parser work" "Added tests.")]).
Proof.
  refine (let H := failed_merge_check_keeps_apart unreachable_service
                     (card "9:00 AM" "9:15 AM" "Parser work" "Fixed the tokenizer.")
                     (card "9:15 AM" "9:30 AM" "Parser work" "Added tests.")
                     "parser workfixed the tokenizer.parser workadded tests."
                     []
                     [card "9:00 AM" "9:15 AM" "Parser work" "Fixed the tokenizer."]
                     _ _ _ in
          conj (proj1 H) (proj1 (proj2 H))).
  - vm_compute. reflexivity.
  - intros keyword Hin Hocc. apply str_in_iff in Hocc.
    simpl in Hin.
    repeat (destruct Hin as [<- | Hin]; [vm_compute in Hocc; discriminate|]).
    exact Hin.
  - left. eexists. reflexivity.
Defined.

(** A chunk of two observations in order, and a service that answers the
    generator with context. *)
Lemma card_bounds_of_generators_witness :
  (forall w cards w',
     _generate_activity_cards (scripted [late_response]) quarter_hour w
       = (OK cards, w') ->
     exists card,
       cards = [card] /\
       start_time card = PStr "12:00 AM" /\ end_time card = PStr "12:15 AM" /\
       (chronological quarter_hour = true ->
        ends_ordered quarter_hour = true ->
        bounds_of_chunk quarter_hour card)) /\
  (forall context_observations context_cards w cards w',
     _generate_activity_cards_with_context (scripted [late_response])
       quarter_hour context_observations context_cards w = (OK cards, w') ->
     cards = [mkActivityCard (PStr "12:00 AM") (PStr "12:15 AM") (PStr "Work")
                (PStr "Activity Session")
                (PStr "User engaged in various activities.")] \/
     exists transcript response cards_data items,
       context_transcript quarter_hour context_observations context_cards
         = OK transcript /\
       scripted [late_response] (List.length w)
         (ContextActivityPrompt transcript) = Responds response /\
       _parse_json_from_response response (Some TList) = OK cards_data /\
       py_iter cards_data = OK items /\
       Forall2 (fun item card =>
                  py_getitem item "startTime" = OK (start_time card) /\
                  py_getitem item "endTime" = OK (end_time card))
         items cards).
Proof.
  apply (card_bounds_of_generators (scripted [late_response]) quarter_hour
           (obs 0 600 "Editing code") (obs 600 900 "Reading mail"));
    reflexivity.
Defined.

(** C6, as stated, fails.  With context enabled the card carries the times
    of the response, here 3:07 PM for a chunk that starts at 12:00 AM; without
    context the card ends with the last observation, here at 12:03 AM for a
    chunk whose latest end is 12:16 AM. *)
Lemma card_bounds_counterexample :
  (exists card w',
     _generate_activity_cards_with_context (scripted [late_response])
       quarter_hour [] [] [] = (OK [card], w') /\
     ~ bounds_of_chunk quarter_hour card) /\
  (exists card w',
     _generate_activity_cards unreachable_service overlapping []
       = (OK [card], w') /\
     ~ bounds_of_chunk overlapping card).
Proof.
  split; eexists; eexists; (split; [vm_compute; reflexivity|]);
    intros (s & t & Hs & Ht & Hcs & Hce); vm_compute in Hs, Ht, Hcs, Hce;
    congruence.
Qed.

(** A batch of two snapshots and a service that answers with three segments. *)
Lemma segment_merger_result_witness :
  exists observations,
    _merge_frame_descriptions (scripted [three_segments_text]) two_frames
      1700000000 900 [] = (OK observations, [] ++ [two_frames_prompt]) /\
    ((exists e, observations = [failed_merge 1700000000 1700000900 e] /\
                segment_contract 1700000000 1700000900 observations = true) \/
     (exists response segments items,
        scripted [three_segments_text] (List.length (@nil prompt))
          two_frames_prompt = Responds response /\
        _parse_json_from_response response (Some TList) = OK segments /\
        py_iter segments = OK items /\
        Forall2 (observation_of_segment 1700000000) items observations)).
Proof.
  apply (segment_merger_result (scripted [three_segments_text]) two_frames
           1700000000 900 [] two_frames_prompt 1700000000 1700000900);
    reflexivity.
Defined.

(** C7, as stated, fails.  A batch with two distinct captions: when the
    service answers with an empty array the merger returns no observation, and
    when it answers with three segments that stop after fifteen of the twenty
    minutes the observations do not cover the batch. *)
Lemma segment_contract_counterexample :
  (2 <= distinct_captions two_frames)%nat /\
  (exists w',
     _merge_frame_descriptions (scripted ["[]"]) two_frames 1700000000 900 []
       = (OK [], w')) /\
  segment_contract 1700000000 1700000900 [] = false /\
  (exists observations w',
     _merge_frame_descriptions (scripted [three_segments_text]) two_frames
       1700000000 1200 [] = (OK observations, w') /\
     segment_contract 1700000000 1700001200 observations = false).
Proof.
  split; [vm_compute; lia|].
  split; [eexists; vm_compute; reflexivity|].
  split; [reflexivity|].
  eexists; eexists. split; vm_compute; reflexivity.
Qed.


(** Scenario E and the two shapes: 05:30, 1:05:30, abc. *)
Lemma parse_timestamp_spec_witness :
  _parse_timestamp (PStr "05:30") = OK (5 * 60 + 30) /\
  _parse_timestamp (PStr "1:05:30") = OK (1 * 3600 + 5 * 60 + 30) /\
  (exists e, _parse_timestamp (PStr "abc") = Raise e) /\
  (exists e,
     _merge_frame_descriptions (scripted [bad_segment_text]) two_frames
       1700000000 900 [] =
       (OK [failed_merge 1700000000 1700000900 e], [] ++ [two_frames_prompt])).
Proof.
  destruct (parse_timestamp_spec (scripted [bad_segment_text]))
    as (Htwo & Hthree & Hother & Hfallback).
  split; [|split; [|split]].
  - apply (Htwo "05:30" 5 30). exists "05", "30". simpl.
    repeat split; try reflexivity; discriminate.
  - apply (Hthree "1:05:30" 1 5 30). exists "1", "05", "30". simpl.
    repeat split; try reflexivity; discriminate.
  - apply (Hother "abc").
    + intros m sec (a & b & Hs & _).
      destruct a as [|c1 [|c2 [|c3 [|c4 a]]]]; simpl in Hs; discriminate Hs.
    + intros h m sec (a & b & c & Hs & _).
      destruct a as [|c1 [|c2 [|c3 [|c4 a]]]]; simpl in Hs; discriminate Hs.
  - apply (Hfallback two_frames 1700000000 900 [] two_frames_prompt
             1700000000 1700000900 bad_segment_text
             [object_value (segment "abc" "05:30" "Billing")]
             (object_value (segment "abc" "05:30" "Billing"))
             (PStr "abc") (InvalidTimestampFormat "abc"));
      try reflexivity.
    + left. reflexivity.
    + left. reflexivity.
Defined.

(** After the first pass of a run in which the service says combine, the
    card of the first window is the previous card and the last card; the
    card of the second window is fused into it in its place, and the run
    ends with the fused card alone. *)
Lemma previous_card_is_last_witness :
  previous_is_last (mkMergeState 900 [first_card] (Some first_card)) /\
  place_card (scripted merging_script) [first_card] (Some first_card)
    next_card two_chunk_prompts =
    (OK ([fused_card], Some fused_card),
     two_chunk_prompts ++ [MergeCheckPrompt first_card next_card;
                           FusionPrompt first_card next_card]) /\
  fst (process_with_merging (scripted merging_script) adjacent_records [])
    = OK (Some [fused_card]).
Proof.
  assert (Hr : reached (scripted merging_script) adjacent_records 0 1500 []
                 (mkMergeState 900 [first_card] (Some first_card))
                 [ActivityPrompt
                    [LineObservation "12:00 AM" "12:10 AM"
                       (PStr "Editing code")]]).
  { apply (reached_pass (scripted merging_script) adjacent_records 0 1500 []
             (mkMergeState 0 [] None) []).
    - apply reached_start.
    - reflexivity.
    - vm_compute. reflexivity. }
  destruct (previous_card_is_last (scripted merging_script) adjacent_records
              0 1500 [] _ _ Hr) as [Hlast Hplace].
  split; [exact Hlast|]. split; [|vm_compute; reflexivity].
  destruct (Hplace first_card eq_refl) as (_ & _ & Hfuse).
  apply (Hfuse next_card two_chunk_prompts (PBool true)
           (two_chunk_prompts ++ [MergeCheckPrompt first_card next_card])
           fused_card
           (two_chunk_prompts ++ [MergeCheckPrompt first_card next_card;
                                  FusionPrompt first_card next_card]));
    vm_compute; reflexivity.
Defined.

(** * Scenarios of the specification *)

(** Scenario A: two cards about one project, the service says combine and
    then gives a title and a summary: one card from the start of the first
    to the end of the second, with the category of the first. *)
Example scenario_merge :
  place_card
    (scripted [combine_true_text;
               object_text [("title", "Built the parser");
                            ("summary", "Wrote it.")]])
    [card "9:00 AM" "9:15 AM" "Parser work" "Fixed the tokenizer."]
    (Some (card "9:00 AM" "9:15 AM" "Parser work" "Fixed the tokenizer."))
    (card "9:15 AM" "9:30 AM" "Parser work" "Added tests.") [] =
  (OK ([card "9:00 AM" "9:30 AM" "Built the parser" "Wrote it."],
       Some (card "9:00 AM" "9:30 AM" "Built the parser" "Wrote it.")),
   [MergeCheckPrompt
      (card "9:00 AM" "9:15 AM" "Parser work" "Fixed the tokenizer.")
      (card "9:15 AM" "9:30 AM" "Parser work" "Added tests.");
    FusionPrompt
      (card "9:00 AM" "9:15 AM" "Parser work" "Fixed the tokenizer.")
      (card "9:15 AM" "9:30 AM" "Parser work" "Added tests.")]).
Proof. vm_compute. reflexivity. Qed.

(** Scenario C: a response of three segments gives three observations, each
    boundary added to the start of the batch. *)
Example scenario_three_segments :
  fst (_merge_frame_descriptions (scripted [three_segments_text]) two_frames
         1700000000 900 []) =
  OK [mkObservation 1700000000 1700000330 (PStr "Billing")
        (PDict [("model", PStr "google/gemma-3n-e4b")]);
      mkObservation 1700000330 1700000600 (PStr "Research")
        (PDict [("model", PStr "google/gemma-3n-e4b")]);
      mkObservation 1700000600 1700000900 (PStr "Coding")
        (PDict [("model", PStr "google/gemma-3n-e4b")])].
Proof. vm_compute. reflexivity. Qed.

(** Two records and a service that is down: two fallback cards, kept apart,
    and nothing for the two empty windows between them. *)
Example scenario_two_records :
  fst (process_with_merging unreachable_service two_records []) =
  OK (Some [first_card;
            mkActivityCard (PStr "12:45 AM") (PStr "12:55 AM") (PStr "Work")
              (PStr "Activity Session")
              (PStr "User engaged in various activities.")]).
Proof. vm_compute. reflexivity. Qed.

(** * Further properties on concrete runs *)

Import Samples.

Ltac free_of_text := cbn; repeat split; discriminate.

Lemma parser_never_raises_decode_error_witness :
  is_json_decode_error (CouldNotParseJSON "no json here") = false /\
  ((exists s, json_loads s = Raise (CouldNotParseJSON "no json here")) \/
   (exists t got, CouldNotParseJSON "no json here" = ExpectedType t got) \/
   CouldNotParseJSON "no json here" =
     CouldNotParseJSON (first_chars 200 (str_strip "no json here"))).
Proof.
  apply (parser_never_raises_decode_error "no json here" (Some TList)).
  vm_compute. reflexivity.
Defined.

Lemma parser_extracts_embedded_array_witness :
  _parse_json_from_response prose_array (Some TList) = OK (PList []).
Proof.
  apply (parser_extracts_embedded_array prose_array
           (Raised JSONDecodeError "json.loads")
           "Here you are: " EmptyString " I hope it helps").
  - vm_compute. reflexivity.
  - reflexivity.
  - vm_compute. reflexivity.
  - free_of_text.
  - free_of_text.
  - vm_compute. reflexivity.
Defined.

Lemma parser_extracts_embedded_object_witness :
  _parse_json_from_response prose_object (Some TDict) = OK (PDict []) /\
  _parse_json_from_response prose_object (Some TList) = OK (PList [PDict []]).
Proof.
  apply (parser_extracts_embedded_object prose_object
           (Raised JSONDecodeError "json.loads") "Sure: " EmptyString " .").
  - vm_compute. reflexivity.
  - reflexivity.
  - vm_compute. reflexivity.
  - free_of_text.
  - free_of_text.
  - free_of_text.
  - vm_compute. reflexivity.
Defined.

Lemma parser_rejects_unexpected_type_witness :
  _parse_json_from_response "{}" (Some TList) =
    Raise (ExpectedType TList (type_of (PDict []))).
Proof.
  apply (parser_rejects_unexpected_type "{}" (PDict []) TList); reflexivity.
Defined.

(** One hour, five minutes and thirty seconds. *)
Lemma format_then_parse_witness :
  exists text,
    @_format_duration whole_seconds 3930 = OK text /\
    _parse_timestamp (PStr text) = OK (1 * 3600 + 5 * 60 + 30).
Proof.
  apply (@format_then_parse whole_seconds runtime 3930 1 5 30);
    try reflexivity. lia.
Defined.


Lemma fusion_contents_witness :
  merge_two_cards unreachable_service parser_card tests_card [] =
    (OK (continued_card parser_card tests_card),
     [] ++ [FusionPrompt parser_card tests_card]) /\
  merge_two_cards (scripted [fusion_response]) parser_card tests_card [] =
    (OK (card "9:00 AM" "9:30 AM" "Built the parser" "Wrote it."),
     [FusionPrompt parser_card tests_card]).
Proof.
  split.
  - apply (proj1 (fusion_contents unreachable_service parser_card tests_card [])).
    left. eexists. reflexivity.
  - apply (proj2 (fusion_contents (scripted [fusion_response])
                    parser_card tests_card [])
             fusion_response
             [("title", PStr "Built the parser"); ("summary", PStr "Wrote it.")]).
    + reflexivity.
    + vm_compute. reflexivity.
Defined.

(** The pass over the window of the second record, after the first card. *)
Lemma prompts_of_a_pass_witness :
  exists r w',
    merging_iteration unreachable_service two_records
      (mkMergeState 2700 [first_card] (Some first_card)) [] = (r, w') /\
    (w' = [] \/
     exists transcript,
       w' = [] ++ [ActivityPrompt transcript] \/
       exists P N,
         Some first_card = Some P /\
         (w' = [] ++ [ActivityPrompt transcript; MergeCheckPrompt P N] \/
          w' = [] ++ [ActivityPrompt transcript; MergeCheckPrompt P N;
                      FusionPrompt P N])).
Proof.
  eexists. eexists. split.
  - vm_compute. reflexivity.
  - apply (prompts_of_a_pass unreachable_service two_records
             (mkMergeState 2700 [first_card] (Some first_card)) []
             (OK (mkMergeState 3600 [first_card; second_card] (Some second_card)))).
    vm_compute. reflexivity.
Defined.

(** The first pass of the loop appends the first card. *)
Lemma timeline_changes_at_its_end_witness :
  [first_card] = [] \/
  (exists c, [first_card] = [] ++ [c]) \/
  (exists P c,
     @nil ActivityCard = removelast [] ++ [P] /\
     [first_card] = removelast [] ++ [c] /\
     start_time c = start_time P /\ category c = category P).
Proof.
  apply (timeline_changes_at_its_end unreachable_service two_records 0 3300 []
           (mkMergeState 0 [] None) []
           (mkMergeState 900 [first_card] (Some first_card))
           [ActivityPrompt
              [LineObservation "12:00 AM" "12:10 AM" (PStr "Editing code")]]).
  - apply reached_start.
  - vm_compute. reflexivity.
Defined.

(** The second record is selected in the fourth window, at 2700. *)
Lemma every_observation_is_scheduled_witness :
  exists k,
    0 <= k /\
    rec_start_ts first_record + k * (15 * 60) < rec_end_ts second_record /\
    In second_record
      (chunk_of (sort_by_start two_records)
         (rec_start_ts first_record + k * (15 * 60))
         (rec_start_ts first_record + k * (15 * 60) + 15 * 60)).
Proof.
  apply (every_observation_is_scheduled two_records first_record second_record
           second_record).
  - reflexivity.
  - reflexivity.
  - reflexivity.
  - right. left. reflexivity.
  - reflexivity.
Defined.

(** The pass over the window of the second record: the first record is the
    context when the context reaches back forty-five minutes. *)
Lemma context_is_apart_from_the_chunk_witness :
  chunk_iteration unreachable_service two_records 15 45
    (mkChunkState 2700 [first_card]) [] =
    bind (_generate_activity_cards_with_context unreachable_service
            (map to_observation [second_record])
            (context_of two_records (2700 - 45 * 60) 2700)
            (filter (fun card => py_truthy (start_time card)) [first_card]))
         (fun cards =>
            ret (mkChunkState (2700 + 15 * 60) ([first_card] ++ cards))) [] /\
  (forall x,
     In x (context_of two_records (2700 - 45 * 60) 2700) ->
     rec_end_ts x <= 2700 /\ ~ In x [second_record]).
Proof.
  apply (context_is_apart_from_the_chunk unreachable_service two_records 15 45
           (mkChunkState 2700 [first_card]) [] second_record []).
  reflexivity.
Defined.

Lemma card_generator_total_witness :
  exists card,
    _generate_activity_cards (scripted [fusion_response]) quarter_hour [] =
      (OK [card],
       [] ++ [ActivityPrompt
                [LineObservation "12:00 AM" "12:10 AM" (PStr "Editing code");
                 LineObservation "12:10 AM" "12:15 AM" (PStr "Reading mail")]]) /\
    category card = PStr "Work" /\
    (forall response d,
       scripted [fusion_response] (List.length (@nil prompt))
         (ActivityPrompt
            [LineObservation "12:00 AM" "12:10 AM" (PStr "Editing code");
             LineObservation "12:10 AM" "12:15 AM" (PStr "Reading mail")])
         = Responds response ->
       _parse_json_from_response response (Some TDict) = OK (PDict d) ->
       title card = match assoc "title" d with
                    | Some x => x
                    | None => PStr "Activity Session"
                    end /\
       summary card = match assoc "summary" d with
                      | Some x => x
                      | None => PStr "User engaged in various activities."
                      end).
Proof.
  apply (card_generator_total (scripted [fusion_response]) quarter_hour).
  - discriminate.
  - vm_compute. reflexivity.
Defined.

(** The service says combine: the fused card is last and ends at 9:30 AM. *)
Lemma timeline_ends_with_the_new_card_witness :
  exists c,
    last_item [card "9:00 AM" "9:30 AM" "Built the parser" "Wrote it."] = OK c /\
    Some (card "9:00 AM" "9:30 AM" "Built the parser" "Wrote it.") = Some c /\
    end_time c = end_time tests_card.
Proof.
  apply (timeline_ends_with_the_new_card
           (scripted [combine_true_text; fusion_response])
           [parser_card] (Some parser_card) tests_card []
           [card "9:00 AM" "9:30 AM" "Built the parser" "Wrote it."]
           (Some (card "9:00 AM" "9:30 AM" "Built the parser" "Wrote it."))
           [MergeCheckPrompt parser_card tests_card;
            FusionPrompt parser_card tests_card]).
  vm_compute. reflexivity.
Defined.

(** The two records in either order. *)
Lemma record_order_is_irrelevant_witness :
  process_with_merging unreachable_service [first_record; second_record] [] =
  process_with_merging unreachable_service [second_record; first_record] [] /\
  process_observations_in_chunks unreachable_service
    [first_record; second_record] 15 30 [] =
  process_observations_in_chunks unreachable_service
    [second_record; first_record] 15 30 [].
Proof.
  apply (record_order_is_irrelevant unreachable_service
           [first_record; second_record] [second_record; first_record]).
  - apply perm_swap.
  - repeat constructor; simpl; intuition discriminate.
Defined.

(** A response with one card, and a response of three items that are no
    cards. *)
Lemma context_cards_all_or_nothing_witness :
  _generate_activity_cards_with_context (scripted [late_response])
    quarter_hour [] [] [] =
    (OK [mkActivityCard (PStr "3:07 PM") (PStr "3:22 PM") (PStr "Research")
           (PStr "Read papers") (PStr "Read two papers.")],
     [] ++ [ContextActivityPrompt
              [LineObservation "12:00 AM" "12:10 AM" (PStr "Editing code");
               LineObservation "12:10 AM" "12:15 AM" (PStr "Reading mail")]]) /\
  _generate_activity_cards_with_context (scripted [three_segments_text])
    quarter_hour [] [] [] =
    (OK [fallback_card ("12:00 AM", "12:15 AM")],
     [] ++ [ContextActivityPrompt
              [LineObservation "12:00 AM" "12:10 AM" (PStr "Editing code");
               LineObservation "12:10 AM" "12:15 AM" (PStr "Reading mail")]]).
Proof.
  split.
  - refine (proj1 (proj1 (context_cards_all_or_nothing
             (scripted [late_response]) quarter_hour [] [] _
             ("12:00 AM", "12:15 AM") [] late_response
             [object_value late_card] _ _ _ _ _ _) _ _));
      vm_compute; reflexivity.
  - refine (proj2 (context_cards_all_or_nothing
             (scripted [three_segments_text]) quarter_hour [] [] _
             ("12:00 AM", "12:15 AM") [] three_segments_text
             [object_value (segment "00:00" "05:30" "Billing");
              object_value (segment "05:30" "10:00" "Research");
              object_value (segment "10:00" "15:00" "Coding")] _ _ _ _ _ _)
             (object_value (segment "00:00" "05:30" "Billing")) "startTime"
             (Raised KeyError "startTime") _ _ _);
      try (vm_compute; reflexivity).
    + left. reflexivity.
    + left. reflexivity.
Defined.

(** The previous card has no title. *)
Lemma fields_that_are_not_texts_stop_the_driver_witness :
  exists e,
    should_merge_cards unreachable_service untitled_card tests_card []
      = (Raise e, []) /\
    (forall timeline,
       place_card unreachable_service timeline (Some untitled_card) tests_card []
         = (Raise e, [])) /\
    (forall all_observations st w0 o selection rest,
       previous_card st = Some untitled_card ->
       chunk_of all_observations (chunk_start st) (chunk_start st + 15 * 60)
         = o :: selection ->
       _generate_activity_cards unreachable_service
         (map to_observation (o :: selection)) w0
         = (OK (tests_card :: rest), []) ->
       merging_iteration unreachable_service all_observations st w0
         = (Raise e, [])).
Proof.
  apply (fields_that_are_not_texts_stop_the_driver unreachable_service
           untitled_card tests_card []).
  intros a b c d (Ha & _). discriminate Ha.
Defined.

Lemma utc_window_clock_defined (t : Z) :
  0 <= t <= 253402300799 -> exists s, utc_window_clock t = OK s.
Proof.
  intros Ht. unfold utc_window_clock.
  replace ((0 <=? t) && (t <=? 253402300799)) with true; [eauto|].
  symmetry. apply andb_true_iff. split; apply Z.leb_le; lia.
Qed.

(** The two records with the service down. *)
Lemma run_with_the_service_down_witness :
  exists timeline w',
    process_with_merging unreachable_service two_records []
      = (OK (Some timeline), w') /\
    Forall is_fallback_card timeline.
Proof.
  apply (run_with_the_service_down unreachable_service two_records
           (mkRecord 0 600 (PStr "Editing code") None)
           (mkRecord 2700 3300 (PStr "Reading mail") None) []).
  - intros n p. eexists. reflexivity.
  - reflexivity.
  - reflexivity.
  - intros o [<- | [<- | []]]; split; eexists; vm_compute; reflexivity.
  - intros t Ht. apply utc_window_clock_defined. simpl in Ht.
    unfold chunk_duration in Ht. lia.
  - intros n. reflexivity.
Defined.

(** A video of fifteen minutes with the service down. *)
Lemma stages_with_the_service_down_witness :
  exists e,
    bind (_merge_frame_descriptions unreachable_service two_frames
            1700000000 900)
      (fun observations =>
         bind (_generate_activity_cards unreachable_service observations)
           (fun activity_cards => ret (observations, activity_cards))) [] =
    (OK ([failed_merge 1700000000 1700000900 e],
         [fallback_card ("10:13 PM", "10:28 PM")]),
     [] ++ [two_frames_prompt;
            ActivityPrompt
              [LineObservation "10:13 PM" "10:28 PM"
                 (PStr "Failed to merge frame descriptions")]]).
Proof.
  apply (stages_with_the_service_down unreachable_service two_frames
           1700000000 900 [] two_frames_prompt 1700000000 1700000900).
  - intros n p. eexists. reflexivity.
  - reflexivity.
  - reflexivity.
  - reflexivity.
  - vm_compute. reflexivity.
  - vm_compute. reflexivity.
Defined.

(** The merger is answered with an empty array. *)
Lemma empty_segments_stop_the_cards_witness :
  _merge_frame_descriptions (scripted ["[]"]) two_frames 1700000000 900 []
    = (OK [], [] ++ [two_frames_prompt]) /\
  bind (_merge_frame_descriptions (scripted ["[]"]) two_frames 1700000000 900)
    (fun observations =>
       bind (_generate_activity_cards (scripted ["[]"]) observations)
         (fun activity_cards => ret (observations, activity_cards))) [] =
  (Raise (Raised IndexError "list index out of range"),
   [] ++ [two_frames_prompt; ActivityPrompt []]).
Proof.
  apply (empty_segments_stop_the_cards (scripted ["[]"]) two_frames
           1700000000 900 [] two_frames_prompt 1700000000 1700000900 "[]");
    reflexivity.
Defined.

(** The two records in chunks of fifteen minutes with the service down. *)
Lemma chunks_with_the_service_down_witness :
  exists cards w',
    process_observations_in_chunks unreachable_service two_records 15 30 []
      = (OK (Some cards), w') /\
    Forall is_fallback_card cards.
Proof.
  apply (chunks_with_the_service_down unreachable_service two_records
           (mkRecord 0 600 (PStr "Editing code") None)
           (mkRecord 2700 3300 (PStr "Reading mail") None) 15 30 []).
  - intros n p. eexists. reflexivity.
  - reflexivity.
  - reflexivity.
  - intros o [<- | [<- | []]]; split; eexists; vm_compute; reflexivity.
  - reflexivity.
  - intros t Ht. apply utc_window_clock_defined. simpl in Ht. lia.
  - intros n. reflexivity.
  - intros n transcript. reflexivity.
Defined.

(** ** Frames on concrete runs *)

Import FrameSamples.

Lemma short_video_passes : @passes_on whole_seconds Z.ltb 75 3.
Proof.
  intros k. unfold FRAME_EXTRACTION_INTERVAL. rewrite Z.ltb_lt. lia.
Qed.

(** A video of 75 seconds whose frame at 30 s ffmpeg cannot write: the
    frames 0 and 2 are returned. *)
Lemma frames_of_a_video_witness :
  @_extract_frames whole_seconds quiet_host short_video Z.ltb camera 3
    = Some (OK [mkFrameData "/9j/4AAQ" 0 0; mkFrameData "/9j/4AAQ" 60 2]).
Proof.
  apply (@frames_of_a_video whole_seconds quiet_host short_video Z.ltb camera
           75 3 3).
  - reflexivity.
  - reflexivity.
  - exact short_video_passes.
  - intros k e _. unfold extraction_at, camera.
    destruct (_ =? 30); discriminate.
  - lia.
Defined.

(** The same video when the frame at 30 s cannot be read back, and when the
    frames directory cannot be created. *)
Lemma one_frame_stops_the_extraction_witness :
  @_extract_frames whole_seconds quiet_host short_video Z.ltb broken_camera 3
    = Some (Raise (Raised OtherException "open")) /\
  @_extract_frames whole_seconds locked_host short_video Z.ltb camera 3
    = Some (Raise (Raised OtherException "mkdir")).
Proof.
  split;
    [apply (proj2 (proj2 (@one_frame_stops_the_extraction whole_seconds
                            quiet_host short_video Z.ltb broken_camera 75 3 1 3
                            (Raised OtherException "open"))))
    |apply (proj1 (proj2 (@one_frame_stops_the_extraction whole_seconds
                            locked_host short_video Z.ltb camera 75 3 1 3
                            (Raised OtherException "mkdir"))));
     reflexivity].
  - reflexivity.
  - reflexivity.
  - exact short_video_passes.
  - lia.
  - reflexivity.
  - intros j e' Hj. assert (j = 0%nat) as -> by lia. discriminate.
  - lia.
Defined.

Lemma frame_numbers_follow_the_clock_witness :
  exists duration,
    short_video = OK duration /\
    Forall (@on_the_clock whole_seconds Z.ltb duration)
      [mkFrameData "/9j/4AAQ" 0 0; mkFrameData "/9j/4AAQ" 60 2] /\
    StronglySorted numbered_before
      [mkFrameData "/9j/4AAQ" 0 0; mkFrameData "/9j/4AAQ" 60 2].
Proof.
  apply (@frame_numbers_follow_the_clock whole_seconds quiet_host short_video
           Z.ltb camera 3).
  reflexivity.
Defined.

(** 1:05:30 is read back as it was; half a minute before the start is not. *)
Lemma whole_seconds_round_trip_witness :
  _parse_timestamp (PStr (_format_duration_int 3930)) = OK 3930 /\
  _parse_timestamp (PStr (_format_duration_int (-30))) = OK 3570.
Proof.
  split.
  - apply (@whole_seconds_round_trip whole_seconds runtime 3930); reflexivity.
  - apply (@whole_seconds_round_trip whole_seconds runtime (-30));
      [intros H; vm_compute in H; discriminate H | reflexivity | reflexivity].
Defined.

(** The two frames with the vision service down. *)
Lemma captions_follow_the_frames_witness :
  frame_descriptions_of blind_service 0
    [mkFrameData "/9j/4AAQ" 0 0; mkFrameData "/9j/4AAQ" 60 2]
  = [(0, "[Error analyzing frame at 00:00]");
     (60, "[Error analyzing frame at 01:00]")].
Proof.
  apply (proj2 (proj2 (captions_follow_the_frames blind_service 0
           [mkFrameData "/9j/4AAQ" 0 0; mkFrameData "/9j/4AAQ" 60 2]))).
  intros n frame. eexists. reflexivity.
Defined.
